(** * AIWorker orchestration routines

    Shallow embedding of [modules/AIWorker/backend/worker/functional.py]:
    the progress reporter, the state and metadata loaders and the four
    routines [_call_update_model], [_call_train],
    [_call_average_model_states] and [_call_inference].

    The routines are written in a state-and-exception monad over a [World]
    that holds the project's tables, the chronological log of everything
    the routine did to the outside (task-state updates, database statements,
    calls into the pluggable model) and the schedule of database faults.
    An exception keeps the world reached so far: nothing is rolled back.

    Left out: the [print] calls, and the [fileServer] argument, which the
    routines only pass along.  The [dbConnector] argument is the world's
    tables; the SQL text of each statement is read by [sql]. *)

From Stdlib Require Import Ascii QArith Qminmax Lqa.
From stdpp Require Import gmap strings list pretty.

Local Open Scope Z_scope.

(** ** Python values *)

(** A float is read as the rational it denotes; [NaN] is kept apart because
    [np.nanmean] looks for it.  Rounding and infinities are not modelled. *)
Inductive num : Type :=
| Fin (q : Q)
| NaN.

(** The values that travel through the routines: table cells, entries of a
    prediction dict, statistics.  [PArray] is a nested list of integers
    (a label map); [PJson] is a JSON object of numbers, identified with the
    text that encodes it ([json.dumps] / [json.loads]). *)
Inductive pyval : Type :=
| PNone
| PBool (b : bool)
| PInt (n : Z)
| PFloat (x : num)
| PStr (s : string)
| PBytes (b : list Z)
| PArray (a : list (list Z))
| PJson (d : gmap string num).

(** A Python dict with string keys: a result row of the connector, a
    prediction returned by the model. *)
Abbreviation pydict := (gmap string pyval).

(** A string where a value is expected is the Python string. *)
Coercion PStr : string >-> pyval.

(** [repr(v)] of a dict key.  The strings looked up are column and field
    names, free of quotes and escapes.  A float is shown by the integer or
    the quotient it denotes and bytes by their length, since neither the
    rounding of floats nor the escapes of bytes are modelled; lists and
    dicts are no keys. *)
Definition repr (v : pyval) : string :=
  match v with
  | PNone => "None"
  | PBool b => if b then "True" else "False"
  | PInt n => pretty n
  | PFloat NaN => "nan"
  | PFloat (Fin q) =>
      if bool_decide (Qnum q mod Zpos (Qden q) = 0)
      then pretty (Qnum q / Zpos (Qden q)) +:+ ".0"
      else pretty (Qnum q) +:+ "/" +:+ pretty (Zpos (Qden q))
  | PStr s => "'" +:+ s +:+ "'"
  | PBytes b => "b'" +:+ pretty (Z.of_nat (length b)) +:+ "'"
  | PArray _ | PJson _ => ""
  end.

(** The exceptions, each with what its [str] is made of: the key of a
    [KeyError], the name of the local variable of an [UnboundLocalError],
    the message of the others. *)
Inductive exn : Type :=
| KeyError (key : pyval)
| TypeError (msg : string)
| ValueError (msg : string)
| IndexError (msg : string)
| AttributeError (msg : string)
| DatabaseError (msg : string)
| UnboundLocalError (name : string)
| AdapterError (msg : string)
| Exception (msg : string).

(** [str(e)] *)
Definition str_exn (e : exn) : string :=
  match e with
  | KeyError k => repr k
  | UnboundLocalError n => "local variable '" +:+ n +:+ "' referenced before assignment"
  | TypeError m | ValueError m | IndexError m | AttributeError m | DatabaseError m
  | AdapterError m | Exception m => m
  end.

Inductive result (A : Type) : Type :=
| Ok (a : A)
| Raise (e : exn).
Arguments Ok {A} a.
Arguments Raise {A} e.

(** [d[k]] *)
Definition getitem (d : pydict) (k : string) : result pyval :=
  match d !! k with
  | Some v => Ok v
  | None => Raise (KeyError k)
  end.

(** [l[0]] *)
Definition first {A} (l : list A) : result A :=
  match l with
  | x :: _ => Ok x
  | [] => Raise (IndexError "list index out of range")
  end.

(** ** Tables *)

Record cnnstate_row : Type := mk_cnnstate {
  cs_id : Z;
  cs_timecreated : option Z;
  cs_statedict : pyval;
  cs_stats : pyval;
  cs_partial : bool;
  cs_model_library : pyval;
  cs_alcriterion_library : pyval
}.

Record labelclass_row : Type := mk_labelclass {
  lc_id : Z;
  lc_name : string;
  lc_idx : Z;
  lc_timecreated : option Z
}.

Record image_row : Type := mk_image {
  img_id : Z;
  img_filename : pyval;
  img_fvec : pyval
}.

(** An annotation keeps its geometry columns as a dict, since the column
    set depends on the project's annotation type. *)
Record annotation_row : Type := mk_annotation {
  an_id : Z;
  an_image : Z;
  an_fields : pydict
}.

(** The project's line in [aide_admin.project]. *)
Record project_row : Type := mk_project {
  pr_annotationtype : string;
  pr_predictiontype : string;
  pr_ai_model_library : pyval;
  pr_ai_alcriterion_library : pyval
}.

(** A stored prediction: the column names of the INSERT paired with the
    values of one tuple. *)
Abbreviation prediction_row := (list (string * pyval)).

Record Store : Type := mk_store {
  st_cnnstate : list cnnstate_row;
  st_labelclass : list labelclass_row;
  st_image : list image_row;
  st_annotation : list annotation_row;
  st_project : option project_row;
  st_prediction : list prediction_row;
  st_clock : Z;
  st_next_id : Z
}.

(** ** The world and its log *)

Record Meta : Type := mk_meta {
  m_project : string;
  m_epoch : option Z;
  m_done : option Q;
  m_total : option Q;
  m_message : option string
}.

Inductive Statement : Type :=
| SelectLatestState (lib : string)
| SelectLabelClasses
| SelectImages (ids : list Z)
| SelectAnnotationType
| SelectAnnotations (ids : list Z) (fieldNames : list string)
| SelectLibraryNames
| SelectUpdateCounts (lib : string)
| InsertState (statedict stats : pyval) (partial : bool) (lib alc : pyval)
| SelectPartialStates (lib : string)
| DeletePartialStates
| SelectPredictionType
| InsertPredictions (fieldNames : list string) (values : list (list pyval))
| UpsertFeatureVectors (values : list (Z * list Z)).

Inductive AdapterCall : Type :=
| CallTrain (stateDict : pyval)
| CallUpdateModel (stateDict : pyval)
| CallAverageModelStates (stateDicts : list pyval)
| CallInference (stateDict : pyval) (imageIDs : list Z)
| CallRank (stateDict : pyval).

Inductive Event : Type :=
| EvTask (state : string) (meta : Meta)
| EvDb (stmt : Statement) (ok : bool)
| EvAdapter (call : AdapterCall).

(** [w_faults] lists the database calls (counted from 0 over the run) at
    which the connector raises instead of executing. *)
Record World : Type := mk_world {
  w_store : Store;
  w_events : list Event;
  w_calls : nat;
  w_faults : list nat
}.

Definition M (A : Type) : Type := World -> result A * World.

Definition ret {A} (a : A) : M A := fun w => (Ok a, w).
Definition raise {A} (e : exn) : M A := fun w => (Raise e, w).
Definition bind {A B} (m : M A) (k : A -> M B) : M B :=
  fun w => match m w with
           | (Ok a, w') => k a w'
           | (Raise e, w') => (Raise e, w')
           end.
Definition lift {A} (r : result A) : M A := fun w => (r, w).

Declare Scope py_scope.
Delimit Scope py_scope with py.
Notation "x <- m ;; k" := (bind m (fun x => k))
  (at level 100, m at next level, right associativity) : py_scope.
Notation "m ;;; k" := (bind m (fun _ => k))
  (at level 100, right associativity) : py_scope.
Local Open Scope py_scope.

(** [try: m  except Exception as e: print(e); raise Exception(msg e)] *)
Definition try_reraise {A} (m : M A) (msg : exn -> string) : M A :=
  fun w => match m w with
           | (Ok a, w') => (Ok a, w')
           | (Raise e, w') => (Raise (Exception (msg e)), w')
           end.

(** [try: m  except: h] *)
Definition try_except {A} (m : M A) (h : M A) : M A :=
  fun w => match m w with
           | (Ok a, w') => (Ok a, w')
           | (Raise _, w') => h w'
           end.

(** The world after one more log entry. *)
Definition logged (w : World) (e : Event) : World :=
  mk_world (w_store w) (w_events w ++ [e]) (w_calls w) (w_faults w).

Definition emit (e : Event) : M unit := fun w => (Ok tt, logged w e).

(** [for x in l: body x] *)
Fixpoint for_each {A} (l : list A) (body : A -> M unit) : M unit :=
  match l with
  | [] => ret tt
  | x :: l' => body x ;;; for_each l' body
  end.

(** ** Progress reporting: [__get_message_fun] *)

(** The counts are integers or floats in the source; both are read in [Q].
    [None] stands for an argument that is not a number. *)
Definition progress_meta (project : string) (cumulatedTotal : option Q) (offset : Q)
    (epoch numEpochs : option Z) (message : option string) (done total : option Q) : Meta :=
  let counts :=
    match done, total with
    | Some done, Some total =>
        let trueTotal := (total + offset)%Q in
        let trueTotal := match cumulatedTotal with
                         | Some c => Qmax trueTotal c
                         | None => trueTotal
                         end in
        let d := Qmin (done + offset)%Q trueTotal in
        Some (d, Qmax d trueTotal)
    | _, _ => None
    end in
  let message_combined :=
    match epoch, numEpochs with
    | Some e, Some n =>
        if bool_decide (1 < n) then "[Epoch " +:+ pretty e +:+ "/" +:+ pretty n +:+ "] " else ""
    | _, _ => ""
    end in
  let message_combined :=
    match message with
    | Some m => message_combined +:+ m
    | None => message_combined
    end in
  mk_meta project epoch (fst <$> counts) (snd <$> counts)
    (if bool_decide (message_combined = "") then None else Some message_combined).

(** The closure [__on_message]; it hands the state and the meta dict to
    [current_task.update_state]. *)
Definition __on_message (project : string) (cumulatedTotal : option Q) (offset : Q)
    (epoch numEpochs : option Z) (state : string) (message : option string)
    (done total : option Q) : M unit :=
  emit (EvTask state (progress_meta project cumulatedTotal offset epoch numEpochs message done total)).

Definition __get_message_fun (project : string) (cumulatedTotal : option Q) (offset : Q)
    (epoch numEpochs : option Z) : string -> option string -> option Q -> option Q -> M unit :=
  __on_message project cumulatedTotal offset epoch numEpochs.

(** ** The connector

    Each SQL statement of the source is read as a function on the tables.
    A result row is a dict keyed by the lower-cased names of the SELECT
    list, which is how every read in the source addresses it
    ([result[0]['statedict']] for [SELECT query.statedict],
    [result[0]['annotationtype']] for [SELECT annotationType], ...). *)

Definition of_time (t : option Z) : pyval :=
  match t with Some t => PInt t | None => PNone end.

(** [model_library = %s] *)
Definition is_lib (lib : string) (v : pyval) : bool :=
  match v with PStr s => bool_decide (s = lib) | _ => false end.

(** [a] sorts strictly before [b] under [ORDER BY timecreated DESC NULLS LAST]. *)
Definition newer (a b : option Z) : bool :=
  match a, b with
  | Some x, Some y => bool_decide (y < x)
  | Some _, None => true
  | None, _ => false
  end.

Fixpoint latest_of (best : cnnstate_row) (l : list cnnstate_row) : cnnstate_row :=
  match l with
  | [] => best
  | r :: l' => latest_of (if newer (cs_timecreated r) (cs_timecreated best) then r else best) l'
  end.

(** [ORDER BY timecreated DESC NULLS LAST LIMIT 1]; among rows of equal
    time the first in table order is taken. *)
Definition latest_state (rows : list cnnstate_row) : option cnnstate_row :=
  match rows with
  | [] => None
  | r :: l => Some (latest_of r l)
  end.

Definition states_of (lib : string) (s : Store) : list cnnstate_row :=
  filter (fun r => is_lib lib (cs_model_library r) = true) (st_cnnstate s).

(** [SELECT MAX(timeCreated)]: NULLs are skipped, no value gives NULL. *)
Definition max_time (rows : list cnnstate_row) : option Z :=
  foldr (fun r acc => match cs_timecreated r, acc with
                      | Some t, Some m => Some (Z.max t m)
                      | Some t, None => Some t
                      | None, acc => acc
                      end) None rows.

(** [timeCreated >= (SELECT MAX ...)]: a comparison with NULL selects nothing. *)
Definition created_since (m : option Z) (c : labelclass_row) : bool :=
  match lc_timecreated c, m with
  | Some t, Some m => bool_decide (m <= t)
  | _, _ => false
  end.

Definition count_row (n : nat) : pydict := {[ "count" := PInt (Z.of_nat n) ]}.

Definition labelclass_dict (c : labelclass_row) : pydict :=
  {[ "id" := PInt (lc_id c); "name" := PStr (lc_name c); "idx" := PInt (lc_idx c);
     "timecreated" := of_time (lc_timecreated c) ]}.

Definition image_dict (i : image_row) : pydict :=
  {[ "id" := PInt (img_id i); "filename" := img_filename i; "fvec" := img_fvec i ]}.

Definition annotation_dict (fieldNames : list string) (a : annotation_row) : pydict :=
  foldr (fun fn d => <[ fn := default PNone (an_fields a !! fn) ]> d)
        {[ "annotationid" := PInt (an_id a); "image" := PInt (an_image a) ]} fieldNames.

(** The row of [SELECT stateDict, statistics, model_library, alcriterion_library]
    (lines 341-346).  The cell under ["statistics"] is filled from the
    statistics the INSERTs write; the source never reads that key. *)
Definition partial_state_dict (r : cnnstate_row) : pydict :=
  {[ "statedict" := cs_statedict r; "statistics" := cs_stats r;
     "model_library" := cs_model_library r;
     "alcriterion_library" := cs_alcriterion_library r ]}.

Definition upsert_fvec (images : list image_row) (v : Z * list Z) : list image_row :=
  if existsb (fun i => bool_decide (img_id i = v.1)) images
  then map (fun i => if bool_decide (img_id i = v.1)
                     then mk_image (img_id i) (img_filename i) (PBytes v.2) else i) images
  else images ++ [mk_image v.1 PNone (PBytes v.2)].

Definition set_cnnstate (s : Store) (rows : list cnnstate_row) (next : Z) : Store :=
  mk_store rows (st_labelclass s) (st_image s) (st_annotation s) (st_project s)
           (st_prediction s) (st_clock s) next.

Definition set_prediction (s : Store) (rows : list prediction_row) : Store :=
  mk_store (st_cnnstate s) (st_labelclass s) (st_image s) (st_annotation s) (st_project s)
           rows (st_clock s) (st_next_id s).

Definition set_image (s : Store) (rows : list image_row) : Store :=
  mk_store (st_cnnstate s) (st_labelclass s) rows (st_annotation s) (st_project s)
           (st_prediction s) (st_clock s) (st_next_id s).

(** What a statement returns and how it leaves the tables. *)
Definition sql (stmt : Statement) (s : Store) : list pydict * Store :=
  match stmt with
  | SelectLatestState lib =>
      (match latest_state (states_of lib s) with
       | Some r => [ {[ "statedict" := cs_statedict r; "id" := PInt (cs_id r) ]} ]
       | None => []
       end, s)
  | SelectLabelClasses => (labelclass_dict <$> st_labelclass s, s)
  | SelectImages ids =>
      (image_dict <$> filter (fun i => img_id i ∈ ids) (st_image s), s)
  | SelectAnnotationType =>
      (match st_project s with
       | Some p => [ {[ "annotationtype" := PStr (pr_annotationtype p) ]} ]
       | None => []
       end, s)
  | SelectAnnotations ids fieldNames =>
      (annotation_dict fieldNames <$> filter (fun a => an_image a ∈ ids) (st_annotation s), s)
  | SelectLibraryNames =>
      (match st_project s with
       | Some p => [ {[ "ai_model_library" := pr_ai_model_library p;
                        "ai_alcriterion_library" := pr_ai_alcriterion_library p ]} ]
       | None => []
       end, s)
  | SelectUpdateCounts lib =>
      let states := states_of lib s in
      ([ count_row (length states);
         count_row (length (filter (fun c => created_since (max_time states) c = true)
                                   (st_labelclass s))) ], s)
  | InsertState statedict stats partial lib alc =>
      ([], set_cnnstate s
             (st_cnnstate s ++ [mk_cnnstate (st_next_id s) (Some (st_clock s)) statedict stats
                                            partial lib alc])
             (st_next_id s + 1))
  | SelectPartialStates lib =>
      (partial_state_dict <$> filter (fun r => cs_partial r = true) (states_of lib s), s)
  | DeletePartialStates =>
      ([], set_cnnstate s (filter (fun r => cs_partial r = false) (st_cnnstate s)) (st_next_id s))
  | SelectPredictionType =>
      (match st_project s with
       | Some p => [ {[ "predictiontype" := PStr (pr_predictiontype p) ]} ]
       | None => []
       end, s)
  | InsertPredictions fieldNames values =>
      ([], set_prediction s (st_prediction s ++ (zip fieldNames <$> values)))
  | UpsertFeatureVectors values =>
      ([], set_image s (foldl upsert_fvec (st_image s) values))
  end.

(** The world after one more database call. *)
Definition called (w : World) (stmt : Statement) (ok : bool) (s' : Store) : World :=
  mk_world s' (w_events w ++ [EvDb stmt ok]) (S (w_calls w)) (w_faults w).

(** [dbConnector.execute] / [dbConnector.insert]: the call is logged; at a
    scheduled fault it raises and leaves the tables as they were. *)
Definition execute (stmt : Statement) : M (list pydict) :=
  fun w =>
    if bool_decide (w_calls w ∈ w_faults w)
    then (Raise (DatabaseError "connection failure"), called w stmt false (w_store w))
    else (Ok (sql stmt (w_store w)).1, called w stmt true (sql stmt (w_store w)).2).

(** ** The pluggable model and ranker *)

(** One call of [updateStateFun] made from inside the model. *)
Record ProgressCall : Type := mk_call {
  pc_state : string;
  pc_message : option string;
  pc_done : option Q;
  pc_total : option Q
}.

(** A Python dict with integer keys, as [data['labelClasses']] and
    [data['images']] are: its entries, and its keys in the order in which
    they were first assigned, which is the order a loop over the dict
    follows. *)
Record odict (V : Type) : Type := mk_odict {
  od_items : gmap Z V;
  od_keys : list Z
}.
Arguments mk_odict {V} _ _.
Arguments od_items {V} _.
Arguments od_keys {V} _.

(** [d[k]] and [k in d] *)
#[global] Instance odict_lookup {V} : Lookup Z V (odict V) := fun k d => od_items d !! k.

(** [{}] *)
#[global] Instance odict_empty {V} : Empty (odict V) := mk_odict ∅ [].

(** [d[k] = v]: a new key goes to the end, a known key keeps its place. *)
#[global] Instance odict_insert {V} : Insert Z V (odict V) :=
  fun k v d =>
    mk_odict (<[ k := v ]> (od_items d))
             (match od_items d !! k with
              | Some _ => od_keys d
              | None => od_keys d ++ [k]
              end).

(** [len(d)]: the number of entries. *)
#[global] Instance odict_size {V} : Size (odict V) := fun d => size (od_items d).

Record ImageMeta : Type := mk_image_meta {
  im_row : pydict;
  im_annotations : option (list pydict)
}.

Record Metadata : Type := mk_metadata {
  labelClasses : odict pydict;
  images : odict ImageMeta
}.

(** [result[imgID]]: the predictions and, when present, the feature vector. *)
Record ImageResult : Type := mk_image_result {
  ir_predictions : list pydict;
  ir_fVec : option (list Z)
}.

(** The dict returned by [inference], in insertion order. *)
Abbreviation InferenceResult := (list (Z * ImageResult)).

(** The second element of a tuple returned by [train], as [_call_train]
    looks at it.  A dict is handed to [json.dumps], a library function: the
    dict is given by what [json.dumps] makes of it, its JSON text or the
    exception it raises for an entry it cannot serialise. *)
Inductive StatsValue : Type :=
| SvDict (dumps : result pyval)
| SvOther (v : pyval).

(** What [train] returns: anything that is not a tuple, or a tuple.  A
    tuple may have any length; [_call_train] reads its first two elements
    and no other. *)
Inductive TrainResult : Type :=
| TrState (stateDict : pyval)
| TrEmpty
| TrSingle (stateDict : pyval)
| TrTuple (stateDict : pyval) (stats : StatsValue).

(** A call into the model yields the progress calls it made, in order, and
    then its value or its exception.  [update_model] and
    [average_model_states] are optional members; [None] is a missing
    attribute.  [class_name] is [type(modelInstance).__name__], which the
    message of a missing attribute names. *)
Record ModelInstance : Type := mk_model {
  class_name : string;
  train : pyval -> Metadata -> list ProgressCall * result TrainResult;
  inference : pyval -> Metadata -> list ProgressCall * result InferenceResult;
  update_model : option (pyval -> Metadata -> list ProgressCall * result pyval);
  average_model_states : option (list pyval -> list ProgressCall * result pyval)
}.

Record RankerInstance : Type := mk_ranker {
  rank : option (InferenceResult -> pyval -> list ProgressCall * result InferenceResult)
}.

Definition UpdateStateFun : Type := string -> option string -> option Q -> option Q -> M unit.

Definition run_adapter {A} (update_state : UpdateStateFun)
    (out : list ProgressCall * result A) : M A :=
  for_each out.1 (fun c => update_state (pc_state c) (pc_message c) (pc_done c) (pc_total c)) ;;;
  lift out.2.

(** ** Helpers of the embedding *)

Definition rbind {A B} (r : result A) (k : A -> result B) : result B :=
  match r with Ok a => k a | Raise e => Raise e end.

Fixpoint foldM {A B} (f : B -> A -> result B) (l : list A) (b : B) : result B :=
  match l with
  | [] => Ok b
  | x :: l' => rbind (f b x) (foldM f l')
  end.

Fixpoint mapM {A B} (f : A -> result B) (l : list A) : result (list B) :=
  match l with
  | [] => Ok []
  | x :: l' => rbind (f x) (fun y => rbind (mapM f l') (fun ys => Ok (y :: ys)))
  end.

Definition as_int (v : pyval) : result Z :=
  match v with
  | PInt n => Ok n
  | _ => Raise (TypeError "integer expected")
  end.

Definition as_str (v : pyval) : result string :=
  match v with
  | PStr s => Ok s
  | _ => Raise (TypeError "attribute name must be string")
  end.

(** [len(l)] as a Python integer *)
Definition len {A} (l : list A) : Z := Z.of_nat (length l).

(** [f'{epoch}'] *)
Definition fmt (e : option Z) : string :=
  match e with Some e => pretty e | None => "None" end.

(** [psycopg2.Binary(b)] hands the bytes to the connector unchanged. *)
Definition Binary (b : pyval) : pyval := b.

(** An [Enum] of field-name sets ([constants/dbFieldNames.py], not among
    the sources): [getattr(E, name).value] as a list, [None] for a missing
    member.  The [AttributeError] of an [Enum] says the name and no more. *)
Definition FieldNames : Type := string -> option (list string).

Definition getattr (E : FieldNames) (name : string) : result (list string) :=
  match E name with
  | Some v => Ok v
  | None => Raise (AttributeError name)
  end.

(** Modelled from the spec: [array_split] of [util/helpers.py], which is
    not among the sources.  The image ids are cut into contiguous chunks of
    [size] elements, in order; the last chunk may be smaller. *)
Fixpoint array_split_fuel {A} (fuel : nat) (arr : list A) (size : nat) : list (list A) :=
  match fuel with
  | O => [arr]
  | S fuel' =>
      if decide (length arr <= size)%nat then [arr]
      else take size arr :: array_split_fuel fuel' (drop size arr) size
  end.

Definition array_split {A} (arr : list A) (size : Z) : list (list A) :=
  array_split_fuel (length arr) arr (Z.to_nat size).

(** ** Loading the model state and the metadata *)

Definition __load_model_state (project modelLibrary : string) : M (pyval * pyval) :=
  result <- execute (SelectLatestState modelLibrary) ;;
  match result with
  | [] => ret (PNone, PNone)
  | r :: _ =>
      stateDict <- lift (getitem r "statedict") ;;
      stateDictID <- lift (getitem r "id") ;;
      ret (stateDict, stateDictID)
  end.

Definition add_annotation (imageMeta : odict ImageMeta) (r : pydict)
    : result (odict ImageMeta) :=
  rbind (rbind (getitem r "image") as_int) (fun i =>
  match imageMeta !! i with
  | None => Raise (KeyError (PInt i))
  | Some m =>
      Ok (<[ i := mk_image_meta (im_row m) (Some (default [] (im_annotations m) ++ [r])) ]>
            imageMeta)
  end).

Definition __load_metadata (FieldNames_annotation : FieldNames) (project : string)
    (imageIDs : option (list Z)) (loadAnnotations : bool) : M Metadata :=
  let imageIDs := default [] imageIDs in
  result <- execute SelectLabelClasses ;;
  labels <- lift (foldM (fun (labels : odict pydict) r =>
                           rbind (rbind (getitem r "id") as_int)
                                 (fun i => Ok (<[ i := r ]> labels)))
                        result ∅) ;;
  imageMeta <-
    (if bool_decide (imageIDs = []) then ret (∅ : odict ImageMeta)
     else
       result <- execute (SelectImages imageIDs) ;;
       lift (foldM (fun (imageMeta : odict ImageMeta) r =>
                      rbind (rbind (getitem r "id") as_int)
                            (fun i => Ok (<[ i := mk_image_meta r None ]> imageMeta)))
                   result ∅)) ;;
  imageMeta <-
    (if loadAnnotations && negb (bool_decide (imageIDs = [])) then
       result <- execute SelectAnnotationType ;;
       annoType <- lift (rbind (rbind (first result) (fun r => getitem r "annotationtype")) as_str) ;;
       fieldNames <- lift (getattr FieldNames_annotation annoType) ;;
       result <- execute (SelectAnnotations imageIDs fieldNames) ;;
       lift (foldM add_annotation result imageMeta)
     else ret imageMeta) ;;
  ret (mk_metadata labels imageMeta).

(** The [finally: return] swallows whatever the query or the indexing raises. *)
Definition __get_ai_library_names (project : string) : M (pyval * pyval) :=
  fun w =>
    match execute SelectLibraryNames w with
    | (Ok result, w') =>
        match first result with
        | Ok r =>
            match getitem r "ai_model_library" with
            | Ok model_library =>
                match getitem r "ai_alcriterion_library" with
                | Ok alcriterion_library => (Ok (model_library, alcriterion_library), w')
                | Raise _ => (Ok (model_library, PNone), w')
                end
            | Raise _ => (Ok (PNone, PNone), w')
            end
        | Raise _ => (Ok (PNone, PNone), w')
        end
    | (Raise _, w') => (Ok (PNone, PNone), w')
    end.

(** ** [_call_update_model] *)

Definition _call_update_model (FieldNames_annotation : FieldNames) (project : string)
    (numEpochs : option Z) (modelInstance : ModelInstance) (modelLibrary : string) : M unit :=
  let update_state := __get_message_fun project None 0 None numEpochs in
  let tag := "[" +:+ project +:+ " - model update] " in
  match update_model modelInstance with
  | None =>
      (* abort if model does not support updating *)
      update_state "SUCCESS"
        (Some (tag +:+ "WARNING: model does not support modification to new label classes and has not been updated."))
        None None
  | Some update_model =>
      (* check if new label classes were added *)
      result <- execute (SelectUpdateCounts modelLibrary) ;;
      count0 <- lift (rbind (rbind (first result) (fun r => getitem r "count")) as_int) ;;
      count1 <- lift (rbind (rbind (first (drop 1 result)) (fun r => getitem r "count")) as_int) ;;
      if bool_decide (0 < count0) && bool_decide (count1 = 0) then
        (* neither new model selected (first condition) nor new label classes added (second) *)
        update_state "SUCCESS"
          (Some (tag +:+ "class definition has not changed; model did not need to be updated."))
          None None
      else
        (* load model state *)
        update_state "PREPARING" (Some (tag +:+ "loading model state")) None None ;;;
        sd <- try_reraise (__load_model_state project modelLibrary)
                (fun e => tag +:+ "error during model state loading (reason: " +:+ str_exn e +:+ ")") ;;
        let stateDict := sd.1 in
        (* load labels and other metadata *)
        update_state "PREPARING" (Some (tag +:+ "loading metadata")) None None ;;;
        data <- try_reraise (__load_metadata FieldNames_annotation project None true)
                  (fun e => tag +:+ "error during metadata loading (reason: " +:+ str_exn e +:+ ")") ;;
        (* call update function *)
        stateDict <- try_reraise
                       (update_state "PREPARING" (Some (tag +:+ "initiating model update")) None None ;;;
                        emit (EvAdapter (CallUpdateModel stateDict)) ;;;
                        run_adapter update_state (update_model stateDict data))
                       (fun e => tag +:+ "error during model update (reason: " +:+ str_exn e +:+ ")") ;;
        (* commit state dict to database *)
        try_reraise
          (update_state "FINALIZING" (Some (tag +:+ "saving model state")) None None ;;;
           libs <- __get_ai_library_names project ;;
           execute (InsertState (Binary stateDict) PNone false libs.1 libs.2) ;;;
           ret tt)
          (fun e => tag +:+ "error during data committing (reason: " +:+ str_exn e +:+ ")") ;;;
        update_state "SUCCESS" (Some "model updated") None None
  end.

(** ** [_call_train] *)

(** Lines 295-306, which stand outside every [try]: [result[0]] and
    [result[1]] of a tuple, and [json.dumps] of a dict. *)
Definition unpack_train_result (result_ : TrainResult) : result (pyval * pyval) :=
  match result_ with
  | TrState stateDict => Ok (stateDict, PNone)
  | TrEmpty | TrSingle _ => Raise (IndexError "tuple index out of range")
  | TrTuple stateDict (SvDict dumps) => rbind dumps (fun stats => Ok (stateDict, stats))
  | TrTuple stateDict (SvOther _) => Ok (stateDict, PNone)
  end.

Definition _call_train (FieldNames_annotation : FieldNames) (project : string)
    (imageIDs : list Z) (epoch numEpochs : option Z) (subset : bool)
    (modelInstance : ModelInstance) (modelLibrary : string) : M unit :=
  let update_state := __get_message_fun project (Some (inject_Z (len imageIDs))) 0 epoch numEpochs in
  let tag := "[Epoch " +:+ fmt epoch +:+ "] " in
  (* load model state *)
  update_state "PREPARING" (Some (tag +:+ "loading model state")) None None ;;;
  sd <- try_reraise (__load_model_state project modelLibrary)
          (fun e => tag +:+ "error during model state loading (reason: " +:+ str_exn e +:+ ")") ;;
  let stateDict := sd.1 in
  (* load labels and other metadata *)
  update_state "PREPARING" (Some (tag +:+ "loading metadata")) None None ;;;
  data <- try_reraise (__load_metadata FieldNames_annotation project (Some imageIDs) true)
            (fun e => tag +:+ "error during metadata loading (reason: " +:+ str_exn e +:+ ")") ;;
  (* call training function *)
  result <- try_reraise
              (update_state "PREPARING" (Some (tag +:+ "initiating training")) None None ;;;
               emit (EvAdapter (CallTrain stateDict)) ;;;
               run_adapter update_state (train modelInstance stateDict data))
              (fun e => tag +:+ "error during training (reason: " +:+ str_exn e +:+ ")") ;;
  (* separate model state and statistics (if provided) *)
  unpacked <- lift (unpack_train_result result) ;;
  let '(stateDict, stats) := unpacked in
  (* commit state dict to database *)
  try_reraise
    (update_state "FINALIZING" (Some (tag +:+ "saving model state")) None None ;;;
     libs <- __get_ai_library_names project ;;
     execute (InsertState (Binary stateDict) stats subset libs.1 libs.2) ;;;
     ret tt)
    (fun e => tag +:+ "error during data committing (reason: " +:+ str_exn e +:+ ")") ;;;
  update_state "SUCCESS" (Some ("trained on " +:+ pretty (len imageIDs) +:+ " images")) None None.

(** ** [_call_average_model_states] *)

(** [json.loads(v)]: the argument has to be JSON text. *)
Definition json_loads (v : pyval) : result (gmap string num) :=
  match v with
  | PJson d => Ok d
  | _ => Raise (TypeError "the JSON object must be str, bytes or bytearray")
  end.

(** [np.nanmean(l)]: the mean of the entries that are not NaN; NaN when
    there is none. *)
Definition nanmean (l : list num) : num :=
  let fin := omap (fun x => match x with Fin q => Some q | NaN => None end) l in
  match fin with
  | [] => NaN
  | _ => Fin (Qred (foldr Qplus 0%Q fin / inject_Z (len fin)))
  end.

(** [[json.loads(qr['stats']) for qr in queryResult if qr['stats'] is not None]] *)
Definition stats_dicts (queryResult : list pydict) : result (list (gmap string num)) :=
  foldM (fun dicts qr =>
           rbind (getitem qr "stats") (fun v =>
           match v with
           | PNone => Ok dicts
           | v => rbind (json_loads v) (fun d => Ok (dicts ++ [d]))
           end))
        queryResult [].

(** Lines 367-374: one mean per key, over the dicts that have the key. *)
Definition average_stats (dicts : list (gmap string num)) : pyval :=
  let keys : gset string := ⋃ (dom <$> dicts) in
  let stats_avg : gmap string num :=
    set_to_map (fun key => (key, nanmean (omap (fun d => d !! key) dicts))) keys in
  if bool_decide (size stats_avg = 0%nat) then PNone else PJson stats_avg.

(** Lines 376-406: the fused state is committed, then the partial states
    are purged. *)
Definition push_and_purge (project : string) (epoch numEpochs : option Z)
    (queryResult : list pydict) (modelStates_avg stats_avg : pyval) : M unit :=
  let update_state := __get_message_fun project None 0 epoch numEpochs in
  let tag := "[Epoch " +:+ fmt epoch +:+ "] " in
  (* push to database *)
  update_state "FINALIZING" (Some (tag +:+ "saving model state")) None None ;;;
  libs <- try_except
            (lift (rbind (first queryResult) (fun r =>
                   rbind (getitem r "model_library") (fun model_library =>
                   rbind (getitem r "alcriterion_library") (fun alcriterion_library =>
                   Ok (model_library, alcriterion_library))))))
            (__get_ai_library_names project) ;;
  try_reraise (execute (InsertState modelStates_avg stats_avg false libs.1 libs.2))
    (fun e => tag +:+ "error during data committing (reason: " +:+ str_exn e +:+ ")") ;;;
  (* delete partial model states *)
  update_state "FINALIZING" (Some (tag +:+ "purging cache")) None None ;;;
  try_reraise (execute DeletePartialStates)
    (fun e => tag +:+ "error during cache purging (reason: " +:+ str_exn e +:+ ")") ;;;
  (* all done *)
  update_state "SUCCESS"
    (Some (tag +:+ "averaged " +:+ pretty (len queryResult) +:+ " model states")) None None.

Definition _call_average_model_states (project : string) (epoch numEpochs : option Z)
    (modelInstance : ModelInstance) (modelLibrary : string) : M unit :=
  let update_state := __get_message_fun project None 0 epoch numEpochs in
  let tag := "[Epoch " +:+ fmt epoch +:+ "] " in
  (* get all model states *)
  update_state "PREPARING" (Some (tag +:+ "loading model states")) None None ;;;
  queryResult <- try_reraise (execute (SelectPartialStates modelLibrary))
                   (fun e => tag +:+ "error during model state loading (reason: " +:+ str_exn e +:+ ")") ;;
  if bool_decide (queryResult = []) then
    (* no states to be averaged; return *)
    update_state "SUCCESS" (Some (tag +:+ "no model states to be averaged")) None None
  else
    (* do the work *)
    update_state "PREPARING" (Some (tag +:+ "averaging models")) None None ;;;
    modelStates_avg <-
      try_reraise
        (modelStates <- lift (mapM (fun qr => getitem qr "statedict") queryResult) ;;
         match average_model_states modelInstance with
         | None =>
             raise (AttributeError ("'" +:+ class_name modelInstance +:+
                                    "' object has no attribute 'average_model_states'"))
         | Some average_model_states =>
             emit (EvAdapter (CallAverageModelStates modelStates)) ;;;
             run_adapter update_state (average_model_states modelStates)
         end)
        (fun e => tag +:+ "error during model state fusion (reason: " +:+ str_exn e +:+ ")") ;;
    (* average statistics values (if present) *)
    dicts <- lift (stats_dicts queryResult) ;;
    let stats_avg := average_stats dicts in
    push_and_purge project epoch numEpochs queryResult modelStates_avg stats_avg.

(** ** [_call_inference] *)

(** The base64 alphabet. *)
Definition b64_char (n : Z) : ascii :=
  ascii_of_nat (Z.to_nat
    (if bool_decide (n < 26) then 65 + n
     else if bool_decide (n < 52) then 97 + (n - 26)
     else if bool_decide (n < 62) then 48 + (n - 52)
     else if bool_decide (n = 62) then 43 else 47)).

(** [base64.b64encode(bytes).decode('utf-8')] *)
Fixpoint b64encode (l : list Z) : string :=
  match l with
  | [] => ""
  | [a] =>
      String (b64_char (a / 4)) (String (b64_char (a mod 4 * 16)) "==")
  | [a; b] =>
      String (b64_char (a / 4)) (String (b64_char (a mod 4 * 16 + b / 16))
        (String (b64_char (b mod 16 * 4)) "="))
  | a :: b :: c :: l' =>
      String (b64_char (a / 4)) (String (b64_char (a mod 4 * 16 + b / 16))
        (String (b64_char (b mod 16 * 4 + c / 64)) (String (b64_char (c mod 64))
          (b64encode l'))))
  end.

(** [np.array(label).astype(np.uint8)] and [height, width = segMask.shape]:
    a rectangular nested list has two dimensions; a ragged one cannot be
    cast; the empty list has one dimension and a number none, which the
    unpacking rejects; [None] and a dict make an array of one object that
    cannot be cast.  Text and bytes are taken not to spell a number. *)
Definition shape2 (label : pyval) : result (Z * Z) :=
  match label with
  | PArray (r :: rows) =>
      if forallb (fun r' => bool_decide (length r' = length r)) rows
      then Ok (len (r :: rows), len r)
      else Raise (ValueError "setting an array element with a sequence.")
  | PArray [] => Raise (ValueError "not enough values to unpack (expected 2, got 1)")
  | PBool _ | PInt _ | PFloat _ =>
      Raise (ValueError "not enough values to unpack (expected 2, got 0)")
  | PNone =>
      Raise (TypeError
               "int() argument must be a string, a bytes-like object or a number, not 'NoneType'")
  | PJson _ =>
      Raise (TypeError
               "int() argument must be a string, a bytes-like object or a number, not 'dict'")
  | PStr _ | PBytes _ =>
      Raise (ValueError ("invalid literal for int() with base 10: " +:+ repr label))
  end.

(** [segMask.ravel()] after [astype(np.uint8)] *)
Definition ravel_uint8 (label : pyval) : list Z :=
  match label with
  | PArray rows => (fun x => x mod 256) <$> concat rows
  | _ => []
  end.

(** The segmentation mask of an image as it is stored, with its dimensions. *)
Record SegMask : Type := mk_segmask {
  segMask : string;
  seg_width : Z;
  seg_height : Z
}.

(** Lines 489-496; the label is the one of the image's first prediction. *)
Definition encode_segmask (predictions : list pydict) : result SegMask :=
  rbind (rbind (first predictions) (fun p => getitem p "label")) (fun label =>
  rbind (shape2 label) (fun hw =>
  Ok (mk_segmask (b64encode (ravel_uint8 label)) hw.2 hw.1))).

(** Lines 500-528: the value stored under one field name. *)
Definition field_value (predType : string) (imgID : Z) (stateDictID : pyval)
    (seg : option SegMask) (prediction : pydict) (fn : string) : result pyval :=
  if bool_decide (fn = "image") then Ok (PInt imgID)
  else if bool_decide (fn = "cnnstate") then Ok stateDictID
  else if bool_decide (fn = "segmentationmask") then
    match seg with
    | Some s => Ok (PStr (segMask s))
    | None => Raise (UnboundLocalError "segMask")
    end
  else if bool_decide (fn = "width") || bool_decide (fn = "height") then
    if bool_decide (predType = "segmentationMasks") then
      match seg with
      | Some s => Ok (PInt (if bool_decide (fn = "width") then seg_width s else seg_height s))
      | None => Raise (UnboundLocalError "segMaskDimensions")
      end
    else match prediction !! fn with
         | Some v => Ok v
         | None => Ok PNone
         end
  else if bool_decide (fn = "priority") then
    match prediction !! fn, prediction !! "confidence" with
    | Some PNone, Some confidence =>
        (* ranker somehow didn't assign value; use confidence by default *)
        Ok confidence
    | _, _ => getitem prediction fn
    end
  else match prediction !! fn with
       | Some v => Ok v
       | None => Ok PNone
       end.

(** One tuple of [values_pred]. *)
Definition project_prediction (predType : string) (fieldNames : list string) (imgID : Z)
    (stateDictID : pyval) (predictions : list pydict) (prediction : pydict)
    : result (list pyval) :=
  rbind (if bool_decide (predType = "segmentationMasks")
         then rbind (encode_segmask predictions) (fun s => Ok (Some s))
         else Ok None) (fun seg =>
  mapM (field_value predType imgID stateDictID seg prediction) fieldNames).

(** Lines 485-533: the tuples for the prediction table and the feature
    vectors for the image table. *)
Definition parse_result (predType : string) (fieldNames : list string) (stateDictID : pyval)
    (result_ : InferenceResult) : result (list (list pyval) * list (Z * list Z)) :=
  foldM (fun (acc : list (list pyval) * list (Z * list Z)) (entry : Z * ImageResult) =>
           let '(imgID, r) := entry in
           rbind (mapM (project_prediction predType fieldNames imgID stateDictID
                          (ir_predictions r)) (ir_predictions r)) (fun rows =>
           Ok (acc.1 ++ rows,
               match ir_fVec r with
               | Some (b :: v) => acc.2 ++ [(imgID, b :: v)]
               | _ => acc.2
               end)))
        result_ ([], []).

(** [idx*batchSizeLimit] *)
Definition py_mul (idx : nat) (batchSizeLimit : option Z) : result Z :=
  match batchSizeLimit with
  | Some n => Ok (Z.of_nat idx * n)
  | None => Raise (TypeError "unsupported operand type(s) for *: 'int' and 'NoneType'")
  end.

Section Inference.

Variables (FieldNames_annotation FieldNames_prediction : FieldNames).
Variables (project : string) (imageIDs : list Z) (epoch numEpochs : option Z).
Variables (modelInstance : ModelInstance) (rankerInstance : option RankerInstance).
Variables (batchSizeLimit : option Z).
Variables (predType : string) (stateDict stateDictID : pyval).

(** The body of the loop over [enumerate(imageID_chunks)]. *)
Definition process_chunk (nchunks : nat) (idx : nat) (imageID_batch : list Z) : M unit :=
  let tag := "[Epoch " +:+ fmt epoch +:+ "] " in
  let chunkStr := pretty (Z.of_nat idx + 1) +:+ "/" +:+ pretty (Z.of_nat nchunks) in
  offset <- lift (py_mul idx batchSizeLimit) ;;
  let update_state :=
    __get_message_fun project (Some (inject_Z (len imageIDs))) (inject_Z offset) epoch numEpochs in
  (* load remaining data (image filenames, class definitions) *)
  update_state "PREPARING" (Some (tag +:+ "loading metadata (chunk " +:+ chunkStr +:+ ")")) None None ;;;
  data <- try_reraise (__load_metadata FieldNames_annotation project (Some imageID_batch) false)
            (fun e => tag +:+ "error during metadata loading (chunk " +:+ chunkStr +:+ ")") ;;
  (* call inference function *)
  update_state "PREPARING" (Some (tag +:+ "starting inference (chunk " +:+ chunkStr +:+ ")")) None None ;;;
  result <- try_reraise
              (emit (EvAdapter (CallInference stateDict imageID_batch)) ;;;
               run_adapter update_state (inference modelInstance stateDict data))
              (fun e => tag +:+ "error during inference (chunk " +:+ chunkStr +:+ "; reason: "
                          +:+ str_exn e +:+ ")") ;;
  (* call ranking function (AL criterion) *)
  result <-
    match rankerInstance with
    | Some (mk_ranker (Some rank)) =>
        update_state "PREPARING"
          (Some (tag +:+ "calculating priorities (chunk " +:+ chunkStr +:+ ")")) None None ;;;
        try_reraise
          (emit (EvAdapter (CallRank stateDict)) ;;;
           run_adapter update_state (rank result stateDict))
          (fun e => tag +:+ "error during ranking (chunk " +:+ chunkStr +:+ ", reason: "
                      +:+ str_exn e +:+ ")")
    | _ => ret result
    end ;;
  (* parse result *)
  values <- try_reraise
              (update_state "FINALIZING"
                 (Some (tag +:+ "saving predictions (chunk " +:+ chunkStr +:+ ")")) None None ;;;
               fieldNames <- lift (getattr FieldNames_prediction predType) ;;
               let fieldNames := fieldNames ++ ["image"; "cnnstate"] in
               parsed <- lift (parse_result predType fieldNames stateDictID result) ;;
               ret (fieldNames, parsed))
              (fun e => tag +:+ "error during result parsing (chunk " +:+ chunkStr +:+ ", reason: "
                          +:+ str_exn e +:+ ")") ;;
  let '(fieldNames, (values_pred, values_img)) := values in
  (* commit to database *)
  try_reraise
    ((if bool_decide (values_pred = []) then ret tt
      else execute (InsertPredictions fieldNames values_pred) ;;; ret tt) ;;;
     (if bool_decide (values_img = []) then ret tt
      else execute (UpsertFeatureVectors values_img) ;;; ret tt))
    (fun e => tag +:+ "error during data committing (chunk " +:+ chunkStr +:+ ", reason: "
                +:+ str_exn e +:+ ")").

(** [for idx, imageID_batch in enumerate(imageID_chunks)], entered at [idx]. *)
Fixpoint process_chunks (nchunks : nat) (idx : nat) (chunks : list (list Z)) : M unit :=
  match chunks with
  | [] => ret tt
  | imageID_batch :: chunks' =>
      process_chunk nchunks idx imageID_batch ;;;
      process_chunks nchunks (S idx) chunks'
  end.

End Inference.

(** [if isinstance(batchSizeLimit, int) and batchSizeLimit > 0: ... else: ...] *)
Definition imageID_chunks (imageIDs : list Z) (batchSizeLimit : option Z) : list (list Z) :=
  match batchSizeLimit with
  | Some n => if bool_decide (0 < n) then array_split imageIDs n else [imageIDs]
  | None => [imageIDs]
  end.

Definition _call_inference (FieldNames_annotation FieldNames_prediction : FieldNames)
    (project : string) (imageIDs : list Z) (epoch numEpochs : option Z)
    (modelInstance : ModelInstance) (modelLibrary : string)
    (rankerInstance : option RankerInstance) (batchSizeLimit : option Z) : M unit :=
  let update_state := __get_message_fun project (Some (inject_Z (len imageIDs))) 0 epoch numEpochs in
  let tag := "[Epoch " +:+ fmt epoch +:+ "] " in
  (* get project's prediction type *)
  projectMeta <- execute SelectPredictionType ;;
  predType <- lift (rbind (rbind (first projectMeta) (fun r => getitem r "predictiontype")) as_str) ;;
  (* load model state *)
  update_state "PREPARING" (Some (tag +:+ "loading model state")) None None ;;;
  sd <- try_reraise (__load_model_state project modelLibrary)
          (fun e => tag +:+ "error during model state loading (reason: " +:+ str_exn e +:+ ")") ;;
  let '(stateDict, stateDictID) := sd in
  (* if batch size limit specified: split imageIDs into chunks and process in smaller batches *)
  let chunks := imageID_chunks imageIDs batchSizeLimit in
  (* process in batches *)
  process_chunks FieldNames_annotation FieldNames_prediction project imageIDs epoch numEpochs
    modelInstance rankerInstance batchSizeLimit predType stateDict stateDictID
    (length chunks) 0 chunks ;;;
  (* the closure of the last chunk in the source; without counts the offset plays no part *)
  update_state "SUCCESS" (Some ("predicted on " +:+ pretty (len imageIDs) +:+ " images")) None None.

(** * The bounding-box dataset

    Shallow embedding of [BoundingBoxDataset.__parse_data] and [__len__]
    of [ai/models/pytorch/functional/datasets/bboxDataset.py]: the part of
    the dataset that turns the metadata dict into class indices and
    per-image lists of boxes and labels.  [__getitem__] opens the image and
    builds tensors; it is left out. *)

(** [data] in the order in which the dataset walks it.  A Python dict
    iterates in insertion order, so the two dicts are read as lists of
    entries; an image entry is the [ImageMeta] that [__load_metadata]
    builds, its annotations being a list of dicts. *)
Record DatasetInput : Type := mk_input {
  in_labelClasses : list (Z * pydict);
  in_images : list (Z * ImageMeta)
}.

(** A box: the tuple [coords]. *)
Abbreviation coords := (pyval * pyval * pyval * pyval)%type.

(** One element of [self.data]:
    [(boundingBoxes, labels, key, fVec, imagePath)]. *)
Record DataEntry : Type := mk_entry {
  de_boundingBoxes : list coords;
  de_labels : list pyval;
  de_key : Z;
  de_fVec : pyval;
  de_imagePath : pyval
}.

(** The fields [__parse_data] reads and writes.  [classdef] and
    [classdef_inv] keep their assignments in order; a later one for the
    same key replaces an earlier one. *)
Record BoundingBoxDataset : Type := mk_dataset {
  targetFormat : string;
  ignoreUnsure : bool;
  classdef : list (Z * pyval);
  classdef_inv : list (pyval * Z);
  data : list DataEntry
}.

(** ** Python values as numbers, truth values and dict keys *)

(** The operand of an arithmetic operator. *)
Definition as_num (v : pyval) : result num :=
  match v with
  | PInt n => Ok (Fin (inject_Z n))
  | PFloat x => Ok x
  | PBool b => Ok (Fin (if b then 1 else 0)%Q)
  | _ => Raise (TypeError "unsupported operand type(s)")
  end.

Definition num_op (f : Q -> Q -> Q) (a b : num) : num :=
  match a, b with
  | Fin x, Fin y => Fin (f x y)
  | _, _ => NaN
  end.

(** [v/2] *)
Definition py_half (v : pyval) : result num :=
  rbind (as_num v) (fun a => Ok (num_op Qdiv a (Fin 2%Q))).

(** [v - h] and [v + h] for a float [h] *)
Definition py_sub (v : pyval) (h : num) : result pyval :=
  rbind (as_num v) (fun a => Ok (PFloat (num_op Qminus a h))).

Definition py_add (v : pyval) (h : num) : result pyval :=
  rbind (as_num v) (fun a => Ok (PFloat (num_op Qplus a h))).

(** [bool(v)] *)
Definition truthy (v : pyval) : bool :=
  match v with
  | PNone => false
  | PBool b => b
  | PInt n => negb (bool_decide (n = 0))
  | PFloat (Fin q) => negb (Qeq_bool q 0)
  | PFloat NaN => true
  | PStr s => negb (bool_decide (s = ""))
  | PBytes b => negb (bool_decide (b = []))
  | PArray a => negb (bool_decide (a = []))
  | PJson d => negb (bool_decide (d = ∅))
  end.

(** Lists and dicts cannot be dict keys. *)
Definition hashable (v : pyval) : bool :=
  match v with
  | PArray _ | PJson _ => false
  | _ => true
  end.

(** The integer a hashable value equals, if any: [True == 1] and
    [2.0 == 2] find the entry of an integer key. *)
Definition int_of (v : pyval) : option Z :=
  match v with
  | PInt n => Some n
  | PBool b => Some (if b then 1 else 0)
  | PFloat (Fin q) =>
      if bool_decide (Qnum q mod Zpos (Qden q) = 0) then Some (Qnum q / Zpos (Qden q)) else None
  | _ => None
  end.

(** The value last assigned to [key]. *)
Definition assigned {V} (d : list (Z * V)) (key : Z) : option V :=
  snd <$> last (filter (fun kv => kv.1 = key) d).

(** The [TypeError] of a list or a dict used as a key. *)
Definition unhashable (v : pyval) : exn :=
  TypeError ("unhashable type: " +:+ match v with PJson _ => "'dict'" | _ => "'list'" end).

(** [self.classdef[label]] *)
Definition classdef_getitem (classdef : list (Z * pyval)) (label : pyval) : result pyval :=
  if hashable label then
    match int_of label ≫= assigned classdef with
    | Some index => Ok index
    | None => Raise (KeyError label)
    end
  else Raise (unhashable label).

(** ** [__parse_data] *)

(** The loop over [data['labelClasses']] (lines 50-59); the state is
    [classdef], [classdef_inv] and the counter [idx]. *)
Definition parse_class (st : list (Z * pyval) * list (pyval * Z) * Z) (entry : Z * pydict)
    : result (list (Z * pyval) * list (pyval * Z) * Z) :=
  let '(classdef, classdef_inv, idx) := st in
  let '(key, labelClass) := entry in
  let '(index, idx) :=
    match labelClass !! "index" with
    | None =>
        (* no relation CNN-to-labelclass defined yet; do it here *)
        (PInt idx, idx + 1)
    | Some index => (index, idx)
    end in
  if hashable index
  then Ok (classdef ++ [(key, index)], classdef_inv ++ [(index, key)], idx)
  else Raise (unhashable index).

Definition parse_classes (labelClasses : list (Z * pydict))
    : result (list (Z * pyval) * list (pyval * Z)) :=
  rbind (foldM parse_class labelClasses ([], [], 0)) (fun st => Ok st.1).

(** The tuple [coords] (lines 68-81). *)
Definition coords_of (targetFormat : string) (anno : pydict) : result coords :=
  if bool_decide (targetFormat = "xyxy") then
    rbind (getitem anno "x") (fun x =>
    rbind (getitem anno "width") (fun width =>
    rbind (py_half width) (fun hw =>
    rbind (py_sub x hw) (fun x1 =>
    rbind (getitem anno "y") (fun y =>
    rbind (getitem anno "height") (fun height =>
    rbind (py_half height) (fun hh =>
    rbind (py_sub y hh) (fun y1 =>
    rbind (py_add x hw) (fun x2 =>
    rbind (py_add y hh) (fun y2 =>
    Ok (x1, y1, x2, y2)))))))))))
  else
    rbind (getitem anno "x") (fun x =>
    rbind (getitem anno "y") (fun y =>
    rbind (getitem anno "width") (fun width =>
    rbind (getitem anno "height") (fun height =>
    Ok (x, y, width, height))))).

(** ['unsure' in anno and anno['unsure'] and self.ignoreUnsure] *)
Definition unsure_ignored (ignoreUnsure : bool) (anno : pydict) : bool :=
  match anno !! "unsure" with
  | Some u => truthy u && ignoreUnsure
  | None => false
  end.

(** The body of the loop over [nextMeta['annotations']] (lines 67-92). *)
Definition parse_annotation (targetFormat : string) (ignoreUnsure : bool)
    (classdef : list (Z * pyval)) (acc : list coords * list pyval) (anno : pydict)
    : result (list coords * list pyval) :=
  rbind (coords_of targetFormat anno) (fun coords =>
  rbind (getitem anno "label") (fun label =>
  if unsure_ignored ignoreUnsure anno then
    (* will automatically be ignored *)
    Ok (acc.1 ++ [coords], acc.2 ++ [PInt (-1)])
  else
    match label with
    | PNone => Ok acc
    | _ =>
        rbind (classdef_getitem classdef label) (fun label =>
        Ok (acc.1 ++ [coords], acc.2 ++ [label]))
    end)).

(** The body of the loop over [data['images']] (lines 63-101). *)
Definition parse_image (targetFormat : string) (ignoreUnsure : bool)
    (classdef : list (Z * pyval)) (entry : Z * ImageMeta) : result DataEntry :=
  let '(key, nextMeta) := entry in
  rbind (match im_annotations nextMeta with
         | Some annotations =>
             foldM (parse_annotation targetFormat ignoreUnsure classdef) annotations ([], [])
         | None => Ok ([], [])
         end) (fun bl =>
  (* feature vector *)
  let fVec := match im_row nextMeta !! "fVec" with
              | Some fVec => fVec
              | None => PArray []
              end in
  rbind (getitem (im_row nextMeta) "filename") (fun imagePath =>
  Ok (mk_entry bl.1 bl.2 key fVec imagePath))).

(** The constructor with its call of [__parse_data]; [fileServer] and
    [transform] are only stored. *)
Definition __parse_data (targetFormat : string) (ignoreUnsure : bool) (input : DatasetInput)
    : result BoundingBoxDataset :=
  rbind (parse_classes (in_labelClasses input)) (fun cd =>
  rbind (mapM (parse_image targetFormat ignoreUnsure cd.1) (in_images input)) (fun entries =>
  Ok (mk_dataset targetFormat ignoreUnsure cd.1 cd.2 entries))).

Definition __len__ (ds : BoundingBoxDataset) : Z := len (data ds).

(** * Properties of the event log and sample projects *)

(** The numbers carried by a task-state update. *)
Definition task_done (e : Event) : option Q :=
  match e with EvTask _ m => m_done m | _ => None end.

Definition task_total (e : Event) : option Q :=
  match e with EvTask _ m => m_total m | _ => None end.

(** From one update to any later one, [done] does not go down. *)
Definition done_nondecreasing (evs : list Event) : Prop :=
  forall (i j : nat) d1 d2, (i < j)%nat ->
    evs !! i ≫= task_done = Some d1 -> evs !! j ≫= task_done = Some d2 -> (d1 <= d2)%Q.

(** In every update that carries both numbers, [done] is at most [total]. *)
Definition done_within_total (evs : list Event) : Prop :=
  forall e d t, e ∈ evs -> task_done e = Some d -> task_total e = Some t -> (d <= t)%Q.

(** The total against which [done] is clamped: the reported total moved by
    the offset, raised to the cumulated total when there is one. *)
Definition effective_total (cumulatedTotal : option Q) (offset total : Q) : Q :=
  match cumulatedTotal with
  | Some c => Qmax (total + offset) c
  | None => (total + offset)%Q
  end.

(** ** A sample project *)

Definition sample_annotation_fields : FieldNames :=
  fun _ => Some ["label"; "x"; "y"; "width"; "height"].

Definition sample_prediction_fields : FieldNames :=
  fun predType =>
    if bool_decide (predType = "segmentationMasks")
    then Some ["segmentationmask"; "width"; "height"; "priority"]
    else Some ["label"; "confidence"; "priority"; "x"; "y"; "width"; "height"].

Definition sample_images : list image_row :=
  (fun i => mk_image i (PStr "img.jpg") PNone) <$> [1; 2; 3; 4; 5; 6; 7; 8; 9; 10].

Definition sample_project : project_row :=
  mk_project "boundingBoxes" "boundingBoxes" (PStr "L") PNone.

(** One committed state for library ["L"], no partial state. *)
Definition sample_store : Store :=
  mk_store [mk_cnnstate 100 (Some 10) (PBytes [1; 2]) PNone false (PStr "L") PNone]
           [mk_labelclass 1 "elephant" 0 (Some 3)]
           sample_images [] (Some sample_project) [] 50 200.

Definition sample_world : World := mk_world sample_store [] 0 [].

(** A model whose [train] reports 5 of 10 and then 3 of 10. *)
Definition backtracking_model : ModelInstance :=
  mk_model "SampleModel"
    (fun _ _ => ([mk_call "PROGRESS" (Some "training") (Some 5%Q) (Some 10%Q);
                  mk_call "PROGRESS" (Some "training") (Some 3%Q) (Some 10%Q)],
                 Ok (TrState (PBytes [9]))))
    (fun _ _ => ([], Ok []))
    None None.

(** ** Label classes against the latest commit *)

(** [MAX(timeCreated)] over the committed (non-partial) states of a library. *)
Definition latest_nonpartial_time (lib : string) (s : Store) : option Z :=
  max_time (filter (fun r => cs_partial r = false) (states_of lib s)).

(** No label class carries a creation time later than [t]. *)
Definition no_class_after (t : Z) (s : Store) : Prop :=
  forall c t', c ∈ st_labelclass s -> lc_timecreated c = Some t' -> t' <= t.

(** No label class carries a creation time of [t] or later. *)
Definition no_class_since (t : Z) (s : Store) : Prop :=
  forall c t', c ∈ st_labelclass s -> lc_timecreated c = Some t' -> t' < t.

Definition is_adapter_call (e : Event) : bool :=
  match e with EvAdapter _ => true | _ => false end.

Definition is_state_insert (e : Event) : bool :=
  match e with EvDb (InsertState _ _ _ _ _) _ => true | _ => false end.

Definition is_state_load (e : Event) : bool :=
  match e with EvDb (SelectLatestState _) _ => true | _ => false end.

Definition is_metadata_load (e : Event) : bool :=
  match e with EvDb SelectLabelClasses _ => true | _ => false end.

Definition is_purge (e : Event) : bool :=
  match e with EvDb DeletePartialStates _ => true | _ => false end.

(** A model that supports [update_model]. *)
Definition updating_model : ModelInstance :=
  mk_model "SampleModel" (fun _ _ => ([], Ok (TrState (PBytes [9]))))
           (fun _ _ => ([], Ok []))
           (Some (fun _ _ => ([], Ok (PBytes [8]))))
           None.

(** The label class and the latest committed state carry the same time. *)
Definition boundary_store : Store :=
  mk_store [mk_cnnstate 100 (Some 10) (PBytes [1; 2]) PNone false (PStr "L") PNone]
           [mk_labelclass 1 "elephant" 0 (Some 10)]
           sample_images [] (Some sample_project) [] 50 200.

Definition boundary_world : World := mk_world boundary_store [] 0 [].

(** ** Averaging: three partial states *)

(** A model that supports [average_model_states]. *)
Definition averaging_model : ModelInstance :=
  mk_model "SampleModel" (fun _ _ => ([], Ok (TrState (PBytes [9]))))
           (fun _ _ => ([], Ok []))
           None
           (Some (fun _ => ([], Ok (PBytes [7])))).

(** Three workers have committed partial states for ["L"]; the statistic
    ["loss"] is 10 in the first, missing in the second and 20 in the third. *)
Definition partial_store : Store :=
  mk_store
    [mk_cnnstate 100 (Some 5) (PBytes [1]) (PJson {[ "loss" := Fin 10%Q ]}) true (PStr "L") PNone;
     mk_cnnstate 101 (Some 6) (PBytes [2]) (PJson {[ "acc" := Fin 1%Q ]}) true (PStr "L") PNone;
     mk_cnnstate 102 (Some 7) (PBytes [3]) (PJson {[ "loss" := Fin 20%Q ]}) true (PStr "L") PNone]
    [] sample_images [] (Some sample_project) [] 50 200.

Definition partial_world : World := mk_world partial_store [] 0 [].

(** The partial rows of a library, as the averaging routine selects them. *)
Definition partial_states (lib : string) (s : Store) : list cnnstate_row :=
  filter (fun r => cs_partial r = true) (states_of lib s).

(** ** Runs that keep a relation between the tables before and after *)

(** [wp m w Q]: run from [w], [m] ends in a result and a world that
    satisfy [Q]. *)
Definition wp {A} (m : M A) (w : World) (Q : result A -> World -> Prop) : Prop :=
  Q (m w).1 (m w).2.

(** [pres R m]: whatever [m] returns or raises, the world it leaves is
    [R]-related to the world it found. *)
Definition pres (R : World -> World -> Prop) {A} (m : M A) : Prop :=
  forall w, R w (m w).2.

(** Statements that only read. *)
Definition is_select (stmt : Statement) : bool :=
  match stmt with
  | InsertState _ _ _ _ _ | DeletePartialStates
  | InsertPredictions _ _ | UpsertFeatureVectors _ => false
  | _ => true
  end.

(** The tables are as they were, and the log has grown by entries that
    satisfy [P]. *)
Definition quiet (P : Event -> Prop) (w w' : World) : Prop :=
  w_store w' = w_store w /\
  exists evs, w_events w' = w_events w ++ evs /\ Forall P evs.

(** Neither a commit of a state nor a purge, attempted or done. *)
Definition no_commit_no_purge (e : Event) : Prop :=
  is_state_insert e = false /\ is_purge e = false.

(** The log has grown by entries that satisfy [PE]; the state table is as
    it was; the prediction table has grown by rows that satisfy [PR]. *)
Definition grows (PE : Event -> Prop) (PR : prediction_row -> Prop) (w w' : World) : Prop :=
  st_cnnstate (w_store w') = st_cnnstate (w_store w) /\
  (exists rows, st_prediction (w_store w') = st_prediction (w_store w) ++ rows /\ Forall PR rows) /\
  (exists evs, w_events w' = w_events w ++ evs /\ Forall PE evs).

(** ** Inference *)

(** What [__load_model_state] hands back for a library. *)
Definition latest_statedict (lib : string) (s : Store) : pyval :=
  match latest_state (states_of lib s) with
  | Some r => cs_statedict r
  | None => PNone
  end.

Definition latest_id (lib : string) (s : Store) : pyval :=
  match latest_state (states_of lib s) with
  | Some r => PInt (cs_id r)
  | None => PNone
  end.

(** The log entries an inference run may leave when it works from the
    state [stateDict]: the model and the ranker are handed that state, and
    no state is committed or purged. *)
Definition inference_event (stateDict : pyval) (e : Event) : Prop :=
  match e with
  | EvAdapter (CallInference s _) | EvAdapter (CallRank s) => s = stateDict
  | EvAdapter _ => False
  | EvDb (InsertState _ _ _ _ _) _ | EvDb DeletePartialStates _ => False
  | _ => True
  end.

(** A stored row that stems from the result of one chunk: one tuple of
    [values_pred], paired with the field names of the INSERT. *)
Definition chunk_row (FieldNames_prediction : FieldNames) (predType : string)
    (stateDictID : pyval) (row : prediction_row) : Prop :=
  exists base result_ values_pred values_img values,
    FieldNames_prediction predType = Some base /\
    parse_result predType (base ++ ["image"; "cnnstate"]) stateDictID result_
      = Ok (values_pred, values_img) /\
    values ∈ values_pred /\
    row = zip (base ++ ["image"; "cnnstate"]) values.

(** The world in which the chunk loop of [_call_inference] starts, when the
    two statements before it went through: the prediction type was read,
    the first task-state update was sent, the latest state was loaded. *)
Definition after_prelude (project lib : string) (imageIDs : list Z) (epoch numEpochs : option Z)
    (w : World) : World :=
  called
    (logged (called w SelectPredictionType true (w_store w))
       (EvTask "PREPARING"
          (progress_meta project (Some (inject_Z (len imageIDs))) 0 epoch numEpochs
             (Some (("[Epoch " +:+ fmt epoch +:+ "] ") +:+ "loading model state")) None None)))
    (SelectLatestState lib) true (w_store w).

(** A detector that returns one box per image of the chunk, in the order
    of the image dict, with the priority left to the ranker. *)
Definition sample_box : pydict :=
  {[ "label" := PInt 1; "confidence" := PFloat (Fin (9 # 10)); "priority" := PNone;
     "x" := PFloat (Fin (1 # 2)); "y" := PFloat (Fin (1 # 2));
     "width" := PFloat (Fin (1 # 4)); "height" := PFloat (Fin (1 # 4)) ]}.

Definition detecting_model : ModelInstance :=
  mk_model "SampleModel" (fun _ _ => ([], Ok (TrState (PBytes [9]))))
           (fun _ data => ([], Ok ((fun i => (i, mk_image_result [sample_box] None))
                                     <$> od_keys (images data))))
           (Some (fun _ _ => ([], Ok (PBytes [8])))) None.

(** The eighth database call of the run fails. *)
Definition faulty_world : World := mk_world sample_store [] 0 [7%nat].

Definition is_prediction_insert (e : Event) : bool :=
  match e with EvDb (InsertPredictions _ _) _ => true | _ => false end.

(** The faulty run over ten images in chunks of four: the world after the
    first chunk, and the world in which the second chunk raises. *)
Definition faulty_after_first_chunk : World :=
  (process_chunks sample_annotation_fields sample_prediction_fields "proj"
     [1; 2; 3; 4; 5; 6; 7; 8; 9; 10] (Some 1) (Some 1) detecting_model None (Some 4)
     "boundingBoxes" (PBytes [1; 2]) (PInt 100) 3 0 [[1; 2; 3; 4]]
     (after_prelude "proj" "L" [1; 2; 3; 4; 5; 6; 7; 8; 9; 10] (Some 1) (Some 1) faulty_world)).2.

Definition faulty_at_second_chunk : World :=
  (process_chunk sample_annotation_fields sample_prediction_fields "proj"
     [1; 2; 3; 4; 5; 6; 7; 8; 9; 10] (Some 1) (Some 1) detecting_model None (Some 4)
     "boundingBoxes" (PBytes [1; 2]) (PInt 100) 3 1 [5; 6; 7; 8] faulty_after_first_chunk).2.

(** The log has grown by entries that satisfy [P]. *)
Definition logs (P : Event -> Prop) (w w' : World) : Prop :=
  exists evs, w_events w' = w_events w ++ evs /\ Forall P evs.

(** Whenever the model or the ranker is called, it is handed [stateDict]. *)
Definition adapter_gets (stateDict : pyval) (e : Event) : Prop :=
  match e with
  | EvAdapter (CallTrain s) | EvAdapter (CallUpdateModel s)
  | EvAdapter (CallInference s _) | EvAdapter (CallRank s) => s = stateDict
  | EvAdapter (CallAverageModelStates _) => False
  | _ => True
  end.



(** ** Segmentation masks *)

(** A segmentation project; the model returns a 2 x 3 label map per image
    and, beside it, a width and a height of its own. *)
Definition segmentation_store : Store :=
  mk_store [mk_cnnstate 100 (Some 10) (PBytes [1; 2]) PNone false (PStr "L") PNone]
           [mk_labelclass 1 "elephant" 0 (Some 3)]
           sample_images []
           (Some (mk_project "segmentationMasks" "segmentationMasks" (PStr "L") PNone)) [] 50 200.

Definition segmentation_world : World := mk_world segmentation_store [] 0 [].

Definition sample_mask : pydict :=
  {[ "label" := PArray [[1; 2; 3]; [4; 5; 6]]; "width" := PInt 99; "height" := PInt 77;
     "priority" := PFloat (Fin (1 # 2)) ]}.

Definition segmenting_model : ModelInstance :=
  mk_model "SampleModel" (fun _ _ => ([], Ok (TrState (PBytes [9]))))
           (fun _ data => ([], Ok ((fun i => (i, mk_image_result [sample_mask] None))
                                     <$> od_keys (images data))))
           None None.

(** ** Priorities and batch limits *)

(** A box as a detector returns it when no ranker has run: no
    ["priority"] entry at all. *)
Definition unranked_box : pydict :=
  {[ "label" := PInt 1; "confidence" := PFloat (Fin (9 # 10));
     "x" := PFloat (Fin (1 # 2)); "y" := PFloat (Fin (1 # 2));
     "width" := PFloat (Fin (1 # 4)); "height" := PFloat (Fin (1 # 4)) ]}.

Definition unranked_model : ModelInstance :=
  mk_model "SampleModel" (fun _ _ => ([], Ok (TrState (PBytes [9]))))
           (fun _ data => ([], Ok ((fun i => (i, mk_image_result [unranked_box] None))
                                     <$> od_keys (images data))))
           None None.

(** Neither a call into the model or the ranker nor an INSERT of
    predictions. *)
Definition no_model_call (e : Event) : Prop :=
  is_adapter_call e = false /\ is_prediction_insert e = false.

(** ** Chunks and their commits *)

Definition no_prediction_insert (e : Event) : Prop := is_prediction_insert e = false.

(** An INSERT into the prediction table carries at least one tuple. *)
Definition nonempty_insert (e : Event) : Prop :=
  match e with
  | EvDb (InsertPredictions _ values) _ => values <> []
  | _ => True
  end.

(** The log has grown, and by at most [n] INSERTs into the prediction
    table (attempted or done), none of them empty. *)
Definition inserts_at_most (n : nat) (w w' : World) : Prop :=
  exists evs, w_events w' = w_events w ++ evs /\
              (length (filter is_prediction_insert evs) <= n)%nat /\
              Forall nonempty_insert evs.

Definition ten_ids : list Z := [1; 2; 3; 4; 5; 6; 7; 8; 9; 10].

(** A model that finds nothing in any image. *)
Definition silent_model : ModelInstance :=
  mk_model "SampleModel" (fun _ _ => ([], Ok (TrState (PBytes [9]))))
           (fun _ data => ([], Ok ((fun i => (i, mk_image_result [] None))
                                     <$> od_keys (images data))))
           None None.

(** The images named by the tuples of a prediction INSERT. *)
Definition inserted_images (e : Event) : list (option pyval) :=
  match e with
  | EvDb (InsertPredictions fieldNames values) _ =>
      (fun row => snd <$> (zip fieldNames row) !! (length fieldNames - 2)%nat) <$> values
  | _ => []
  end.

Definition is_inference_call (e : Event) : bool :=
  match e with EvAdapter (CallInference _ _) => true | _ => false end.

(** No row of the state table is flagged partial. *)
Definition no_partial_left (s : Store) : Prop :=
  Forall (fun r => cs_partial r = false) (st_cnnstate s).

(** Two partial states for ["L"], one partial state for another library
    and one committed state. *)
Definition mixed_store : Store :=
  mk_store
    [mk_cnnstate 100 (Some 5) (PBytes [1]) PNone false (PStr "L") PNone;
     mk_cnnstate 101 (Some 6) (PBytes [2]) PNone true (PStr "L") PNone;
     mk_cnnstate 102 (Some 7) (PBytes [3]) PNone true (PStr "M") PNone;
     mk_cnnstate 103 (Some 8) (PBytes [4]) PNone true (PStr "L") PNone]
    [] sample_images [] (Some sample_project) [] 50 200.

Definition is_db (e : Event) : bool :=
  match e with EvDb _ _ => true | _ => false end.

(** ** The loaders *)

(** The label-class dict [__load_metadata] builds from the rows of the
    table: later rows of the same id replace earlier ones. *)
Definition labels_of (rows : list labelclass_row) : odict pydict :=
  foldl (fun labels c => <[ lc_id c := labelclass_dict c ]> labels) ∅ rows.

(** The image dict it builds from the selected image rows, before any
    annotation is attached. *)
Definition images_of (rows : list image_row) : odict ImageMeta :=
  foldl (fun imageMeta i => <[ img_id i := mk_image_meta (image_dict i) None ]> imageMeta) ∅ rows.

(** A log entry of a reading statement. *)
Definition is_read (e : Event) : Prop :=
  match e with EvDb stmt _ => is_select stmt = true | _ => False end.

Definition any_event (e : Event) : Prop := True.

(** The annotation rows of image [i] as the annotation query returns
    them, in table order; no entry when the image has none. *)
Definition annotations_of (fieldNames : list string) (rows : list annotation_row) (i : Z)
    : option (list pydict) :=
  match annotation_dict fieldNames <$> filter (fun a => an_image a = i) rows with
  | [] => None
  | l => Some l
  end.

(** [imageMeta[i]] after the rows [new] were appended to its annotations. *)
Definition with_annotations (new : list pydict) (m : ImageMeta) : ImageMeta :=
  mk_image_meta (im_row m)
    (match new with [] => im_annotations m | _ => Some (default [] (im_annotations m) ++ new) end).

(** The world after the four queries of a metadata load with annotations
    went through. *)
Definition after_metadata (ids : list Z) (fieldNames : list string) (w : World) : World :=
  called
    (called
       (called (called w SelectLabelClasses true (w_store w)) (SelectImages ids) true (w_store w))
       SelectAnnotationType true (w_store w))
    (SelectAnnotations ids fieldNames) true (w_store w).

(** The sample project with three boxes drawn: two on image 2, one on
    image 5. *)
Definition annotated_store : Store :=
  mk_store (st_cnnstate sample_store) (st_labelclass sample_store) sample_images
           [mk_annotation 1 2 {[ "label" := PInt 1 ]};
            mk_annotation 2 5 {[ "label" := PInt 1 ]};
            mk_annotation 3 2 {[ "label" := PInt 1 ]}]
           (Some sample_project) [] 50 200.

Definition annotated_world : World := mk_world annotated_store [] 0 [].

(** ** The parsed result of a chunk *)

(** Every prediction of a result, in the order of the images and, per
    image, of its predictions; each with its image id and the image's
    whole prediction list. *)
Definition flat_predictions (result_ : InferenceResult) : list (Z * list pydict * pydict) :=
  result_ ≫= (fun entry => (fun prediction => (entry.1, ir_predictions entry.2, prediction))
                             <$> ir_predictions entry.2).

(** The images of a result that come with a non-empty feature vector. *)
Definition feature_vectors (result_ : InferenceResult) : list (Z * list Z) :=
  omap (fun entry : Z * ImageResult =>
          match ir_fVec entry.2 with
          | Some (b :: v) => Some (entry.1, b :: v)
          | _ => None
          end) result_.

(** A result of two images: two boxes and a feature vector for the
    first, one box and an empty feature vector for the second. *)
Definition sample_result : InferenceResult :=
  [(1, mk_image_result [sample_box; sample_box] (Some [4; 2]));
   (2, mk_image_result [sample_box] (Some []))].

(** ** The dataset *)

(** The indices the class loop assigns, counting from [idx]: a class with
    an ['index'] entry keeps it, the others are numbered in order. *)
Fixpoint class_indices (idx : Z) (labelClasses : list (Z * pydict)) : list (Z * pyval) :=
  match labelClasses with
  | [] => []
  | (key, labelClass) :: rest =>
      match labelClass !! "index" with
      | None => (key, PInt idx) :: class_indices (idx + 1) rest
      | Some index => (key, index) :: class_indices idx rest
      end
  end.

(** The key last assigned to the integer index [i] in [classdef_inv]. *)
Definition assigned_inv (classdef_inv : list (pyval * Z)) (i : Z) : option Z :=
  snd <$> last (filter (fun kv => int_of kv.1 = Some i) classdef_inv).

(** The annotations that make it into the dataset: those flagged unsure
    while unsure ones are ignored, and those whose label is not [None]. *)
Definition kept (ignoreUnsure : bool) (anno : pydict) : bool :=
  unsure_ignored ignoreUnsure anno ||
  match anno !! "label" with Some PNone => false | _ => true end.

(** The label stored with a kept annotation. *)
Definition label_of (ignoreUnsure : bool) (classdef : list (Z * pyval)) (anno : pydict)
    : result pyval :=
  if unsure_ignored ignoreUnsure anno then Ok (PInt (-1))
  else rbind (getitem anno "label") (classdef_getitem classdef).

(** What the dataset holds for one image of the input. *)
Definition entry_of (targetFormat : string) (ignoreUnsure : bool) (classdef : list (Z * pyval))
    (image : Z * ImageMeta) (e : DataEntry) : Prop :=
  let annotations :=
    filter (fun anno => kept ignoreUnsure anno = true) (default [] (im_annotations image.2)) in
  de_key e = image.1 /\
  getitem (im_row image.2) "filename" = Ok (de_imagePath e) /\
  de_fVec e = default (PArray []) (im_row image.2 !! "fVec") /\
  Forall2 (fun anno box => coords_of targetFormat anno = Ok box) annotations (de_boundingBoxes e) /\
  Forall2 (fun anno label => label_of ignoreUnsure classdef anno = Ok label)
          annotations (de_labels e).

(** Two classes, the first without an index; one image with three
    annotations: a plain one, one without label, one flagged unsure. *)
Definition sample_input : DatasetInput :=
  mk_input
    [(7, {[ "name" := PStr "elephant" ]}); (9, {[ "name" := PStr "zebra"; "index" := PInt 0 ]})]
    [(1, mk_image_meta {[ "filename" := PStr "a.jpg" ]}
           (Some [ {[ "x" := PFloat (Fin (1 # 2)); "y" := PFloat (Fin (1 # 2));
                      "width" := PFloat (Fin (1 # 4)); "height" := PFloat (Fin (1 # 4));
                      "label" := PInt 9 ]};
                   {[ "x" := PFloat (Fin (1 # 2)); "y" := PFloat (Fin (1 # 2));
                      "width" := PFloat (Fin (1 # 4)); "height" := PFloat (Fin (1 # 4));
                      "label" := PNone ]};
                   {[ "x" := PFloat (Fin (1 # 2)); "y" := PFloat (Fin (1 # 2));
                      "width" := PFloat (Fin (1 # 4)); "height" := PFloat (Fin (1 # 4));
                      "label" := PInt 12; "unsure" := PBool true ]} ]));
     (2, mk_image_meta {[ "filename" := PStr "b.jpg" ]} None)].

(** Two classes without an index, no image. *)
Definition plain_input : DatasetInput :=
  mk_input [(7, {[ "name" := PStr "elephant" ]}); (9, {[ "name" := PStr "zebra" ]})] [].

(** An image whose one annotation carries the label 12, which is no class. *)
Definition stray_input : DatasetInput :=
  mk_input (in_labelClasses sample_input)
    [(1, mk_image_meta {[ "filename" := PStr "a.jpg" ]}
           (Some [ {[ "x" := PFloat (Fin (1 # 2)); "y" := PFloat (Fin (1 # 2));
                      "width" := PFloat (Fin (1 # 4)); "height" := PFloat (Fin (1 # 4));
                      "label" := PInt 12 ]} ]))].

(** ** The calls into the model during inference *)

Definition no_inference_call (e : Event) : Prop := is_inference_call e = false.

(** The log has grown, and the calls of [inference] among the new entries
    are exactly [calls], in this order. *)
Definition calls_by (calls : list Event) (w w' : World) : Prop :=
  exists evs, w_events w' = w_events w ++ evs /\ filter is_inference_call evs = calls.

(** ** Progress across the chunks of an inference run *)

(** A progress call whose counts, when it carries both, lie within
    [bound]. *)
Definition counted_within (bound : Q) (c : ProgressCall) : Prop :=
  forall d t, pc_done c = Some d -> pc_total c = Some t ->
              (0 <= d)%Q /\ (d <= t)%Q /\ (t <= bound)%Q.

(** A progress call without counts. *)
Definition uncounted (c : ProgressCall) : Prop := pc_done c = None \/ pc_total c = None.

(** A task update that carries counts reports them against [N]: [total]
    is [N] and [done] lies between 0 and [total]. *)
Definition global_progress (N : Z) (e : Event) : Prop :=
  forall d t, task_done e = Some d -> task_total e = Some t ->
              (0 <= d)%Q /\ (d <= t)%Q /\ (t == inject_Z N)%Q.

(** A detector that reports, once per call, that it is done with the
    images of the metadata dict it was handed. *)
Definition counting_model : ModelInstance :=
  mk_model "SampleModel" (fun _ _ => ([], Ok (TrState (PBytes [9]))))
           (fun _ data =>
              ([mk_call "PROGRESS" (Some "predicting")
                  (Some (inject_Z (Z.of_nat (size (images data)))))
                  (Some (inject_Z (Z.of_nat (size (images data)))))],
               Ok ((fun i => (i, mk_image_result [sample_box] None))
                     <$> od_keys (images data))))
           None None.

(** ** What a chunk stores *)

(** An inference call or an INSERT into the prediction table. *)
Definition is_mark (e : Event) : bool := is_inference_call e || is_prediction_insert e.

Definition no_mark (e : Event) : Prop := is_mark e = false.

(** A world reached from [w] with the tables as they were, the calls of
    the model and the INSERTs of predictions logged since being [marks]. *)
Definition marked (w : World) (marks : list Event) (w1 : World) : Prop :=
  w_store w1 = w_store w /\
  exists evs, w_events w1 = w_events w ++ evs /\ filter is_mark evs = marks.

Section ChunkTrace.

Variables (FieldNames_annotation FieldNames_prediction : FieldNames) (project : string).
Variables (modelInstance : ModelInstance) (rankerInstance : option RankerInstance).
Variables (predType : string) (stateDict stateDictID : pyval).

(** [result] after the ranking step of lines 467-475: what [rank] made
    of it, or the model's result itself when there is no ranker with a
    [rank]. *)
Definition ranked_by (result_ ranked : InferenceResult) : Prop :=
  match rankerInstance with
  | Some (mk_ranker (Some rank)) => exists calls, rank result_ stateDict = (calls, Ok ranked)
  | _ => ranked = result_
  end.

(** The tuples a chunk has for the prediction table: the model was called
    on the metadata loaded for the ids of the chunk, its result went through
    the ranker, and was parsed under the field names of the prediction
    type. *)
Definition chunk_values (batch : list Z) (fieldNames : list string) (ranked : InferenceResult)
    (values_pred : list (list pyval)) : Prop :=
  exists w1 w2 data calls result_ base values_img,
    __load_metadata FieldNames_annotation project (Some batch) false w1 = (Ok data, w2) /\
    inference modelInstance stateDict data = (calls, Ok result_) /\
    ranked_by result_ ranked /\
    FieldNames_prediction predType = Some base /\
    fieldNames = base ++ ["image"; "cnnstate"] /\
    parse_result predType fieldNames stateDictID ranked = Ok (values_pred, values_img).

(** What a chunk that went through leaves behind: in the log, the call of
    the model and, when there is at least one tuple, one INSERT with all of
    the chunk's tuples; in the prediction table, these tuples as rows. *)
Definition chunk_trace (batch : list Z) (p : list Event * list prediction_row) : Prop :=
  exists fieldNames ranked values_pred,
    chunk_values batch fieldNames ranked values_pred /\
    p.1 = EvAdapter (CallInference stateDict batch)
            :: (if bool_decide (values_pred = []) then []
                else [EvDb (InsertPredictions fieldNames values_pred) true]) /\
    p.2 = zip fieldNames <$> values_pred.

(** What a chunk that raised leaves behind: nothing, when it raised
    before the model was called; the call of the model alone, when it
    raised from there up to the parsing; the call and the failed INSERT;
    or the call, the INSERT and its rows, when storing the feature vectors
    failed after the predictions had been stored. *)
Definition chunk_stopped (batch : list Z) (p : list Event * list prediction_row) : Prop :=
  p = ([], []) \/
  p = ([EvAdapter (CallInference stateDict batch)], []) \/
  exists fieldNames ranked values_pred,
    chunk_values batch fieldNames ranked values_pred /\ values_pred <> [] /\
    (p = ([EvAdapter (CallInference stateDict batch);
           EvDb (InsertPredictions fieldNames values_pred) false], []) \/
     p = ([EvAdapter (CallInference stateDict batch);
           EvDb (InsertPredictions fieldNames values_pred) true],
          zip fieldNames <$> values_pred)).

(** A stored row with its origin: one tuple of one chunk. *)
Definition model_row (row : prediction_row) : Prop :=
  exists batch fieldNames ranked values_pred values,
    chunk_values batch fieldNames ranked values_pred /\
    values ∈ values_pred /\
    row = zip fieldNames values.

(** What one chunk adds to the log and to the prediction table. *)
Definition chunk_post (w : World) (batch : list Z) (r : result unit) (w' : World) : Prop :=
  exists evs rows,
    w_events w' = w_events w ++ evs /\
    st_prediction (w_store w') = st_prediction (w_store w) ++ rows /\
    Forall model_row rows /\
    match r with
    | Ok _ => chunk_trace batch (filter is_mark evs, rows)
    | Raise _ => chunk_stopped batch (filter is_mark evs, rows)
    end.

(** What a run over [chunks] has added when it ends with [r]: every chunk
    its trace when the run returns; when it raises, the chunks before the
    one that raised their traces, and that one what it left. *)
Definition chunks_trace (chunks : list (list Z)) (r : result unit)
    (p : list Event * list prediction_row) : Prop :=
  match r with
  | Ok _ =>
      exists per, Forall2 chunk_trace chunks per /\
                  p.1 = concat per.*1 /\ p.2 = concat per.*2
  | Raise _ =>
      exists pre batch post per last,
        chunks = pre ++ batch :: post /\
        Forall2 chunk_trace pre per /\ chunk_stopped batch last /\
        p.1 = concat per.*1 ++ last.1 /\ p.2 = concat per.*2 ++ last.2
  end.

Definition chunks_post (w : World) (chunks : list (list Z)) (r : result unit) (w' : World)
    : Prop :=
  exists evs rows,
    w_events w' = w_events w ++ evs /\
    st_prediction (w_store w') = st_prediction (w_store w) ++ rows /\
    Forall model_row rows /\
    chunks_trace chunks r (filter is_mark evs, rows).

End ChunkTrace.

(** ** The rows of a segmentation project *)

(** A stored row of a segmentation project with its origin.  The row
    belongs to [prediction], one of the predictions of image [imgID] in the
    result that the model, and the ranker after it, returned for a chunk.
    [label] is the label array of the first prediction of that image (line
    490): its shape is the height and the width of the row, its base64 text
    the mask of the row.  Every value of the row is what lines 500-528
    store for its field name. *)
Definition first_label_row (FieldNames_annotation FieldNames_prediction : FieldNames)
    (project : string) (modelInstance : ModelInstance) (rankerInstance : option RankerInstance)
    (stateDict stateDictID : pyval) (row : prediction_row) : Prop :=
  exists batch fieldNames ranked values_pred imgID r prediction first_ label height width values,
    chunk_values FieldNames_annotation FieldNames_prediction project modelInstance
      rankerInstance "segmentationMasks" stateDict stateDictID batch fieldNames ranked
      values_pred /\
    (imgID, r) ∈ ranked /\ prediction ∈ ir_predictions r /\
    head (ir_predictions r) = Some first_ /\
    first_ !! "label" = Some label /\
    shape2 label = Ok (height, width) /\
    Forall2 (fun fn v =>
               field_value "segmentationMasks" imgID stateDictID
                 (Some (mk_segmask (b64encode (ravel_uint8 label)) width height))
                 prediction fn = Ok v) fieldNames values /\
    row = zip fieldNames values /\
    (forall v, ("width", v) ∈ row -> v = PInt width) /\
    (forall v, ("height", v) ∈ row -> v = PInt height) /\
    (forall v, ("segmentationmask", v) ∈ row -> v = PStr (b64encode (ravel_uint8 label))).

(** A second prediction on the same image, with a 1 x 1 label map. *)
Definition small_mask : pydict :=
  {[ "label" := PArray [[7]]; "priority" := PFloat (Fin (1 # 4)) ]}.

(** A model that returns two predictions per image: the 2 x 3 label map
    first, the 1 x 1 label map second. *)
Definition two_mask_model : ModelInstance :=
  mk_model "SampleModel" (fun _ _ => ([], Ok (TrState (PBytes [9]))))
           (fun _ data => ([], Ok ((fun i => (i, mk_image_result [sample_mask; small_mask] None))
                                     <$> od_keys (images data))))
           None None.

(** * Progress reporting *)

Lemma progress_meta_counts project cum offset epoch numEpochs message done total :
  let m := progress_meta project cum offset epoch numEpochs message (Some done) (Some total) in
  m_done m = Some (Qmin (done + offset) (effective_total cum offset total)) /\
  m_total m = Some (Qmax (Qmin (done + offset) (effective_total cum offset total))
                         (effective_total cum offset total)).
Proof. unfold progress_meta, effective_total. destruct cum; simpl; split; reflexivity. Qed.

Lemma effective_total_mono cum o1 o2 t1 t2 :
  (o1 <= o2)%Q -> (t1 <= t2)%Q ->
  (effective_total cum o1 t1 <= effective_total cum o2 t2)%Q.
Proof.
  intros Ho Ht. unfold effective_total. destruct cum as [c|].
  - apply Q.max_le_compat_r. lra.
  - lra.
Qed.

(** C7, as the source has it: every update that carries numbers has
    [done] clamped to the effective total and at most [total]; the reporter
    keeps no memory of earlier updates, so [done] does not go down from one
    update to a later one when the reported [done], the reported [total] and
    the offset do not go down (under one cumulated total). *)
Theorem progress_done_clamped_and_monotone
    project cum epoch numEpochs msg1 msg2 offset1 done1 total1 offset2 done2 total2 :
  (done1 <= done2)%Q -> (total1 <= total2)%Q -> (offset1 <= offset2)%Q ->
  let m1 := progress_meta project cum offset1 epoch numEpochs msg1 (Some done1) (Some total1) in
  let m2 := progress_meta project cum offset2 epoch numEpochs msg2 (Some done2) (Some total2) in
  exists d1 t1 d2 t2,
    m_done m1 = Some d1 /\ m_total m1 = Some t1 /\
    m_done m2 = Some d2 /\ m_total m2 = Some t2 /\
    d1 = Qmin (done1 + offset1) (effective_total cum offset1 total1) /\
    d2 = Qmin (done2 + offset2) (effective_total cum offset2 total2) /\
    (d1 <= t1)%Q /\ (d2 <= t2)%Q /\ (d1 <= d2)%Q.
Proof.
  intros Hd Ht Ho m1 m2.
  destruct (progress_meta_counts project cum offset1 epoch numEpochs msg1 done1 total1) as [E1 E1'].
  destruct (progress_meta_counts project cum offset2 epoch numEpochs msg2 done2 total2) as [E2 E2'].
  do 4 eexists. repeat split; try eassumption; try reflexivity.
  - apply Q.le_max_l.
  - apply Q.le_max_l.
  - apply Q.min_le_compat.
    + lra.
    + now apply effective_total_mono.
Qed.

Lemma progress_done_clamped_and_monotone_witness :
  exists d1 t1 d2 t2,
    m_done (progress_meta "p" (Some 10%Q) 0 None None None (Some 3%Q) (Some 4%Q)) = Some d1 /\
    m_total (progress_meta "p" (Some 10%Q) 0 None None None (Some 3%Q) (Some 4%Q)) = Some t1 /\
    m_done (progress_meta "p" (Some 10%Q) 4 None None None (Some 9%Q) (Some 4%Q)) = Some d2 /\
    m_total (progress_meta "p" (Some 10%Q) 4 None None None (Some 9%Q) (Some 4%Q)) = Some t2 /\
    d1 = Qmin (3 + 0) (effective_total (Some 10%Q) 0 4) /\
    d2 = Qmin (9 + 4) (effective_total (Some 10%Q) 4 4) /\
    (d1 <= t1)%Q /\ (d2 <= t2)%Q /\ (d1 <= d2)%Q.
Proof.
  apply (progress_done_clamped_and_monotone "p" (Some 10%Q) None None None None 0 3 4 4 9 4);
    vm_compute; discriminate.
Defined.

(** C7 as stated fails: a model that reports 5 of 10 and then 3 of 10
    during one training run gets both updates passed on as they are. *)
Lemma progress_done_can_decrease :
  ~ (done_nondecreasing
       (w_events (_call_train sample_annotation_fields "proj" [1; 2] (Some 1) (Some 1) false
                    backtracking_model "L" sample_world).2) /\
     done_within_total
       (w_events (_call_train sample_annotation_fields "proj" [1; 2] (Some 1) (Some 1) false
                    backtracking_model "L" sample_world).2)).
Proof.
  intros [Hmono _].
  set (evs := w_events _) in Hmono.
  assert (Hlen : exists i j, (i < j)%nat /\
            evs !! i ≫= task_done = Some (Qmin (5 + 0) (Qmax (10 + 0) (inject_Z 2))) /\
            evs !! j ≫= task_done = Some (Qmin (3 + 0) (Qmax (10 + 0) (inject_Z 2)))).
  { exists 9%nat, 10%nat. split; [lia|]. split; vm_compute; reflexivity. }
  destruct Hlen as (i & j & Hij & Hi & Hj).
  specialize (Hmono i j _ _ Hij Hi Hj).
  vm_compute in Hmono. apply Hmono. reflexivity.
Qed.

(** * Runs and the world *)

Section Preservation.

Context (R : World -> World -> Prop) `{!PreOrder R}.

Lemma pres_ret {A} (a : A) : pres R (ret a).
Proof. intros w. reflexivity. Qed.

Lemma pres_raise {A} e : pres R (@raise A e).
Proof. intros w. reflexivity. Qed.

Lemma pres_lift {A} (r : result A) : pres R (lift r).
Proof. intros w. reflexivity. Qed.

(** The continuation only has to behave on the values the first part
    can return. *)
Lemma pres_bind {A B} (m : M A) (k : A -> M B) (Q : A -> Prop) :
  pres R m -> (forall w a w', m w = (Ok a, w') -> Q a) ->
  (forall a, Q a -> pres R (k a)) -> pres R (bind m k).
Proof.
  intros Hm HQ Hk w. unfold bind. specialize (Hm w).
  destruct (m w) as [[a|e] w'] eqn:E; simpl in *; [|assumption].
  etransitivity; [exact Hm|]. apply Hk. eapply HQ; eauto.
Qed.

Lemma pres_seq {A B} (m : M A) (k : A -> M B) :
  pres R m -> (forall a, pres R (k a)) -> pres R (bind m k).
Proof. intros Hm Hk. apply (pres_bind m k (fun _ => True)); auto. Qed.

Lemma pres_try_reraise {A} (m : M A) msg : pres R m -> pres R (try_reraise m msg).
Proof.
  intros Hm w. unfold try_reraise. specialize (Hm w).
  destruct (m w) as [[a|e] w']; assumption.
Qed.

Lemma pres_try_except {A} (m h : M A) : pres R m -> pres R h -> pres R (try_except m h).
Proof.
  intros Hm Hh w. unfold try_except. specialize (Hm w).
  destruct (m w) as [[a|e] w']; simpl in *; [assumption|].
  etransitivity; [exact Hm|apply Hh].
Qed.

Lemma pres_for_each {A} (l : list A) body :
  (forall x, pres R (body x)) -> pres R (for_each l body).
Proof.
  intros Hb. induction l as [|x l IH]; simpl.
  - apply pres_ret.
  - apply pres_seq; auto.
Qed.

(** From here on [R] admits task-state updates and reading statements. *)
Hypothesis R_task : forall state meta, pres R (emit (EvTask state meta)).
Hypothesis R_select : forall stmt, is_select stmt = true -> pres R (execute stmt).

Lemma pres_on_message project cum offset epoch numEpochs state message done total :
  pres R (__get_message_fun project cum offset epoch numEpochs state message done total).
Proof. apply R_task. Qed.

Lemma pres_run_adapter {A} project cum offset epoch numEpochs
    (out : list ProgressCall * result A) :
  pres R (run_adapter (__get_message_fun project cum offset epoch numEpochs) out).
Proof.
  unfold run_adapter. apply pres_seq.
  - apply pres_for_each. intros c. apply pres_on_message.
  - intros _. apply pres_lift.
Qed.

Lemma pres_load_model_state project lib : pres R (__load_model_state project lib).
Proof.
  unfold __load_model_state. apply pres_seq; [now apply R_select|].
  intros [|r l]; [apply pres_ret|].
  repeat (apply pres_seq; [apply pres_lift|intros ?]). apply pres_ret.
Qed.

Lemma pres_load_metadata FNa project ids ann : pres R (__load_metadata FNa project ids ann).
Proof.
  unfold __load_metadata.
  apply pres_seq; [now apply R_select|intros ?].
  apply pres_seq; [apply pres_lift|intros ?].
  apply pres_seq.
  { case_bool_decide; [apply pres_ret|].
    apply pres_seq; [now apply R_select|intros ?]. apply pres_lift. }
  intros ?. apply pres_seq; [|intros ?; apply pres_ret].
  destruct (_ && _); [|apply pres_ret].
  apply pres_seq; [now apply R_select|intros ?].
  apply pres_seq; [apply pres_lift|intros ?].
  apply pres_seq; [apply pres_lift|intros ?].
  apply pres_seq; [now apply R_select|intros ?]. apply pres_lift.
Qed.

Lemma pres_get_ai_library_names project : pres R (__get_ai_library_names project).
Proof.
  intros w. unfold __get_ai_library_names.
  pose proof (R_select SelectLibraryNames eq_refl w) as H.
  destruct (execute SelectLibraryNames w) as [[rows|e] w']; simpl in *; [|assumption].
  destruct (first rows) as [r|]; [|assumption].
  destruct (getitem r "ai_model_library"); [|assumption].
  destruct (getitem r "ai_alcriterion_library"); assumption.
Qed.

End Preservation.

Lemma sql_select_same stmt s : is_select stmt = true -> (sql stmt s).2 = s.
Proof. destruct stmt; simpl; try discriminate; reflexivity. Qed.

Lemma execute_store stmt w :
  w_store (execute stmt w).2 = w_store w \/ w_store (execute stmt w).2 = (sql stmt (w_store w)).2.
Proof. unfold execute. case_bool_decide; simpl; [now left|now right]. Qed.

Lemma execute_events stmt w :
  exists ok, w_events (execute stmt w).2 = w_events w ++ [EvDb stmt ok].
Proof. unfold execute. case_bool_decide; simpl; [now exists false|now exists true]. Qed.

(** ** Stepping through a routine *)

Lemma wp_ret {A} (a : A) w (Q : result A -> World -> Prop) : Q (Ok a) w -> wp (ret a) w Q.
Proof. done. Qed.

Lemma wp_raise {A} e w (Q : result A -> World -> Prop) : Q (Raise e) w -> wp (raise e) w Q.
Proof. done. Qed.

Lemma wp_lift {A} (r : result A) w (Q : result A -> World -> Prop) : Q r w -> wp (lift r) w Q.
Proof. done. Qed.

Lemma wp_emit e w (Q : result unit -> World -> Prop) : Q (Ok tt) (logged w e) -> wp (emit e) w Q.
Proof. done. Qed.

Lemma wp_on_message project cum offset epoch numEpochs state message done total w
    (Q : result unit -> World -> Prop) :
  Q (Ok tt) (logged w (EvTask state
               (progress_meta project cum offset epoch numEpochs message done total))) ->
  wp (__get_message_fun project cum offset epoch numEpochs state message done total) w Q.
Proof. done. Qed.

Lemma wp_bind {A B} (m : M A) (k : A -> M B) w (Q : result B -> World -> Prop) :
  wp m w (fun r w' => match r with
                      | Ok a => wp (k a) w' Q
                      | Raise e => Q (Raise e) w'
                      end) ->
  wp (bind m k) w Q.
Proof. unfold wp, bind. destruct (m w) as [[a|e] w']; done. Qed.

Lemma wp_try_reraise {A} (m : M A) msg w (Q : result A -> World -> Prop) :
  wp m w (fun r w' => match r with
                      | Ok a => Q (Ok a) w'
                      | Raise e => Q (Raise (Exception (msg e))) w'
                      end) ->
  wp (try_reraise m msg) w Q.
Proof. unfold wp, try_reraise. destruct (m w) as [[a|e] w']; done. Qed.

Lemma wp_try_except {A} (m h : M A) w (Q : result A -> World -> Prop) :
  wp m w (fun r w' => match r with
                      | Ok a => Q (Ok a) w'
                      | Raise e => wp h w' Q
                      end) ->
  wp (try_except m h) w Q.
Proof. unfold wp, try_except. destruct (m w) as [[a|e] w']; done. Qed.

Lemma wp_execute stmt w (Q : result (list pydict) -> World -> Prop) :
  (w_calls w ∈ w_faults w ->
   Q (Raise (DatabaseError "connection failure")) (called w stmt false (w_store w))) ->
  (w_calls w ∉ w_faults w ->
   Q (Ok (sql stmt (w_store w)).1) (called w stmt true (sql stmt (w_store w)).2)) ->
  wp (execute stmt) w Q.
Proof. intros Hf Hok. unfold wp, execute. case_bool_decide; auto. Qed.

Lemma wp_eq {A} (m : M A) w r w' : wp m w (fun r0 w0 => r0 = r /\ w0 = w') -> m w = (r, w').
Proof. unfold wp. destruct (m w) as [r0 w0]. simpl. intros [E1 E2]. now subst. Qed.

(** A block known to keep [R] may be stepped over. *)
Lemma wp_pres {A} (R : World -> World -> Prop) (m : M A) w (Q : result A -> World -> Prop) :
  pres R m -> (forall r w', R w w' -> Q r w') -> wp m w Q.
Proof. intros Hm HQ. apply HQ, Hm. Qed.

Lemma wp_mono {A} (m : M A) w (Q Q' : result A -> World -> Prop) :
  wp m w Q -> (forall r w', Q r w' -> Q' r w') -> wp m w Q'.
Proof. unfold wp. auto. Qed.

Lemma for_each_on_message_ok project cum offset epoch numEpochs (l : list ProgressCall) w :
  (for_each l (fun c => __get_message_fun project cum offset epoch numEpochs
                          (pc_state c) (pc_message c) (pc_done c) (pc_total c)) w).1 = Ok tt.
Proof.
  revert w. induction l as [|c l IH]; intros w; [reflexivity|].
  cbn [for_each]. unfold bind at 1. cbn. apply IH.
Qed.

(** When the call into the model comes back with a value, that value is
    what the model returned. *)
Lemma run_adapter_inv {A} project cum offset epoch numEpochs
    (out : list ProgressCall * result A) w a w1 :
  run_adapter (__get_message_fun project cum offset epoch numEpochs) out w = (Ok a, w1) ->
  out.2 = Ok a.
Proof.
  unfold run_adapter, bind.
  pose proof (for_each_on_message_ok project cum offset epoch numEpochs out.1 w) as H.
  destruct (for_each _ _ w) as [[[]|e] w']; cbn in H; [|discriminate].
  unfold lift. now intros [= -> _].
Qed.

(** A call into the model ends the way the model ended. *)
Lemma run_adapter_result {A} project cum offset epoch numEpochs
    (out : list ProgressCall * result A) w :
  (run_adapter (__get_message_fun project cum offset epoch numEpochs) out w).1 = out.2.
Proof.
  unfold run_adapter, bind.
  pose proof (for_each_on_message_ok project cum offset epoch numEpochs out.1 w) as H.
  destruct (for_each _ _ w) as [[[]|e] w']; cbn in H; [reflexivity|discriminate].
Qed.

Lemma wp_run_adapter {A} project cum offset epoch numEpochs
    (out : list ProgressCall * result A) w (Q : result A -> World -> Prop) :
  (forall w', Q out.2 w') ->
  wp (run_adapter (__get_message_fun project cum offset epoch numEpochs) out) w Q.
Proof. intros HQ. unfold wp. rewrite run_adapter_result. apply HQ. Qed.

(** ** Quiet runs *)

#[global] Instance quiet_preorder P : PreOrder (quiet P).
Proof.
  split.
  - intros w. split; [reflexivity|]. exists []. now rewrite app_nil_r.
  - intros w1 w2 w3 [Hs1 (e1 & He1 & HP1)] [Hs2 (e2 & He2 & HP2)]. split; [congruence|].
    exists (e1 ++ e2). rewrite He2, He1, app_assoc. split; [reflexivity|].
    now apply Forall_app.
Qed.

Lemma quiet_logged (P : Event -> Prop) w0 w e : quiet P w0 w -> P e -> quiet P w0 (logged w e).
Proof.
  intros [Hs (evs & He & HP)] Pe. split; [exact Hs|]. exists (evs ++ [e]). simpl.
  rewrite He, app_assoc. split; [reflexivity|]. apply Forall_app. split; [exact HP|now constructor].
Qed.

Lemma quiet_called (P : Event -> Prop) w0 w stmt ok :
  quiet P w0 w -> P (EvDb stmt ok) -> quiet P w0 (called w stmt ok (w_store w)).
Proof.
  intros [Hs (evs & He & HP)] Pe. split; [exact Hs|]. exists (evs ++ [EvDb stmt ok]). simpl.
  rewrite He, app_assoc. split; [reflexivity|]. apply Forall_app. split; [exact HP|now constructor].
Qed.

Lemma quiet_emit (P : Event -> Prop) e : P e -> pres (quiet P) (emit e).
Proof. intros HP w. now apply quiet_logged. Qed.

Lemma quiet_select (P : Event -> Prop) stmt :
  (forall ok, P (EvDb stmt ok)) -> is_select stmt = true -> pres (quiet P) (execute stmt).
Proof.
  intros HP Hsel w. split.
  - destruct (execute_store stmt w) as [->| ->]; [reflexivity|]. now apply sql_select_same.
  - destruct (execute_events stmt w) as [ok ->]. exists [EvDb stmt ok]. split; [reflexivity|].
    constructor; [apply HP|constructor].
Qed.

(** * Updating the model for new label classes *)

Lemma max_time_filter_le (P : cnnstate_row -> Prop) `{!forall r, Decision (P r)} rows t :
  max_time (filter P rows) = Some t -> exists T, max_time rows = Some T /\ t <= T.
Proof.
  revert t. induction rows as [|r rows IH]; intros t; simpl; [discriminate|].
  rewrite filter_cons. destruct (decide (P r)) as [_|_]; simpl.
  - destruct (cs_timecreated r) as [tr|].
    + destruct (max_time (filter P rows)) as [m|] eqn:Em.
      * destruct (IH m eq_refl) as (T & -> & HT). intros [= <-]. exists (Z.max tr T). split; [done|lia].
      * intros [= <-]. destruct (max_time rows) as [T|]; eexists; split; try reflexivity; lia.
    + intros Ht. destruct (IH t Ht) as (T & -> & HT). eauto.
  - intros Ht. destruct (IH t Ht) as (T & -> & HT).
    destruct (cs_timecreated r) as [tr|]; eexists; split; try reflexivity; lia.
Qed.

Lemma max_time_Some_nonempty rows t : max_time rows = Some t -> rows <> [].
Proof. destruct rows; [discriminate|done]. Qed.

Lemma no_class_since_count T s :
  (forall c t', c ∈ st_labelclass s -> lc_timecreated c = Some t' -> t' < T) ->
  filter (fun c => created_since (Some T) c = true) (st_labelclass s) = [].
Proof.
  intros H. induction (st_labelclass s) as [|c l IH]; [done|].
  rewrite filter_cons. destruct (decide _) as [Hc|_].
  - exfalso. unfold created_since in Hc. destruct (lc_timecreated c) as [t'|] eqn:E; [|done].
    apply bool_decide_eq_true in Hc. specialize (H c t' (list_elem_of_here _ _) E). lia.
  - apply IH. intros c' t' Hin. apply H. now apply list_elem_of_further.
Qed.

Lemma getitem_count_row n :
  rbind (getitem (count_row n) "count") as_int = Ok (Z.of_nat n).
Proof. unfold getitem, count_row. now rewrite lookup_singleton_eq. Qed.

Lemma progress_meta_plain project cum offset numEpochs m :
  m <> "" ->
  progress_meta project cum offset None numEpochs (Some m) None None =
  mk_meta project None None None (Some m).
Proof.
  intros Hm. unfold progress_meta. cbn -[bool_decide].
  now rewrite bool_decide_eq_false_2.
Qed.

(** The condition of line 197 in terms of the tables: the library has a
    state row, partial or not, and no label class carries a time at or
    after the latest time among those rows.  Under it the routine asks the
    two counts, reports SUCCESS and stops. *)
Lemma update_model_fast_path_by_counts FNa project numEpochs modelInstance lib w f :
  update_model modelInstance = Some f ->
  w_calls w ∉ w_faults w ->
  states_of lib (w_store w) <> [] ->
  filter (fun c => created_since (max_time (states_of lib (w_store w))) c = true)
         (st_labelclass (w_store w)) = [] ->
  _call_update_model FNa project numEpochs modelInstance lib w =
    (Ok tt,
     mk_world (w_store w)
       (w_events w ++
          [EvDb (SelectUpdateCounts lib) true;
           EvTask "SUCCESS"
             (mk_meta project None None None
                (Some (("[" +:+ project +:+ " - model update] ") +:+
                       "class definition has not changed; model did not need to be updated.")))])
       (S (w_calls w)) (w_faults w)).
Proof.
  intros Hf Hfault Hne Hzero.
  apply wp_eq. unfold _call_update_model. rewrite Hf.
  apply wp_bind, wp_execute; [done|intros _]. cbn [sql fst snd]. rewrite Hzero.
  cbn [first drop]. change (rbind (Ok ?x) ?f) with (f x). cbn beta.
  apply wp_bind, wp_lift. rewrite getitem_count_row.
  apply wp_bind, wp_lift. rewrite getitem_count_row.
  rewrite bool_decide_eq_true_2 by (destruct (states_of lib (w_store w)); [done|cbn; lia]).
  rewrite (bool_decide_eq_true_2 (Z.of_nat _ = 0)) by reflexivity.
  apply wp_on_message. split; [reflexivity|].
  unfold logged, called. cbn -[String.append progress_meta].
  rewrite <- app_assoc. cbn [app].
  rewrite progress_meta_plain; [reflexivity|]. cbn. discriminate.
Qed.

(** C5, as the source has it: with a model that supports updating, a
    library that has a committed (non-partial) state and no label class
    created at or after the latest such commit's time, the routine asks the
    two counts, reports SUCCESS and stops: the count query is the only
    statement, the model is not called and the tables are as before. *)
Theorem update_model_fast_path FNa project numEpochs modelInstance lib w f t :
  update_model modelInstance = Some f ->
  w_calls w ∉ w_faults w ->
  latest_nonpartial_time lib (w_store w) = Some t ->
  no_class_since t (w_store w) ->
  _call_update_model FNa project numEpochs modelInstance lib w =
    (Ok tt,
     mk_world (w_store w)
       (w_events w ++
          [EvDb (SelectUpdateCounts lib) true;
           EvTask "SUCCESS"
             (mk_meta project None None None
                (Some (("[" +:+ project +:+ " - model update] ") +:+
                       "class definition has not changed; model did not need to be updated.")))])
       (S (w_calls w)) (w_faults w)).
Proof.
  intros Hf Hfault Ht Hnone.
  destruct (max_time_filter_le _ _ _ Ht) as (T & HT & HtT).
  apply (update_model_fast_path_by_counts _ _ _ _ _ _ f); [exact Hf|exact Hfault| |].
  - eapply max_time_Some_nonempty; eauto.
  - rewrite HT. apply no_class_since_count. intros c t' Hin E.
    specialize (Hnone c t' Hin E). lia.
Qed.

Lemma update_model_fast_path_witness :
  _call_update_model sample_annotation_fields "proj" (Some 1) updating_model "L" sample_world =
    (Ok tt,
     mk_world sample_store
       [EvDb (SelectUpdateCounts "L") true;
        EvTask "SUCCESS"
          (mk_meta "proj" None None None
             (Some "[proj - model update] class definition has not changed; model did not need to be updated."))]
       1 []).
Proof.
  apply (update_model_fast_path sample_annotation_fields "proj" (Some 1) updating_model "L"
           sample_world (fun _ _ => ([], Ok (PBytes [8]))) 10).
  - reflexivity.
  - vm_compute. inversion 1.
  - reflexivity.
  - intros c t' Hin E. vm_compute in Hin.
    apply list_elem_of_singleton in Hin. subst c. injection E as <-. lia.
Defined.

(** C5 as stated fails when a label class carries exactly the time of the
    latest commit: none was created after it, yet the routine loads the
    state and the metadata, calls the model and commits. *)
Lemma update_model_runs_at_equal_time :
  latest_nonpartial_time "L" boundary_store = Some 10 /\
  no_class_after 10 boundary_store /\
  let r := _call_update_model sample_annotation_fields "proj" (Some 1) updating_model "L"
             boundary_world in
  r.1 = Ok tt /\
  filter is_adapter_call (w_events r.2) = [EvAdapter (CallUpdateModel (PBytes [1; 2]))] /\
  filter is_state_load (w_events r.2) = [EvDb (SelectLatestState "L") true] /\
  filter is_metadata_load (w_events r.2) = [EvDb SelectLabelClasses true] /\
  filter is_state_insert (w_events r.2) =
    [EvDb (InsertState (PBytes [8]) PNone false (PStr "L") PNone) true].
Proof.
  split; [reflexivity|]. split.
  - intros c t' Hin E. vm_compute in Hin.
    apply list_elem_of_singleton in Hin. subst c. injection E as <-. lia.
  - vm_compute. repeat split.
Qed.

(** * Averaging partial states *)

Lemma getitem_partial_stats r : getitem (partial_state_dict r) "stats" = Raise (KeyError "stats").
Proof.
  unfold getitem, partial_state_dict.
  rewrite !lookup_insert_ne by discriminate. now rewrite lookup_singleton_ne by discriminate.
Qed.

Lemma stats_dicts_partial rows :
  rows <> [] -> stats_dicts (partial_state_dict <$> rows) = Raise (KeyError "stats").
Proof.
  destruct rows as [|r rows]; [done|]. intros _. unfold stats_dicts. simpl.
  now rewrite getitem_partial_stats.
Qed.


Lemma no_commit_no_purge_task state meta : no_commit_no_purge (EvTask state meta).
Proof. now split. Qed.

Lemma no_commit_no_purge_select stmt ok :
  is_select stmt = true -> no_commit_no_purge (EvDb stmt ok).
Proof. destruct stmt; try discriminate; now split. Qed.

Lemma no_commit_no_purge_adapter c : no_commit_no_purge (EvAdapter c).
Proof. now split. Qed.

Lemma quiet_task P : 
  (forall state meta, P (EvTask state meta)) ->
  forall state meta, pres (quiet P) (emit (EvTask state meta)).
Proof. intros HP state meta. apply quiet_emit, HP. Qed.

(** The fusion block of lines 359-364 leaves the tables alone. *)
Lemma fusion_quiet project epoch numEpochs modelInstance queryResult msg :
  pres (quiet no_commit_no_purge)
    (try_reraise
       (modelStates <- lift (mapM (fun qr => getitem qr "statedict") queryResult) ;;
        match average_model_states modelInstance with
        | None =>
            raise (AttributeError ("'" +:+ class_name modelInstance +:+
                                   "' object has no attribute 'average_model_states'"))
        | Some average_model_states =>
            emit (EvAdapter (CallAverageModelStates modelStates)) ;;;
            run_adapter (__get_message_fun project None 0 epoch numEpochs)
              (average_model_states modelStates)
        end)%py msg).
Proof.
  apply pres_try_reraise, pres_seq; [apply _|apply pres_lift, _|intros ms].
  destruct (average_model_states modelInstance); [|apply pres_raise, _].
  apply pres_seq; [apply _|apply quiet_emit, no_commit_no_purge_adapter|intros _].
  apply pres_run_adapter; [apply _|].
  apply quiet_task, no_commit_no_purge_task.
Qed.

(** With at least one partial state for the library the routine does not
    get as far as the commit.  Either the SELECT of lines 341-346 or the
    fusion fails, or line 368 asks each selected row for ['stats'], a key
    the SELECT list does not produce (it names the column [statistics]).
    The routine raises, the tables are as before, and neither the INSERT
    of the fused state nor the DELETE of the partial states is issued. *)
Lemma average_stops_before_commit project epoch numEpochs modelInstance lib w :
  partial_states lib (w_store w) <> [] ->
  let r := _call_average_model_states project epoch numEpochs modelInstance lib w in
  (exists e, r.1 = Raise e) /\
  partial_states lib (w_store r.2) = partial_states lib (w_store w) /\
  quiet no_commit_no_purge w r.2.
Proof.
  intros Hne.
  enough (wp (_call_average_model_states project epoch numEpochs modelInstance lib) w
            (fun r w' => (exists e, r = Raise e) /\ quiet no_commit_no_purge w w')) as H.
  { destruct H as [He Hq]. repeat split; try apply Hq; [exact He|]. now rewrite (proj1 Hq). }
  unfold _call_average_model_states.
  apply wp_bind, wp_on_message.
  match goal with |- wp _ ?w1 _ => assert (Hq1 : quiet no_commit_no_purge w w1)
    by (apply quiet_logged; [reflexivity|apply no_commit_no_purge_task]) end.
  apply wp_bind, wp_try_reraise, wp_execute; intros _.
  { split; [eauto|]. apply (quiet_called _ _ _ _ _ Hq1). now apply no_commit_no_purge_select. }
  cbn [sql fst snd logged w_store].
  match goal with |- wp _ ?w2 _ => assert (Hq2 : quiet no_commit_no_purge w w2)
    by (apply (quiet_called _ _ _ _ _ Hq1); now apply no_commit_no_purge_select) end.
  rewrite bool_decide_eq_false_2
    by (intros E; apply fmap_nil_inv in E; exact (Hne E)).
  apply wp_bind, wp_on_message.
  match goal with |- wp _ ?w3 _ => assert (Hq3 : quiet no_commit_no_purge w w3)
    by (apply quiet_logged; [exact Hq2|apply no_commit_no_purge_task]) end.
  apply wp_bind. eapply wp_pres; [apply fusion_quiet|].
  intros [fused|e] w4 Hq4.
  - apply wp_bind, wp_lift. unfold partial_states in Hne.
    rewrite stats_dicts_partial by exact Hne.
    split; [eauto|]. etransitivity; eassumption.
  - split; [eauto|]. etransitivity; eassumption.
Qed.

Lemma mapM_statedict rows :
  mapM (fun qr => getitem qr "statedict") (partial_state_dict <$> rows) = Ok (cs_statedict <$> rows).
Proof.
  induction rows as [|r rows IH]; [reflexivity|].
  cbn [fmap list_fmap mapM]. unfold getitem at 1. unfold partial_state_dict at 1.
  rewrite lookup_insert_eq. cbn [rbind]. now rewrite IH.
Qed.

(** With at least one partial state, a SELECT that goes through and a
    model whose fusion succeeds, the routine ends in the [KeyError] of
    line 368. *)
Lemma average_raises_key_error project epoch numEpochs modelInstance lib w f calls fused :
  partial_states lib (w_store w) <> [] ->
  w_calls w ∉ w_faults w ->
  average_model_states modelInstance = Some f ->
  f (cs_statedict <$> partial_states lib (w_store w)) = (calls, Ok fused) ->
  (_call_average_model_states project epoch numEpochs modelInstance lib w).1
  = Raise (KeyError "stats").
Proof.
  intros Hne Hf Hm Hfused.
  change (wp (_call_average_model_states project epoch numEpochs modelInstance lib) w
            (fun r _ => r = Raise (KeyError "stats"))).
  unfold _call_average_model_states.
  apply wp_bind, wp_on_message.
  apply wp_bind, wp_try_reraise, wp_execute; [intros Hin; now destruct Hf|intros _].
  cbn [sql fst snd logged w_store]. fold (partial_states lib (w_store w)).
  rewrite bool_decide_eq_false_2 by (intros E; apply fmap_nil_inv in E; exact (Hne E)).
  apply wp_bind, wp_on_message.
  apply wp_bind, wp_try_reraise, wp_bind, wp_lift. rewrite mapM_statedict, Hm.
  apply wp_bind, wp_emit. rewrite Hfused.
  apply wp_run_adapter. intros w1. cbn [snd].
  apply wp_bind, wp_lift. now rewrite stats_dicts_partial.
Qed.

(** C1: the purge is never reached.  Whenever at least one partial
    state is stored for the library, [_call_average_model_states] raises
    with the tables as they were: the log shows neither the INSERT of a
    fused state nor the DELETE of the partial states, attempted or done, and
    every partial row is still there.  This is so even when the SELECT goes
    through and the model fuses the states: the routine then stops at line
    368 with [KeyError('stats')], before the block of lines 376-406. *)
Theorem averaging_never_purges project epoch numEpochs modelInstance lib w :
  partial_states lib (w_store w) <> [] ->
  let r := _call_average_model_states project epoch numEpochs modelInstance lib w in
  (exists e, r.1 = Raise e) /\
  w_store r.2 = w_store w /\
  partial_states lib (w_store r.2) <> [] /\
  (exists evs, w_events r.2 = w_events w ++ evs /\ Forall no_commit_no_purge evs) /\
  (forall f calls fused,
     w_calls w ∉ w_faults w ->
     average_model_states modelInstance = Some f ->
     f (cs_statedict <$> partial_states lib (w_store w)) = (calls, Ok fused) ->
     r.1 = Raise (KeyError "stats")).
Proof.
  intros Hne. cbv zeta.
  destruct (average_stops_before_commit project epoch numEpochs modelInstance lib w Hne)
    as (He & Hp & Hs & Hevs).
  cbv zeta in He, Hp, Hs, Hevs.
  split; [exact He|]. split; [exact Hs|]. split; [now rewrite Hp|]. split; [exact Hevs|].
  intros f calls fused Hf Hm Hfused.
  now apply (average_raises_key_error project epoch numEpochs modelInstance lib w f calls fused).
Qed.

Lemma averaging_never_purges_witness :
  let r := _call_average_model_states "proj" (Some 1) (Some 1) averaging_model "L"
             partial_world in
  (exists e, r.1 = Raise e) /\
  w_store r.2 = w_store partial_world /\
  partial_states "L" (w_store r.2) <> [] /\
  (exists evs, w_events r.2 = w_events partial_world ++ evs /\ Forall no_commit_no_purge evs) /\
  (forall f calls fused,
     w_calls partial_world ∉ w_faults partial_world ->
     average_model_states averaging_model = Some f ->
     f (cs_statedict <$> partial_states "L" (w_store partial_world)) = (calls, Ok fused) ->
     r.1 = Raise (KeyError "stats")).
Proof.
  apply (averaging_never_purges "proj" (Some 1) (Some 1) averaging_model "L" partial_world).
  discriminate.
Defined.

(** What the DELETE of lines 397-400 does once it runs: no partial row is
    left, of whichever library. *)
Lemma purge_leaves_no_partial s : no_partial_left (sql DeletePartialStates s).2.
Proof. simpl. apply Forall_forall. intros r Hr. now apply list_elem_of_filter in Hr as [? _]. Qed.

Lemma wp_get_ai_library_names project w (Q : result (pyval * pyval) -> World -> Prop) :
  (forall libs ok, Q (Ok libs) (called w SelectLibraryNames ok (w_store w))) ->
  wp (__get_ai_library_names project) w Q.
Proof.
  intros HQ. unfold wp, __get_ai_library_names, execute.
  case_bool_decide; simpl; [apply HQ|].
  destruct (st_project (w_store w)); simpl; [|apply HQ].
  unfold getitem. rewrite lookup_insert_eq, lookup_insert_ne by discriminate.
  rewrite lookup_singleton_eq. apply HQ.
Qed.

(** The commit and the purge on their own (lines 376-406), from any
    world, for any selected rows and any fused state.
    Up to the INSERT of the fused state nothing is committed or purged;
    when the INSERT fails the routine raises with the tables as they were
    and no DELETE is issued; the DELETE comes only after the INSERT has
    gone through, and when the routine returns no partial row is left in
    the state table, whether or not it was among the selected rows. *)
Lemma push_and_purge_order project epoch numEpochs queryResult modelStates_avg stats_avg w :
  let r := push_and_purge project epoch numEpochs queryResult modelStates_avg stats_avg w in
  exists before lib alc,
    Forall no_commit_no_purge before /\
    (((exists e, r.1 = Raise e) /\ w_store r.2 = w_store w /\
      w_events r.2 = w_events w ++ before ++
                       [EvDb (InsertState modelStates_avg stats_avg false lib alc) false]) \/
     (exists after,
        w_events r.2 = w_events w ++ before ++
                         EvDb (InsertState modelStates_avg stats_avg false lib alc) true :: after /\
        (r.1 = Ok tt -> no_partial_left (w_store r.2)))).
Proof.
  cbv zeta.
  change (wp (push_and_purge project epoch numEpochs queryResult modelStates_avg stats_avg) w
            (fun r w' =>
               exists before lib alc,
                 Forall no_commit_no_purge before /\
                 (((exists e, r = Raise e) /\ w_store w' = w_store w /\
                   w_events w' = w_events w ++ before ++
                       [EvDb (InsertState modelStates_avg stats_avg false lib alc) false]) \/
                  (exists after,
                     w_events w' = w_events w ++ before ++
                       EvDb (InsertState modelStates_avg stats_avg false lib alc) true :: after /\
                     (r = Ok tt -> no_partial_left (w_store w')))))).
  unfold push_and_purge.
  apply wp_bind, wp_on_message.
  match goal with |- wp _ ?w1' _ => set (w1 := w1');
    assert (Hq1 : quiet no_commit_no_purge w w1)
      by (apply quiet_logged; [reflexivity|apply no_commit_no_purge_task]) end.
  enough (forall libs w2, quiet no_commit_no_purge w w2 ->
            wp (try_reraise (execute (InsertState modelStates_avg stats_avg false libs.1 libs.2))
                  (fun e => ("[Epoch " +:+ fmt epoch +:+ "] ") +:+
                            "error during data committing (reason: " +:+ str_exn e +:+ ")") ;;;
                __get_message_fun project None 0 epoch numEpochs "FINALIZING"
                  (Some (("[Epoch " +:+ fmt epoch +:+ "] ") +:+ "purging cache")) None None ;;;
                try_reraise (execute DeletePartialStates)
                  (fun e => ("[Epoch " +:+ fmt epoch +:+ "] ") +:+
                            "error during cache purging (reason: " +:+ str_exn e +:+ ")") ;;;
                __get_message_fun project None 0 epoch numEpochs "SUCCESS"
                  (Some (("[Epoch " +:+ fmt epoch +:+ "] ") +:+ "averaged " +:+
                         pretty (len queryResult) +:+ " model states")) None None)%py w2
              (fun r w' =>
                 exists before lib alc,
                   Forall no_commit_no_purge before /\
                   (((exists e, r = Raise e) /\ w_store w' = w_store w /\
                     w_events w' = w_events w ++ before ++
                       [EvDb (InsertState modelStates_avg stats_avg false lib alc) false]) \/
                    (exists after,
                       w_events w' = w_events w ++ before ++
                         EvDb (InsertState modelStates_avg stats_avg false lib alc) true :: after /\
                       (r = Ok tt -> no_partial_left (w_store w')))))) as Hrest.
  { apply wp_bind, wp_try_except, wp_lift.
    match goal with |- match ?r with _ => _ end => destruct r as [libs|e] end.
    - now apply Hrest.
    - apply wp_get_ai_library_names. intros libs ok. apply Hrest.
      apply quiet_called; [exact Hq1|]. now apply no_commit_no_purge_select. }
  intros libs w2 (Hs2 & before & He2 & Hbefore).
  exists before, libs.1, libs.2. split; [exact Hbefore|].
  apply wp_bind, wp_try_reraise, wp_execute; intros _.
  { left. split; [eauto|]. split; [exact Hs2|]. simpl. now rewrite He2, <- app_assoc. }
  right. apply wp_bind, wp_on_message.
  apply wp_bind, wp_try_reraise, wp_execute; intros _.
  { eexists. split; [|intros [=]]. simpl. rewrite He2, <- !app_assoc. reflexivity. }
  apply wp_on_message. eexists. split.
  - simpl. rewrite He2, <- !app_assoc. reflexivity.
  - intros _. apply purge_leaves_no_partial.
Qed.

(** The block run on the two rows selected for ["L"] out of [mixed_store]:
    one INSERT, then one DELETE; the partial row of the other library is
    purged with them. *)
Lemma push_and_purge_example :
  let r := push_and_purge "proj" (Some 1) (Some 1)
             (sql (SelectPartialStates "L") mixed_store).1 (PBytes [7]) PNone
             (mk_world mixed_store [] 0 []) in
  r.1 = Ok tt /\
  filter is_db (w_events r.2)
    = [EvDb (InsertState (PBytes [7]) PNone false (PStr "L") PNone) true;
       EvDb DeletePartialStates true] /\
  st_cnnstate (w_store r.2)
    = [mk_cnnstate 100 (Some 5) (PBytes [1]) PNone false (PStr "L") PNone;
       mk_cnnstate 200 (Some 50) (PBytes [7]) PNone false (PStr "L") PNone].
Proof. vm_compute. repeat split. Qed.

(** The reduction of lines 367-374 on its own: a key that occurs in some
    dict is averaged over the dicts that have it. *)
Lemma average_stats_lookup (dicts : list (gmap string num)) key :
  (exists d, d ∈ dicts /\ is_Some (d !! key)) ->
  exists stats_avg, average_stats dicts = PJson stats_avg /\
    stats_avg !! key = Some (nanmean (omap (fun d => d !! key) dicts)).
Proof.
  intros (d & Hd & Hk). unfold average_stats.
  set (keys := ⋃ (dom <$> dicts)).
  set (f := fun key => (key, nanmean (omap (fun d : gmap string num => d !! key) dicts))).
  assert (Hin : key ∈ keys).
  { apply elem_of_union_list. exists (dom d). split; [|now apply elem_of_dom].
    apply list_elem_of_fmap. eauto. }
  assert (Hl : (set_to_map f keys : gmap string num) !! key
               = Some (nanmean (omap (fun d : gmap string num => d !! key) dicts))).
  { apply lookup_set_to_map; [|exists key; split; [exact Hin|reflexivity]].
    intros y y' _ _ E. exact E. }
  rewrite bool_decide_eq_false_2.
  - eexists. split; [reflexivity|exact Hl].
  - intros E%map_size_empty_iff. rewrite E, lookup_empty in Hl. discriminate.
Qed.

Lemma nanmean_finite (qs : list Q) :
  qs <> [] -> nanmean (Fin <$> qs) = Fin (Qred (foldr Qplus 0%Q qs / inject_Z (len qs))).
Proof.
  intros Hne. unfold nanmean.
  assert (E : omap (fun x => match x with Fin q => Some q | NaN => None end) (Fin <$> qs) = qs).
  { clear Hne. induction qs as [|q qs IH]; [reflexivity|]. cbn. now rewrite IH. }
  rewrite E. destruct qs; [done|reflexivity].
Qed.

(** C4: three partial rows whose statistics give ["loss"] as 10, nothing
    and 20.  The routine raises [KeyError('stats')] at line 368 and commits
    nothing, so no mean is ever stored; the reduction of lines 367-374
    applied to these statistics would give 15 for ["loss"]. *)
Theorem average_stats_not_reached :
  let r := _call_average_model_states "proj" (Some 1) (Some 1) averaging_model "L"
             partial_world in
  r.1 = Raise (KeyError "stats") /\
  w_store r.2 = partial_store /\
  filter is_state_insert (w_events r.2) = [] /\
  average_stats [ {[ "loss" := Fin 10%Q ]}; {[ "acc" := Fin 1%Q ]}; {[ "loss" := Fin 20%Q ]} ]
    = PJson {[ "loss" := Fin 15%Q; "acc" := Fin 1%Q ]}.
Proof. vm_compute. repeat split. Qed.

(** * Inference *)

Lemma mapM_Forall2 {A B} (f : A -> result B) l ys :
  mapM f l = Ok ys -> Forall2 (fun x y => f x = Ok y) l ys.
Proof.
  revert ys. induction l as [|x l IH]; intros ys; simpl.
  - intros [= <-]. constructor.
  - destruct (f x) as [y|] eqn:Ef; simpl; [|discriminate].
    destruct (mapM f l) as [ys'|]; simpl; [|discriminate].
    intros [= <-]. constructor; [exact Ef|now apply IH].
Qed.

Lemma mapM_elem {A B} (f : A -> result B) l ys y :
  mapM f l = Ok ys -> y ∈ ys -> exists x, x ∈ l /\ f x = Ok y.
Proof.
  intros H%mapM_Forall2 Hy. induction H as [|x y' l ys Hf _ IH].
  - now apply elem_of_nil in Hy.
  - apply elem_of_cons in Hy as [->|Hy].
    + exists x. split; [apply list_elem_of_here|exact Hf].
    + destruct (IH Hy) as (x' & Hx' & Hf'). exists x'. split; [now apply list_elem_of_further|exact Hf'].
Qed.

(** Every tuple of [values_pred] is the projection of one prediction of
    one image of the result. *)
Lemma parse_result_rows predType fieldNames stateDictID result_ values_pred values_img values :
  parse_result predType fieldNames stateDictID result_ = Ok (values_pred, values_img) ->
  values ∈ values_pred ->
  exists imgID r prediction,
    (imgID, r) ∈ result_ /\ prediction ∈ ir_predictions r /\
    project_prediction predType fieldNames imgID stateDictID (ir_predictions r) prediction
      = Ok values.
Proof.
  unfold parse_result.
  enough (forall acc out,
            foldM (fun (acc : list (list pyval) * list (Z * list Z)) (entry : Z * ImageResult) =>
                     let '(imgID, r) := entry in
                     rbind (mapM (project_prediction predType fieldNames imgID stateDictID
                                    (ir_predictions r)) (ir_predictions r)) (fun rows =>
                     Ok (acc.1 ++ rows,
                         match ir_fVec r with
                         | Some (b :: v) => acc.2 ++ [(imgID, b :: v)]
                         | _ => acc.2
                         end))) result_ acc = Ok out ->
            values ∈ out.1 ->
            values ∈ acc.1 \/
            exists imgID r prediction,
              (imgID, r) ∈ result_ /\ prediction ∈ ir_predictions r /\
              project_prediction predType fieldNames imgID stateDictID (ir_predictions r) prediction
                = Ok values) as H.
  { intros Hp Hin. destruct (H _ _ Hp Hin) as [Hnil|Hex]; [|exact Hex].
    now apply elem_of_nil in Hnil. }
  induction result_ as [|[imgID r] res IH]; intros acc out; simpl.
  - intros [= <-]. now left.
  - destruct (mapM _ (ir_predictions r)) as [rows|] eqn:Em; simpl; [|discriminate].
    intros Hf Hin. destruct (IH _ _ Hf Hin) as [Hacc|(i & r' & p & Hir & Hp & Hproj)].
    + simpl in Hacc. apply elem_of_app in Hacc as [Hacc|Hrows]; [now left|right].
      destruct (mapM_elem _ _ _ _ Em Hrows) as (p & Hp & Hproj).
      exists imgID, r, p. split; [apply list_elem_of_here|]. now split.
    + right. exists i, r', p. split; [now apply list_elem_of_further|]. now split.
Qed.

(** The value stored under each field name of a projected tuple. *)
Lemma project_prediction_fields predType fieldNames imgID stateDictID predictions prediction
    values :
  project_prediction predType fieldNames imgID stateDictID predictions prediction = Ok values ->
  exists seg,
    (if bool_decide (predType = "segmentationMasks")
     then exists s, encode_segmask predictions = Ok s /\ seg = Some s
     else seg = None) /\
    Forall2 (fun fn v => field_value predType imgID stateDictID seg prediction fn = Ok v)
            fieldNames values.
Proof.
  unfold project_prediction. case_bool_decide.
  - destruct (encode_segmask predictions) as [s|]; simpl; [|discriminate].
    intros Hm%mapM_Forall2. exists (Some s). split; [eauto|exact Hm].
  - simpl. intros Hm%mapM_Forall2. exists None. split; [reflexivity|exact Hm].
Qed.

(** ** The chunk loop *)

#[global] Instance grows_preorder PE PR : PreOrder (grows PE PR).
Proof.
  split.
  - intros w. split; [reflexivity|]. split; exists []; now rewrite app_nil_r.
  - intros w1 w2 w3 (Hc1 & (r1 & Hr1 & HP1) & (e1 & He1 & HE1))
                    (Hc2 & (r2 & Hr2 & HP2) & (e2 & He2 & HE2)).
    split; [congruence|]. split.
    + exists (r1 ++ r2). rewrite Hr2, Hr1, app_assoc. split; [reflexivity|now apply Forall_app].
    + exists (e1 ++ e2). rewrite He2, He1, app_assoc. split; [reflexivity|now apply Forall_app].
Qed.

Lemma quiet_grows PE PR w w' : quiet PE w w' -> grows PE PR w w'.
Proof.
  intros [Hs He]. split; [now rewrite Hs|]. split; [|exact He].
  exists []. rewrite Hs, app_nil_r. now split.
Qed.

(** One step of a routine under an invariant [R w0 _]: the block [m] keeps
    [R], an exception ends the run, a value goes on to the rest. *)
Lemma wp_step {A B} (R : World -> World -> Prop) `{!PreOrder R} w0 w
    (m : M A) (k : A -> M B) (Q : result B -> World -> Prop) :
  R w0 w -> pres R m ->
  (forall e w1, R w0 w1 -> Q (Raise e) w1) ->
  (forall a w1, R w0 w1 -> m w = (Ok a, w1) -> wp (k a) w1 Q) ->
  wp (bind m k) w Q.
Proof.
  intros Hinv Hm Hraise Hok. apply wp_bind. unfold wp.
  specialize (Hm w). destruct (m w) as [[a|e] w1] eqn:E; simpl in *.
  - apply Hok; [etransitivity; eassumption|reflexivity].
  - apply Hraise. etransitivity; eassumption.
Qed.

Lemma inference_event_task sd state meta : inference_event sd (EvTask state meta).
Proof. exact I. Qed.

Lemma inference_event_select sd stmt ok :
  is_select stmt = true -> inference_event sd (EvDb stmt ok).
Proof. destruct stmt; try discriminate; intros _; exact I. Qed.

Lemma quiet_inference_task sd state meta :
  pres (quiet (inference_event sd)) (emit (EvTask state meta)).
Proof. apply quiet_emit, inference_event_task. Qed.

Lemma quiet_inference_select sd stmt :
  is_select stmt = true -> pres (quiet (inference_event sd)) (execute stmt).
Proof. intros Hs. apply quiet_select; [|exact Hs]. intros ok. now apply inference_event_select. Qed.

#[global] Hint Resolve quiet_inference_task quiet_inference_select : core.

Lemma grows_called_failed PE PR w0 w stmt :
  grows PE PR w0 w -> PE (EvDb stmt false) -> grows PE PR w0 (called w stmt false (w_store w)).
Proof.
  intros (Hc & Hr & (evs & He & HE)) Pe. split; [exact Hc|]. split; [exact Hr|].
  exists (evs ++ [EvDb stmt false]). simpl. rewrite He, app_assoc. split; [reflexivity|].
  apply Forall_app. split; [exact HE|now constructor].
Qed.

Lemma grows_insert_predictions PE PR w0 w fieldNames values :
  grows PE PR w0 w -> PE (EvDb (InsertPredictions fieldNames values) true) ->
  Forall PR (zip fieldNames <$> values) ->
  grows PE PR w0 (called w (InsertPredictions fieldNames values) true
                    (sql (InsertPredictions fieldNames values) (w_store w)).2).
Proof.
  intros (Hc & (rows & Hr & HR) & (evs & He & HE)) Pe Hrows. split; [exact Hc|]. split.
  - exists (rows ++ (zip fieldNames <$> values)). simpl. rewrite Hr, app_assoc.
    split; [reflexivity|]. now apply Forall_app.
  - exists (evs ++ [EvDb (InsertPredictions fieldNames values) true]). simpl.
    rewrite He, app_assoc. split; [reflexivity|].
    apply Forall_app. split; [exact HE|now constructor].
Qed.

Lemma grows_upsert PE PR w0 w values :
  grows PE PR w0 w -> PE (EvDb (UpsertFeatureVectors values) true) ->
  grows PE PR w0 (called w (UpsertFeatureVectors values) true
                    (sql (UpsertFeatureVectors values) (w_store w)).2).
Proof.
  intros (Hc & Hr & (evs & He & HE)) Pe. split; [exact Hc|]. split; [exact Hr|].
  exists (evs ++ [EvDb (UpsertFeatureVectors values) true]). simpl.
  rewrite He, app_assoc. split; [reflexivity|].
  apply Forall_app. split; [exact HE|now constructor].
Qed.

(** One chunk: the state table is untouched, the prediction table grows by
    rows projected from the chunk's result, the model and the ranker are
    handed [stateDict]; when the chunk raises, the image table is as the
    chunk found it. *)
Lemma process_chunk_grows FNa FNp project imageIDs epoch numEpochs modelInstance rankerInstance
    batchSizeLimit predType stateDict stateDictID nchunks idx batch w :
  wp (process_chunk FNa FNp project imageIDs epoch numEpochs modelInstance rankerInstance
        batchSizeLimit predType stateDict stateDictID nchunks idx batch) w
     (fun r w' =>
        grows (inference_event stateDict) (chunk_row FNp predType stateDictID) w w' /\
        (forall e, r = Raise e -> st_image (w_store w') = st_image (w_store w))).
Proof.
  set (PE := inference_event stateDict). set (PR := chunk_row FNp predType stateDictID).
  assert (Hfin : forall (r : result unit) w1, quiet PE w w1 ->
            grows PE PR w w1 /\
            (forall e, r = Raise e -> st_image (w_store w1) = st_image (w_store w))).
  { intros r w1 Hq. split; [now apply quiet_grows|]. intros _ _. now rewrite (proj1 Hq). }
  unfold process_chunk.
  apply wp_bind, wp_lift.
  destruct (py_mul idx batchSizeLimit) as [offset|e]; [|apply Hfin; reflexivity].
  eapply (wp_step (quiet PE) w);
    [reflexivity|apply pres_on_message; subst PE; auto|intros; now apply Hfin|intros [] w1 Hq1 _].
  eapply (wp_step (quiet PE) w);
    [exact Hq1|apply pres_try_reraise, pres_load_metadata; subst PE; auto; apply _
    |intros; now apply Hfin|intros data w2 Hq2 _].
  eapply (wp_step (quiet PE) w);
    [exact Hq2|apply pres_on_message; subst PE; auto|intros; now apply Hfin|intros [] w3 Hq3 _].
  eapply (wp_step (quiet PE) w);
    [exact Hq3| |intros; now apply Hfin|intros result w4 Hq4 _].
  { apply pres_try_reraise, pres_seq; [apply _|apply quiet_emit; reflexivity|intros _].
    apply pres_run_adapter; subst PE; auto; apply _. }
  eapply (wp_step (quiet PE) w);
    [exact Hq4| |intros; now apply Hfin|intros ranked w5 Hq5 _].
  { destruct rankerInstance as [[[rank|]]|]; try (apply pres_ret; apply _).
    apply pres_seq; [apply _|apply pres_on_message; subst PE; auto|intros _].
    apply pres_try_reraise, pres_seq; [apply _|apply quiet_emit; reflexivity|intros _].
    apply pres_run_adapter; subst PE; auto; apply _. }
  apply wp_bind, wp_try_reraise, wp_bind, wp_on_message.
  match goal with |- wp _ ?w6' _ => set (w6 := w6');
    assert (Hq6 : quiet PE w w6) by (apply quiet_logged; [exact Hq5|exact I]) end.
  apply wp_bind, wp_lift. unfold getattr.
  destruct (FNp predType) as [base|] eqn:Eb; [|apply Hfin; exact Hq6].
  apply wp_bind, wp_lift.
  destruct (parse_result predType (base ++ ["image"; "cnnstate"]) stateDictID ranked)
    as [[values_pred values_img]|] eqn:Ep; [|apply Hfin; exact Hq6].
  apply wp_ret. cbn beta iota.
  assert (Hrows : Forall PR (zip (base ++ ["image"; "cnnstate"]) <$> values_pred)).
  { apply Forall_forall. intros row (values & -> & Hin)%list_elem_of_fmap.
    exists base, ranked, values_pred, values_img, values. now repeat split. }
  apply wp_try_reraise, wp_bind.
  assert (Hg6 : grows PE PR w w6) by now apply quiet_grows.
  assert (Hi6 : st_image (w_store w6) = st_image (w_store w)) by now rewrite (proj1 Hq6).
  case_bool_decide.
  - apply wp_ret. case_bool_decide; [apply wp_ret; split; [exact Hg6|now intros]|].
    apply wp_bind, wp_execute; intros _.
    + split; [now apply grows_called_failed|]. intros _ _. exact Hi6.
    + apply wp_ret. split; [now apply grows_upsert|]. intros e [=].
  - apply wp_bind, wp_execute; intros _.
    + split; [now apply grows_called_failed|]. intros _ _. exact Hi6.
    + apply wp_ret. case_bool_decide.
      * apply wp_ret. split; [now apply grows_insert_predictions|]. intros e [=].
      * apply wp_bind, wp_execute; intros _.
        -- split; [apply grows_called_failed; [now apply grows_insert_predictions|exact I]|].
           intros _ _. exact Hi6.
        -- apply wp_ret. split; [|intros e [=]].
           apply grows_upsert; [now apply grows_insert_predictions|exact I].
Qed.

Lemma process_chunks_grows FNa FNp project imageIDs epoch numEpochs modelInstance rankerInstance
    batchSizeLimit predType stateDict stateDictID nchunks idx chunks w :
  wp (process_chunks FNa FNp project imageIDs epoch numEpochs modelInstance rankerInstance
        batchSizeLimit predType stateDict stateDictID nchunks idx chunks) w
     (fun _ w' => grows (inference_event stateDict) (chunk_row FNp predType stateDictID) w w').
Proof.
  revert idx w. induction chunks as [|c chunks IH]; intros idx w; simpl.
  - apply wp_ret. reflexivity.
  - apply wp_bind. eapply wp_mono; [apply process_chunk_grows|].
    intros [[]|e] w1 [Hg _]; [|exact Hg].
    eapply wp_mono; [apply IH|]. intros r w2 Hg2. cbn beta in Hg2. etransitivity; eassumption.
Qed.

(** The loop stops at the first chunk that raises: what follows it in the
    list plays no part. *)
Lemma process_chunks_stop FNa FNp project imageIDs epoch numEpochs modelInstance rankerInstance
    batchSizeLimit predType stateDict stateDictID nchunks idx pre c post w w1 e w2 :
  process_chunks FNa FNp project imageIDs epoch numEpochs modelInstance rankerInstance
    batchSizeLimit predType stateDict stateDictID nchunks idx pre w = (Ok tt, w1) ->
  process_chunk FNa FNp project imageIDs epoch numEpochs modelInstance rankerInstance
    batchSizeLimit predType stateDict stateDictID nchunks (idx + length pre) c w1 = (Raise e, w2) ->
  process_chunks FNa FNp project imageIDs epoch numEpochs modelInstance rankerInstance
    batchSizeLimit predType stateDict stateDictID nchunks idx (pre ++ c :: post) w = (Raise e, w2).
Proof.
  revert idx w. induction pre as [|c0 pre IH]; intros idx w; simpl.
  - intros [= <-]. rewrite Nat.add_0_r. intros Hc. unfold bind. now rewrite Hc.
  - unfold bind.
    destruct (process_chunk _ _ _ _ _ _ _ _ _ _ _ _ _ idx c0 w) as [[[]|e0] w0]; [|discriminate].
    intros Hpre Hc. apply IH; [exact Hpre|].
    now replace (Datatypes.S idx + length pre)%nat with (idx + Datatypes.S (length pre))%nat by lia.
Qed.

Lemma load_model_state_ok project lib w :
  w_calls w ∉ w_faults w ->
  __load_model_state project lib w =
    (Ok (latest_statedict lib (w_store w), latest_id lib (w_store w)),
     called w (SelectLatestState lib) true (w_store w)).
Proof.
  intros Hf. apply wp_eq. unfold __load_model_state, latest_statedict, latest_id.
  apply wp_bind, wp_execute; [done|intros _]. cbn [sql fst snd].
  destruct (latest_state (states_of lib (w_store w))) as [r|]; [|now apply wp_ret].
  apply wp_bind, wp_lift. unfold getitem. rewrite lookup_insert_eq.
  apply wp_bind, wp_lift. rewrite lookup_insert_ne by discriminate. rewrite lookup_singleton_eq.
  now apply wp_ret.
Qed.

(** [_call_inference] once its first two statements have gone through. *)
Lemma call_inference_after_prelude FNa FNp project imageIDs epoch numEpochs modelInstance lib
    rankerInstance batchSizeLimit w pr :
  st_project (w_store w) = Some pr ->
  w_calls w ∉ w_faults w -> Datatypes.S (w_calls w) ∉ w_faults w ->
  _call_inference FNa FNp project imageIDs epoch numEpochs modelInstance lib rankerInstance
    batchSizeLimit w =
  (process_chunks FNa FNp project imageIDs epoch numEpochs modelInstance rankerInstance
     batchSizeLimit (pr_predictiontype pr) (latest_statedict lib (w_store w))
     (latest_id lib (w_store w))
     (length (imageID_chunks imageIDs batchSizeLimit)) 0 (imageID_chunks imageIDs batchSizeLimit) ;;;
   __get_message_fun project (Some (inject_Z (len imageIDs))) 0 epoch numEpochs "SUCCESS"
     (Some ("predicted on " +:+ pretty (len imageIDs) +:+ " images")) None None)%py
    (after_prelude project lib imageIDs epoch numEpochs w).
Proof.
  intros Hpr Hf0 Hf1. unfold _call_inference.
  unfold bind at 1. unfold execute at 1. rewrite bool_decide_eq_false_2 by exact Hf0.
  cbn [sql fst snd]. rewrite Hpr.
  unfold bind at 1. cbn [lift first rbind]. unfold getitem. rewrite lookup_singleton_eq.
  cbn [rbind as_str].
  unfold bind at 1. cbn [__get_message_fun __on_message emit].
  unfold bind at 1, try_reraise.
  rewrite load_model_state_ok by exact Hf1. reflexivity.
Qed.

(** C3: when the chunk after [pre] raises, the run ends there with that
    exception and in the world the chunk left; the chunks in [post] are
    never entered.  Against the world [w1] in which the earlier chunks had
    finished, the prediction table has lost nothing and the image and state
    tables are unchanged. *)
Theorem failed_chunk_keeps_earlier_commits FNa FNp project imageIDs epoch numEpochs
    modelInstance lib rankerInstance batchSizeLimit w pr pre c post w1 e w2 :
  st_project (w_store w) = Some pr ->
  w_calls w ∉ w_faults w -> Datatypes.S (w_calls w) ∉ w_faults w ->
  imageID_chunks imageIDs batchSizeLimit = pre ++ c :: post ->
  process_chunks FNa FNp project imageIDs epoch numEpochs modelInstance rankerInstance
    batchSizeLimit (pr_predictiontype pr) (latest_statedict lib (w_store w))
    (latest_id lib (w_store w)) (length (pre ++ c :: post)) 0 pre
    (after_prelude project lib imageIDs epoch numEpochs w) = (Ok tt, w1) ->
  process_chunk FNa FNp project imageIDs epoch numEpochs modelInstance rankerInstance
    batchSizeLimit (pr_predictiontype pr) (latest_statedict lib (w_store w))
    (latest_id lib (w_store w)) (length (pre ++ c :: post)) (length pre) c w1 = (Raise e, w2) ->
  _call_inference FNa FNp project imageIDs epoch numEpochs modelInstance lib rankerInstance
    batchSizeLimit w = (Raise e, w2) /\
  (exists rows, st_prediction (w_store w2) = st_prediction (w_store w1) ++ rows) /\
  st_image (w_store w2) = st_image (w_store w1) /\
  st_cnnstate (w_store w2) = st_cnnstate (w_store w1).
Proof.
  intros Hpr Hf0 Hf1 Hchunks Hpre Hc. split.
  - rewrite (call_inference_after_prelude _ _ _ _ _ _ _ _ _ _ _ pr) by assumption.
    rewrite Hchunks. unfold bind.
    now rewrite (process_chunks_stop _ _ _ _ _ _ _ _ _ _ _ _ _ _ _ _ _ _ _ _ _ Hpre Hc).
  - pose proof (process_chunk_grows FNa FNp project imageIDs epoch numEpochs modelInstance
                  rankerInstance batchSizeLimit (pr_predictiontype pr)
                  (latest_statedict lib (w_store w)) (latest_id lib (w_store w))
                  (length (pre ++ c :: post)) (length pre) c w1) as Hg.
    unfold wp in Hg. rewrite Hc in Hg. simpl in Hg.
    destruct Hg as [(Hcs & (rows & Hrows & _) & _) Himg].
    split; [now exists rows|]. split; [now apply (Himg e)|exact Hcs].
Qed.

Lemma failed_chunk_keeps_earlier_commits_witness :
  _call_inference sample_annotation_fields sample_prediction_fields "proj"
    [1; 2; 3; 4; 5; 6; 7; 8; 9; 10] (Some 1) (Some 1) detecting_model "L" None (Some 4)
    faulty_world =
    (Raise (Exception
       "[Epoch 1] error during data committing (chunk 2/3, reason: connection failure)"),
     faulty_at_second_chunk) /\
  (exists rows, st_prediction (w_store faulty_at_second_chunk)
                = st_prediction (w_store faulty_after_first_chunk) ++ rows) /\
  st_image (w_store faulty_at_second_chunk) = st_image (w_store faulty_after_first_chunk) /\
  st_cnnstate (w_store faulty_at_second_chunk) = st_cnnstate (w_store faulty_after_first_chunk).
Proof.
  apply (failed_chunk_keeps_earlier_commits sample_annotation_fields sample_prediction_fields
           "proj" [1; 2; 3; 4; 5; 6; 7; 8; 9; 10] (Some 1) (Some 1) detecting_model "L" None
           (Some 4) faulty_world sample_project [[1; 2; 3; 4]] [5; 6; 7; 8] [[9; 10]]).
  - reflexivity.
  - simpl. intros H%list_elem_of_singleton. discriminate.
  - simpl. intros H%list_elem_of_singleton. discriminate.
  - reflexivity.
  - vm_compute. reflexivity.
  - vm_compute. reflexivity.
Defined.

(** * Which state is loaded *)






#[global] Instance logs_preorder P : PreOrder (logs P).
Proof.
  split.
  - intros w. exists []. now rewrite app_nil_r.
  - intros w1 w2 w3 (e1 & He1 & HP1) (e2 & He2 & HP2).
    exists (e1 ++ e2). rewrite He2, He1, app_assoc. split; [reflexivity|now apply Forall_app].
Qed.

Lemma logs_logged (P : Event -> Prop) w0 w e : logs P w0 w -> P e -> logs P w0 (logged w e).
Proof.
  intros (evs & He & HP) Pe. exists (evs ++ [e]). simpl. rewrite He, app_assoc.
  split; [reflexivity|]. apply Forall_app. split; [exact HP|now constructor].
Qed.

Lemma logs_called (P : Event -> Prop) w0 w stmt ok s :
  logs P w0 w -> P (EvDb stmt ok) -> logs P w0 (called w stmt ok s).
Proof.
  intros (evs & He & HP) Pe. exists (evs ++ [EvDb stmt ok]). simpl. rewrite He, app_assoc.
  split; [reflexivity|]. apply Forall_app. split; [exact HP|now constructor].
Qed.

Lemma logs_emit (P : Event -> Prop) e : P e -> pres (logs P) (emit e).
Proof. intros Pe w. apply logs_logged; [reflexivity|exact Pe]. Qed.

Lemma logs_execute (P : Event -> Prop) stmt :
  (forall ok, P (EvDb stmt ok)) -> pres (logs P) (execute stmt).
Proof.
  intros Pe w. unfold execute. case_bool_decide; simpl; apply logs_called; auto; reflexivity.
Qed.

Lemma adapter_gets_task sd state meta : pres (logs (adapter_gets sd)) (emit (EvTask state meta)).
Proof. now apply logs_emit. Qed.

Lemma adapter_gets_execute sd stmt : pres (logs (adapter_gets sd)) (execute stmt).
Proof. apply logs_execute. intros ok. exact I. Qed.

#[global] Hint Resolve adapter_gets_task adapter_gets_execute : core.

Lemma wp_load_model_state project lib w (Q : result (pyval * pyval) -> World -> Prop) :
  (w_calls w ∈ w_faults w ->
   Q (Raise (DatabaseError "connection failure"))
     (called w (SelectLatestState lib) false (w_store w))) ->
  (w_calls w ∉ w_faults w ->
   Q (Ok (latest_statedict lib (w_store w), latest_id lib (w_store w)))
     (called w (SelectLatestState lib) true (w_store w))) ->
  wp (__load_model_state project lib) w Q.
Proof.
  intros Hfault Hok. destruct (decide (w_calls w ∈ w_faults w)) as [Hf|Hf].
  - unfold wp, __load_model_state, bind, execute. rewrite bool_decide_eq_true_2 by exact Hf.
    simpl. now apply Hfault.
  - unfold wp. rewrite load_model_state_ok by exact Hf. simpl. now apply Hok.
Qed.

(** Goals [pres R m] over blocks built from the loaders, task updates and
    the model's progress calls. *)
Ltac pres_block :=
  repeat first
    [ apply pres_ret | apply pres_raise | apply pres_lift
    | apply pres_on_message | apply pres_try_reraise
    | apply pres_load_metadata | apply pres_load_model_state
    | apply pres_get_ai_library_names | apply pres_run_adapter
    | apply adapter_gets_execute
    | (apply pres_seq; [| |intros ?]) ];
  try apply _; auto.



Lemma grows_impl PE (PR PR' : prediction_row -> Prop) w w' :
  (forall row, PR row -> PR' row) -> grows PE PR w w' -> grows PE PR' w w'.
Proof.
  intros Himp (Hc & (rows & Hr & HR) & He). split; [exact Hc|]. split; [|exact He].
  exists rows. split; [exact Hr|]. eapply Forall_impl; eauto.
Qed.

Lemma grows_logged PE PR w0 w e : grows PE PR w0 w -> PE e -> grows PE PR w0 (logged w e).
Proof.
  intros (Hc & Hr & (evs & He & HE)) Pe. split; [exact Hc|]. split; [exact Hr|].
  exists (evs ++ [e]). simpl. rewrite He, app_assoc. split; [reflexivity|].
  apply Forall_app. split; [exact HE|now constructor].
Qed.

Lemma grows_called_same PE PR w0 w stmt ok :
  grows PE PR w0 w -> PE (EvDb stmt ok) -> grows PE PR w0 (called w stmt ok (w_store w)).
Proof.
  intros (Hc & Hr & (evs & He & HE)) Pe. split; [exact Hc|]. split; [exact Hr|].
  exists (evs ++ [EvDb stmt ok]). simpl. rewrite He, app_assoc. split; [reflexivity|].
  apply Forall_app. split; [exact HE|now constructor].
Qed.




(** [_call_inference] commits no state and purges none, hands the model
    and the ranker the latest state of the library, and stores rows that
    are projected, under the project's prediction type, with the id of
    that state. *)
Lemma inference_grows FNa FNp project imageIDs epoch numEpochs
    modelInstance lib rankerInstance batchSizeLimit w :
  grows (inference_event (latest_statedict lib (w_store w)))
        (fun row => exists pr, st_project (w_store w) = Some pr /\
                               chunk_row FNp (pr_predictiontype pr)
                                 (latest_id lib (w_store w)) row) w
        (_call_inference FNa FNp project imageIDs epoch numEpochs modelInstance lib
           rankerInstance batchSizeLimit w).2.
Proof.
  set (PE := inference_event (latest_statedict lib (w_store w))).
  set (PR := fun row => exists pr, st_project (w_store w) = Some pr /\
                                   chunk_row FNp (pr_predictiontype pr)
                                     (latest_id lib (w_store w)) row).
  change (wp (_call_inference FNa FNp project imageIDs epoch numEpochs modelInstance lib
                rankerInstance batchSizeLimit) w (fun _ w' => grows PE PR w w')).
  unfold _call_inference.
  apply wp_bind, wp_execute; intros _.
  { apply grows_called_same; [reflexivity|exact I]. }
  cbn [sql fst snd].
  match goal with |- wp _ ?w1 _ => assert (Hg1 : grows PE PR w w1)
    by (apply grows_called_same; [reflexivity|exact I]) end.
  apply wp_bind, wp_lift.
  destruct (st_project (w_store w)) as [pr|] eqn:Epr; [|exact Hg1].
  cbn [first rbind]. unfold getitem. rewrite lookup_singleton_eq. cbn [rbind as_str].
  apply wp_bind, wp_on_message.
  apply wp_bind, wp_try_reraise, wp_load_model_state; intros _.
  { apply (grows_called_same PE PR w (logged _ _)); [|exact I].
    apply grows_logged; [exact Hg1|exact I]. }
  match goal with |- wp _ ?w2 _ => assert (Hg2 : grows PE PR w w2)
    by (apply (grows_called_same PE PR w (logged _ _));
        [apply grows_logged; [exact Hg1|exact I]|exact I]) end.
  cbn [logged called w_store].
  apply wp_bind. eapply wp_mono; [apply process_chunks_grows|].
  intros r w3 Hg3. cbn beta in Hg3.
  apply (grows_impl _ _ PR) in Hg3; [|intros row Hrow; exists pr; now split].
  assert (Hg : grows PE PR w w3) by (etransitivity; eassumption).
  destruct r as [[]|e]; [|exact Hg].
  apply wp_on_message, grows_logged; [exact Hg|exact I].
Qed.




(** The same project, run: training is handed the newest partial state and
    the predictions of an inference run carry its id. *)
Lemma newest_partial_state_example :
  filter is_adapter_call
    (w_events (_call_train sample_annotation_fields "proj" [1; 2; 3] (Some 1) (Some 1) true
                 detecting_model "L" partial_world).2)
    = [EvAdapter (CallTrain (PBytes [3]))] /\
  last <$> st_prediction
             (w_store (_call_inference sample_annotation_fields sample_prediction_fields "proj"
                         [1; 2; 3] (Some 1) (Some 1) detecting_model "L" None (Some 2)
                         partial_world).2)
    = [Some ("cnnstate", PInt 102); Some ("cnnstate", PInt 102); Some ("cnnstate", PInt 102)].
Proof. vm_compute. repeat split. Qed.

(** * Segmentation masks *)

Lemma Forall2_zip_elem {A B} (P : A -> B -> Prop) l k x y :
  Forall2 P l k -> (x, y) ∈ zip l k -> P x y.
Proof.
  induction 1 as [|a b l k Hab _ IH]; simpl.
  - intros H. now apply elem_of_nil in H.
  - intros [E|Hin]%elem_of_cons; [now injection E as -> ->|now apply IH].
Qed.

Lemma encode_segmask_spec predictions s :
  encode_segmask predictions = Ok s ->
  exists p0 label,
    first predictions = Ok p0 /\ p0 !! "label" = Some label /\
    shape2 label = Ok (seg_height s, seg_width s) /\
    segMask s = b64encode (ravel_uint8 label).
Proof.
  unfold encode_segmask. destruct (first predictions) as [p0|]; simpl; [|discriminate].
  unfold getitem. destruct (p0 !! "label") as [label|] eqn:El; simpl; [|discriminate].
  destruct (shape2 label) as [[h wd]|] eqn:Es; simpl; [|discriminate].
  intros [= <-]. exists p0, label. simpl. now repeat split.
Qed.

(** * The priority of a prediction *)

Lemma priority_defaults_to_confidence predType imgID sid seg (prediction : pydict) confidence :
  prediction !! "priority" = Some PNone -> prediction !! "confidence" = Some confidence ->
  field_value predType imgID sid seg prediction "priority" = Ok confidence.
Proof. intros Hp Hc. unfold field_value. cbn. now rewrite Hp, Hc. Qed.

Lemma priority_stays_unset predType imgID sid seg (prediction : pydict) :
  prediction !! "priority" = Some PNone -> prediction !! "confidence" = None ->
  field_value predType imgID sid seg prediction "priority" = Ok PNone.
Proof. intros Hp Hc. unfold field_value, getitem. cbn. now rewrite Hp, Hc. Qed.

Lemma priority_missing_raises predType imgID sid seg (prediction : pydict) :
  prediction !! "priority" = None ->
  field_value predType imgID sid seg prediction "priority" = Raise (KeyError "priority").
Proof. intros Hp. unfold field_value, getitem. cbn. now rewrite Hp. Qed.

(** C9: a prediction on which the ranker left no ["priority"] entry.  The
    branch of lines 515-520 falls through to [prediction['priority']] and
    raises [KeyError], with or without a confidence; the chunk ends in
    "error during result parsing" and none of its rows is stored. *)
Theorem missing_priority_aborts_chunk :
  (forall predType imgID sid seg (prediction : pydict),
     prediction !! "priority" = None ->
     field_value predType imgID sid seg prediction "priority" = Raise (KeyError "priority")) /\
  let r := _call_inference sample_annotation_fields sample_prediction_fields "proj" [1; 2; 3]
             (Some 1) (Some 1) unranked_model "L" None (Some 4) sample_world in
  r.1 = Raise (Exception
                 "[Epoch 1] error during result parsing (chunk 1/1, reason: 'priority')") /\
  st_prediction (w_store r.2) = [] /\
  filter is_prediction_insert (w_events r.2) = [].
Proof.
  split; [intros; now apply priority_missing_raises|]. vm_compute. repeat split.
Qed.

(** * The batch size limit *)

Lemma nonpositive_limit_single_chunk (imageIDs : list Z) n :
  n <= 0 -> imageID_chunks imageIDs (Some n) = [imageIDs] /\ py_mul 0 (Some n) = Ok 0.
Proof.
  intros Hn. unfold imageID_chunks. rewrite bool_decide_eq_false_2 by lia. now split.
Qed.

Lemma no_model_call_task state meta : pres (quiet no_model_call) (emit (EvTask state meta)).
Proof. apply quiet_emit. now split. Qed.

Lemma no_model_call_select stmt :
  is_select stmt = true -> pres (quiet no_model_call) (execute stmt).
Proof. intros Hs. apply quiet_select; [|exact Hs]. intros ok. destruct stmt; try discriminate; now split. Qed.

(** C6: without a batch size limit ([None]) the routine sets up the one
    chunk and then computes [idx*batchSizeLimit] for the progress offset
    (line 449), which raises [TypeError]; the chunk is never processed: no
    call into the model, no INSERT, tables as before.  The same run with a
    limit of 0 goes through. *)
Theorem inference_without_limit_raises :
  (forall FNa FNp project imageIDs epoch numEpochs modelInstance lib rankerInstance w,
     let r := _call_inference FNa FNp project imageIDs epoch numEpochs modelInstance lib
                rankerInstance None w in
     (exists e, r.1 = Raise e) /\ quiet no_model_call w r.2) /\
  (_call_inference sample_annotation_fields sample_prediction_fields "proj" [1; 2; 3]
     (Some 1) (Some 1) detecting_model "L" None None sample_world).1
    = Raise (TypeError "unsupported operand type(s) for *: 'int' and 'NoneType'") /\
  (_call_inference sample_annotation_fields sample_prediction_fields "proj" [1; 2; 3]
     (Some 1) (Some 1) detecting_model "L" None (Some 0) sample_world).1 = Ok tt.
Proof.
  split; [|split; vm_compute; reflexivity].
  intros FNa FNp project imageIDs epoch numEpochs modelInstance lib rankerInstance w.
  cbv zeta.
  enough (wp (_call_inference FNa FNp project imageIDs epoch numEpochs modelInstance lib
                rankerInstance None) w
            (fun r w' => (exists e, r = Raise e) /\ quiet no_model_call w w')) as H by exact H.
  unfold _call_inference.
  eapply (wp_step (quiet no_model_call) w);
    [reflexivity|now apply no_model_call_select|intros; split; [eauto|assumption]
    |intros projectMeta w1 Hq1 _].
  eapply (wp_step (quiet no_model_call) w);
    [exact Hq1|apply pres_lift, _|intros; split; [eauto|assumption]|intros predType w2 Hq2 _].
  eapply (wp_step (quiet no_model_call) w);
    [exact Hq2|apply no_model_call_task|intros; split; [eauto|assumption]|intros [] w3 Hq3 _].
  eapply (wp_step (quiet no_model_call) w);
    [exact Hq3| |intros; split; [eauto|assumption]|intros [sd sid] w4 Hq4 _].
  { apply pres_try_reraise, pres_load_model_state; [apply _|apply no_model_call_select]. }
  cbn [imageID_chunks length process_chunks].
  apply wp_bind, wp_bind. unfold process_chunk. apply wp_bind, wp_lift. cbn [py_mul].
  split; [eauto|exact Hq4].
Qed.

(** * Chunking *)

Lemma array_split_fuel_spec {A} (size fuel : nat) (arr : list A) :
  (0 < size)%nat -> (length arr <= fuel)%nat ->
  let chunks := array_split_fuel fuel arr size in
  concat chunks = arr /\
  Forall (fun c => (length c <= size)%nat) chunks /\
  (arr <> [] -> Forall (fun c => c <> []) chunks) /\
  (forall i c, chunks !! i = Some c -> c = take size (drop (i * size) arr)) /\
  (forall i c, (Datatypes.S i < length chunks)%nat -> chunks !! i = Some c -> length c = size).
Proof.
  intros Hsize. revert arr. induction fuel as [|fuel IH]; intros arr Hlen; simpl.
  - destruct arr; [|simpl in Hlen; lia]. split; [reflexivity|]. split; [|split; [|split]].
    + repeat constructor. simpl. lia.
    + intros Hne. done.
    + intros [|i] c; simpl; [intros [= <-]|done]. now rewrite take_nil.
    + intros i c Hi. simpl in Hi. lia.
  - destruct (decide (length arr <= size)%nat) as [Hle|Hgt].
    + split; [simpl; apply app_nil_r|]. split; [|split; [|split]].
      * repeat constructor. exact Hle.
      * intros Hne. repeat constructor. exact Hne.
      * intros [|i] c; simpl; [intros [= <-]|done]. now rewrite take_ge.
      * intros i c Hi. simpl in Hi. lia.
    + specialize (IH (drop size arr)). rewrite length_drop in IH.
      destruct IH as (Hcat & Hall & Hne & Hidx & Hfull); [lia|].
      split; [simpl; rewrite Hcat; apply take_drop|]. split; [|split; [|split]].
      * constructor; [rewrite length_take; lia|exact Hall].
      * intros _. constructor.
        -- intros E. apply (f_equal length) in E. rewrite length_take in E. simpl in E. lia.
        -- apply Hne. intros E. apply (f_equal length) in E. rewrite length_drop in E.
           simpl in E. lia.
      * intros [|i] c; simpl; [intros [= <-]; reflexivity|].
        intros Hc. rewrite (Hidx i c Hc), drop_drop. reflexivity.
      * intros [|i] c Hi; simpl.
        -- intros [= <-]. rewrite length_take. lia.
        -- simpl in Hi. apply Hfull. lia.
Qed.

(** Two chunks at different positions of a list without repetition share
    no element. *)
Lemma chunks_disjoint {A} (size : nat) (arr : list A) i j x :
  NoDup arr -> i <> j ->
  x ∈ take size (drop (i * size) arr) -> x ∈ take size (drop (j * size) arr) -> False.
Proof.
  intros Hnd Hij (a & Ha & Hlt)%elem_of_take (b & Hb & Hlt')%elem_of_take.
  rewrite lookup_drop in Ha, Hb.
  pose proof (proj1 (NoDup_alt arr) Hnd _ _ _ Ha Hb) as E. nia.
Qed.

(** The partition: for a non-empty list and a positive limit the chunks,
    put end to end, are the list; each chunk is non-empty and no longer
    than the limit; chunk [i] is the stretch of the list that starts at
    position [i * limit], so chunks at different positions of a list
    without repetition share no element; every chunk but the last has
    exactly [limit] elements. *)
Lemma imageID_chunks_partition (imageIDs : list Z) (limit : Z) :
  imageIDs <> [] -> 0 < limit ->
  let chunks := imageID_chunks imageIDs (Some limit) in
  concat chunks = imageIDs /\
  Forall (fun c => c <> [] /\ len c <= limit) chunks /\
  (forall i c, chunks !! i = Some c ->
               c = take (Z.to_nat limit) (drop (i * Z.to_nat limit) imageIDs)) /\
  (NoDup imageIDs -> forall i j ci cj x, i <> j ->
     chunks !! i = Some ci -> chunks !! j = Some cj -> x ∈ ci -> x ∉ cj) /\
  (forall i c, (Datatypes.S i < length chunks)%nat -> chunks !! i = Some c -> len c = limit).
Proof.
  intros Hne Hlim. unfold imageID_chunks. rewrite bool_decide_eq_true_2 by exact Hlim.
  unfold array_split.
  destruct (array_split_fuel_spec (Z.to_nat limit) (length imageIDs) imageIDs)
    as (Hcat & Hall & Hnonempty & Hidx & Hfull); [lia|lia|].
  cbv zeta. split; [exact Hcat|]. split; [|split; [exact Hidx|split]].
  - specialize (Hnonempty Hne). rewrite Forall_forall in Hall, Hnonempty. apply Forall_forall.
    intros c Hc. split; [now apply Hnonempty|]. specialize (Hall c Hc). unfold len. lia.
  - intros Hnd i j ci cj x Hij Hi Hj Hxi Hxj.
    rewrite (Hidx _ _ Hi) in Hxi. rewrite (Hidx _ _ Hj) in Hxj.
    exact (chunks_disjoint _ _ _ _ _ Hnd Hij Hxi Hxj).
  - intros i c Hi Hc. unfold len. rewrite (Hfull i c Hi Hc). lia.
Qed.

Lemma no_prediction_insert_nonempty e : no_prediction_insert e -> nonempty_insert e.
Proof. destruct e as [| [] |]; try done. Qed.

Lemma inserts_at_most_quiet w w' : quiet no_prediction_insert w w' -> inserts_at_most 0 w w'.
Proof.
  intros (_ & evs & He & HP). exists evs. split; [exact He|]. split.
  - enough (filter is_prediction_insert evs = []) as -> by (simpl; lia).
    clear He. induction HP as [|e evs Pe _ IH]; [reflexivity|].
    rewrite filter_cons. unfold no_prediction_insert in Pe. rewrite Pe. simpl. exact IH.
  - eapply Forall_impl; [exact HP|]. apply no_prediction_insert_nonempty.
Qed.

Lemma inserts_at_most_trans a b w1 w2 w3 :
  inserts_at_most a w1 w2 -> inserts_at_most b w2 w3 -> inserts_at_most (a + b) w1 w3.
Proof.
  intros (e1 & He1 & H1 & N1) (e2 & He2 & H2 & N2). exists (e1 ++ e2).
  rewrite He2, He1, app_assoc. split; [reflexivity|]. split.
  - rewrite filter_app, length_app. lia.
  - now apply Forall_app.
Qed.

Lemma inserts_at_most_le a b w w' : (a <= b)%nat -> inserts_at_most a w w' -> inserts_at_most b w w'.
Proof. intros Hab (evs & He & H & N). exists evs. split; [exact He|]. split; [lia|exact N]. Qed.

Lemma inserts_at_most_called n w0 w stmt ok s :
  inserts_at_most n w0 w -> nonempty_insert (EvDb stmt ok) ->
  inserts_at_most (n + if is_prediction_insert (EvDb stmt ok) then 1 else 0) w0
    (called w stmt ok s).
Proof.
  intros (evs & He & H & N) Ne. exists (evs ++ [EvDb stmt ok]). simpl. rewrite He, app_assoc.
  split; [reflexivity|]. split.
  - rewrite filter_app, length_app. rewrite filter_cons, filter_nil. destruct stmt; simpl; lia.
  - apply Forall_app. split; [exact N|now constructor].
Qed.

Lemma inserts_at_most_logged n w0 w e :
  inserts_at_most n w0 w -> is_prediction_insert e = false -> inserts_at_most n w0 (logged w e).
Proof.
  intros (evs & He & H & N) Pe. exists (evs ++ [e]). simpl. rewrite He, app_assoc.
  split; [reflexivity|]. split.
  - rewrite filter_app, length_app, filter_cons, filter_nil, Pe. simpl. lia.
  - apply Forall_app. split; [exact N|]. constructor; [|constructor].
    now apply no_prediction_insert_nonempty.
Qed.

Lemma no_prediction_insert_task state meta :
  pres (quiet no_prediction_insert) (emit (EvTask state meta)).
Proof. now apply quiet_emit. Qed.

Lemma no_prediction_insert_select stmt :
  is_select stmt = true -> pres (quiet no_prediction_insert) (execute stmt).
Proof.
  intros Hs. apply quiet_select; [|exact Hs]. intros ok. destruct stmt; try discriminate; reflexivity.
Qed.

#[global] Hint Resolve no_prediction_insert_task no_prediction_insert_select : core.

(** One chunk issues at most one INSERT into the prediction table, and
    only with at least one tuple. *)
Lemma process_chunk_inserts_once FNa FNp project imageIDs epoch numEpochs modelInstance
    rankerInstance batchSizeLimit predType stateDict stateDictID nchunks idx batch w :
  wp (process_chunk FNa FNp project imageIDs epoch numEpochs modelInstance rankerInstance
        batchSizeLimit predType stateDict stateDictID nchunks idx batch) w
     (fun _ w' => inserts_at_most 1 w w').
Proof.
  set (PE := no_prediction_insert).
  assert (Hfin : forall w1, quiet PE w w1 -> inserts_at_most 1 w w1).
  { intros w1 Hq. apply (inserts_at_most_le 0); [lia|]. now apply inserts_at_most_quiet. }
  unfold process_chunk.
  apply wp_bind, wp_lift.
  destruct (py_mul idx batchSizeLimit) as [offset|e]; [|apply Hfin; reflexivity].
  eapply (wp_step (quiet PE) w);
    [reflexivity|apply pres_on_message; subst PE; auto|intros; now apply Hfin|intros [] w1 Hq1 _].
  eapply (wp_step (quiet PE) w);
    [exact Hq1|apply pres_try_reraise, pres_load_metadata; subst PE; auto; apply _
    |intros; now apply Hfin|intros data w2 Hq2 _].
  eapply (wp_step (quiet PE) w);
    [exact Hq2|apply pres_on_message; subst PE; auto|intros; now apply Hfin|intros [] w3 Hq3 _].
  eapply (wp_step (quiet PE) w);
    [exact Hq3| |intros; now apply Hfin|intros result w4 Hq4 _].
  { apply pres_try_reraise, pres_seq; [apply _|apply quiet_emit; reflexivity|intros _].
    apply pres_run_adapter; subst PE; auto; apply _. }
  eapply (wp_step (quiet PE) w);
    [exact Hq4| |intros; now apply Hfin|intros ranked w5 Hq5 _].
  { destruct rankerInstance as [[[rank|]]|]; try (apply pres_ret; apply _).
    apply pres_seq; [apply _|apply pres_on_message; subst PE; auto|intros _].
    apply pres_try_reraise, pres_seq; [apply _|apply quiet_emit; reflexivity|intros _].
    apply pres_run_adapter; subst PE; auto; apply _. }
  eapply (wp_step (quiet PE) w);
    [exact Hq5| |intros; now apply Hfin|intros [fieldNames [values_pred values_img]] w6 Hq6 _].
  { apply pres_try_reraise, pres_seq; [apply _|apply pres_on_message; subst PE; auto|intros _].
    apply pres_seq; [apply _|apply pres_lift, _|intros ?].
    apply pres_seq; [apply _|apply pres_lift, _|intros ?]. apply pres_ret, _. }
  pose proof (inserts_at_most_quiet _ _ Hq6) as Hi6.
  apply wp_try_reraise, wp_bind.
  case_bool_decide as Hvp.
  - apply wp_ret. case_bool_decide; [apply wp_ret; now apply Hfin|].
    apply wp_bind, wp_execute; intros _; [|apply wp_ret];
      apply (inserts_at_most_le 0); try lia;
      apply (inserts_at_most_called 0 w w6); try exact Hi6; exact I.
  - apply wp_bind, wp_execute; intros _.
    + apply (inserts_at_most_called 0 w w6); [exact Hi6|exact Hvp].
    + apply wp_ret. case_bool_decide.
      * apply wp_ret. apply (inserts_at_most_called 0 w w6); [exact Hi6|exact Hvp].
      * apply wp_bind, wp_execute; intros _; [|apply wp_ret];
          apply (inserts_at_most_called 1 w (called w6 _ _ _)); try exact I;
          apply (inserts_at_most_called 0 w w6); try exact Hi6; exact Hvp.
Qed.

Lemma process_chunks_inserts FNa FNp project imageIDs epoch numEpochs modelInstance
    rankerInstance batchSizeLimit predType stateDict stateDictID nchunks idx chunks w :
  wp (process_chunks FNa FNp project imageIDs epoch numEpochs modelInstance rankerInstance
        batchSizeLimit predType stateDict stateDictID nchunks idx chunks) w
     (fun _ w' => inserts_at_most (length chunks) w w').
Proof.
  revert idx w. induction chunks as [|c chunks IH]; intros idx w; simpl.
  - apply wp_ret. apply inserts_at_most_quiet. reflexivity.
  - apply wp_bind. eapply wp_mono; [apply process_chunk_inserts_once|].
    intros r w1 H1. cbn beta in H1.
    destruct r as [[]|e]; [|apply (inserts_at_most_le 1); [lia|exact H1]].
    eapply wp_mono; [apply IH|]. intros r w2 H2. cbn beta in H2.
    apply (inserts_at_most_trans 1 _ _ _ _ H1 H2).
Qed.

(** Over a whole run: no more INSERTs into the prediction table than there
    are chunks, and never an empty one. *)
Lemma inference_inserts_per_chunk FNa FNp project imageIDs epoch numEpochs
    modelInstance lib rankerInstance batchSizeLimit w :
  inserts_at_most (length (imageID_chunks imageIDs batchSizeLimit)) w
    (_call_inference FNa FNp project imageIDs epoch numEpochs modelInstance lib
       rankerInstance batchSizeLimit w).2.
Proof.
  set (n := length (imageID_chunks imageIDs batchSizeLimit)).
  change (wp (_call_inference FNa FNp project imageIDs epoch numEpochs modelInstance lib
                rankerInstance batchSizeLimit) w (fun _ w' => inserts_at_most n w w')).
  assert (Hfin : forall w1, quiet no_prediction_insert w w1 -> inserts_at_most n w w1).
  { intros w1 Hq. apply (inserts_at_most_le 0); [lia|]. now apply inserts_at_most_quiet. }
  unfold _call_inference.
  eapply (wp_step (quiet no_prediction_insert) w);
    [reflexivity|now apply no_prediction_insert_select|intros; now apply Hfin
    |intros projectMeta w1 Hq1 _].
  eapply (wp_step (quiet no_prediction_insert) w);
    [exact Hq1|apply pres_lift, _|intros; now apply Hfin|intros predType w2 Hq2 _].
  eapply (wp_step (quiet no_prediction_insert) w);
    [exact Hq2|apply no_prediction_insert_task|intros; now apply Hfin|intros [] w3 Hq3 _].
  eapply (wp_step (quiet no_prediction_insert) w);
    [exact Hq3| |intros; now apply Hfin|intros [sd sid] w4 Hq4 _].
  { apply pres_try_reraise, pres_load_model_state; [apply _|apply no_prediction_insert_select]. }
  pose proof (inserts_at_most_quiet _ _ Hq4) as Hi4.
  apply wp_bind. eapply wp_mono; [apply process_chunks_inserts|].
  intros r w5 H5. cbn beta in H5.
  pose proof (inserts_at_most_trans 0 _ _ _ _ Hi4 H5) as Hi5.
  destruct r as [[]|e]; [|exact Hi5].
  apply wp_on_message. now apply inserts_at_most_logged.
Qed.

(** * The loaders on their own *)

(** X1: [__get_ai_library_names] never raises.  Whatever the connector
    does, it returns a pair: the project's two library names when the query
    goes through and the project has a row, [(None, None)] when the query
    fails or the row is missing.  It issues the one query and leaves the
    tables as they were. *)
Theorem get_ai_library_names_never_raises project w :
  exists libs,
    __get_ai_library_names project w
      = (Ok libs, called w SelectLibraryNames (bool_decide (w_calls w ∉ w_faults w)) (w_store w)) /\
    libs = match st_project (w_store w) with
           | Some p => if bool_decide (w_calls w ∉ w_faults w)
                       then (pr_ai_model_library p, pr_ai_alcriterion_library p)
                       else (PNone, PNone)
           | None => (PNone, PNone)
           end.
Proof.
  unfold __get_ai_library_names, execute.
  destruct (decide (w_calls w ∈ w_faults w)) as [Hf|Hf].
  - rewrite bool_decide_eq_true_2 by exact Hf.
    rewrite (bool_decide_eq_false_2 (w_calls w ∉ w_faults w)) by tauto.
    simpl. destruct (st_project (w_store w)); eauto.
  - rewrite bool_decide_eq_false_2 by exact Hf.
    rewrite (bool_decide_eq_true_2 (w_calls w ∉ w_faults w)) by exact Hf.
    simpl. destruct (st_project (w_store w)) as [p|]; simpl; [|eauto].
    unfold getitem. rewrite lookup_insert_eq, lookup_insert_ne by discriminate.
    rewrite lookup_singleton_eq. eauto.
Qed.

Lemma foldM_labels rows acc :
  foldM (fun (labels : odict pydict) r =>
           rbind (rbind (getitem r "id") as_int) (fun i => Ok (<[ i := r ]> labels)))
        (labelclass_dict <$> rows) acc
  = Ok (foldl (fun labels c => <[ lc_id c := labelclass_dict c ]> labels) acc rows).
Proof.
  revert acc. induction rows as [|c rows IH]; intros acc; [reflexivity|].
  cbn [fmap list_fmap foldM foldl]. unfold getitem at 1. unfold labelclass_dict at 1.
  rewrite lookup_insert_eq. cbn [rbind as_int]. apply IH.
Qed.

Lemma foldM_images rows acc :
  foldM (fun (imageMeta : odict ImageMeta) r =>
           rbind (rbind (getitem r "id") as_int)
                 (fun i => Ok (<[ i := mk_image_meta r None ]> imageMeta)))
        (image_dict <$> rows) acc
  = Ok (foldl (fun imageMeta i => <[ img_id i := mk_image_meta (image_dict i) None ]> imageMeta)
              acc rows).
Proof.
  revert acc. induction rows as [|c rows IH]; intros acc; [reflexivity|].
  cbn [fmap list_fmap foldM foldl]. unfold getitem at 1. unfold image_dict at 1.
  rewrite lookup_insert_eq. cbn [rbind as_int]. apply IH.
Qed.

(** X2: called without image ids ([None] or an empty list),
    [__load_metadata] loads the label classes and nothing else: no image is
    selected and, even with [loadAnnotations] set, no annotation is asked
    for.  The one statement issued is the SELECT of the label classes, and
    the image dict handed on is empty. *)
Theorem load_metadata_without_ids FNa project imageIDs loadAnnotations w :
  imageIDs = None \/ imageIDs = Some [] ->
  w_calls w ∉ w_faults w ->
  __load_metadata FNa project imageIDs loadAnnotations w
    = (Ok (mk_metadata (labels_of (st_labelclass (w_store w))) ∅),
       called w SelectLabelClasses true (w_store w)).
Proof.
  intros Hids Hf. apply wp_eq. unfold __load_metadata.
  assert (Hd : default [] imageIDs = []) by (destruct Hids as [-> | ->]; reflexivity).
  rewrite Hd.
  apply wp_bind, wp_execute; [done|intros _]. cbn [sql fst snd].
  apply wp_bind, wp_lift. rewrite foldM_labels.
  rewrite bool_decide_eq_true_2 by reflexivity.
  apply wp_bind, wp_ret. rewrite andb_false_r.
  apply wp_bind, wp_ret. apply wp_ret. split; reflexivity.
Qed.

Lemma load_metadata_without_ids_witness :
  __load_metadata sample_annotation_fields "proj" None true sample_world
    = (Ok (mk_metadata (labels_of (st_labelclass (w_store sample_world))) ∅),
       called sample_world SelectLabelClasses true (w_store sample_world)).
Proof.
  apply (load_metadata_without_ids sample_annotation_fields "proj" None true sample_world).
  - left. reflexivity.
  - simpl. apply not_elem_of_nil.
Defined.

Lemma is_read_select stmt : is_select stmt = true -> pres (quiet is_read) (execute stmt).
Proof. intros H. apply quiet_select; [intros ok; exact H|exact H]. Qed.

(** X3: the three loaders only read.  Whatever they return or raise,
    the tables are as before and every entry they add to the log is a
    SELECT; none of them sends a task-state update. *)
Theorem loaders_only_read FNa project lib ids ann :
  pres (quiet is_read) (__load_model_state project lib) /\
  pres (quiet is_read) (__load_metadata FNa project ids ann) /\
  pres (quiet is_read) (__get_ai_library_names project).
Proof.
  split; [|split].
  - apply pres_load_model_state; [apply _|apply is_read_select].
  - apply pres_load_metadata; [apply _|apply is_read_select].
  - apply pres_get_ai_library_names, is_read_select.
Qed.

(** ** Lookups in a dict with integer keys *)

Lemma od_lookup_insert_eq {V} (d : odict V) k v : <[ k := v ]> d !! k = Some v.
Proof. unfold lookup, odict_lookup, insert, odict_insert. cbn. apply lookup_insert_eq. Qed.

Lemma od_lookup_insert_ne {V} (d : odict V) k k' v : k <> k' -> <[ k := v ]> d !! k' = d !! k'.
Proof. intros Hk. unfold lookup, odict_lookup, insert, odict_insert. cbn. now apply lookup_insert_ne. Qed.

Lemma od_lookup_empty {V} k : (∅ : odict V) !! k = None.
Proof. unfold lookup, odict_lookup, empty, odict_empty. cbn. apply lookup_empty. Qed.

Lemma foldl_insert_lookup {A V} (key : A -> Z) (val : A -> V) rows (acc : odict V) i :
  foldl (fun m c => <[ key c := val c ]> m) acc rows !! i
  = match last (filter (fun c => key c = i) rows) with
    | Some c => Some (val c)
    | None => acc !! i
    end.
Proof.
  induction rows as [|c rows IH] using rev_ind; [reflexivity|].
  rewrite foldl_app, filter_app. cbn [foldl].
  destruct (decide (key c = i)) as [Hk|Hk].
  - rewrite filter_cons_True, filter_nil, last_snoc by exact Hk.
    rewrite Hk. apply od_lookup_insert_eq.
  - rewrite filter_cons_False, filter_nil, app_nil_r by exact Hk.
    rewrite od_lookup_insert_ne by exact Hk. exact IH.
Qed.

Lemma getitem_annotation_image fn a :
  "image" ∉ fn -> getitem (annotation_dict fn a) "image" = Ok (PInt (an_image a)).
Proof.
  intros Hfn. unfold getitem, annotation_dict.
  induction fn as [|f fn IH]; cbn [foldr].
  - rewrite lookup_insert_ne by discriminate. now rewrite lookup_singleton_eq.
  - apply not_elem_of_cons in Hfn as [Hne Hfn].
    rewrite lookup_insert_ne by congruence. now apply IH.
Qed.

Lemma add_annotation_dict fn a (m : odict ImageMeta) :
  "image" ∉ fn ->
  add_annotation m (annotation_dict fn a)
  = match m !! an_image a with
    | None => Raise (KeyError (PInt (an_image a)))
    | Some x => Ok (<[ an_image a := with_annotations [annotation_dict fn a] x ]> m)
    end.
Proof.
  intros Hfn. unfold add_annotation. rewrite getitem_annotation_image by exact Hfn.
  reflexivity.
Qed.

Lemma foldM_add_annotation fn rows (m : odict ImageMeta) :
  "image" ∉ fn ->
  (forall a, a ∈ rows -> is_Some (m !! an_image a)) ->
  exists m', foldM add_annotation (annotation_dict fn <$> rows) m = Ok m' /\
    forall i, m' !! i
              = with_annotations (annotation_dict fn <$> filter (fun a => an_image a = i) rows)
                  <$> m !! i.
Proof.
  intros Hfn. revert m. induction rows as [|a rows IH]; intros m Hdom.
  - exists m. split; [reflexivity|]. intros i. cbn.
    destruct (m !! i) as [[r o]|]; reflexivity.
  - cbn [fmap list_fmap foldM]. rewrite add_annotation_dict by exact Hfn.
    destruct (Hdom a) as [x Hx]; [left|]. rewrite Hx. cbn [rbind].
    destruct (IH (<[ an_image a := with_annotations [annotation_dict fn a] x ]> m))
      as (m' & Hm' & Hl).
    { intros b Hb. destruct (decide (an_image b = an_image a)) as [->|Hne].
      - rewrite od_lookup_insert_eq. eauto.
      - rewrite od_lookup_insert_ne by congruence. apply Hdom. now right. }
    exists m'. split; [exact Hm'|]. intros i. rewrite Hl.
    destruct (decide (an_image a = i)) as [<-|Hne].
    + rewrite od_lookup_insert_eq, Hx, filter_cons_True by reflexivity. cbn.
      unfold with_annotations. cbn. f_equal. f_equal.
      destruct (filter _ rows); cbn; [reflexivity|]. now rewrite <- app_assoc.
    + rewrite od_lookup_insert_ne, filter_cons_False by congruence. reflexivity.
Qed.

Lemma foldM_add_annotation_dangling fn rows (m : odict ImageMeta) :
  "image" ∉ fn ->
  (exists a, a ∈ rows /\ m !! an_image a = None) ->
  exists a, a ∈ rows /\ m !! an_image a = None /\
    foldM add_annotation (annotation_dict fn <$> rows) m = Raise (KeyError (PInt (an_image a))).
Proof.
  intros Hfn. revert m. induction rows as [|a rows IH]; intros m (b & Hb & Hnone).
  - now apply elem_of_nil in Hb.
  - cbn [fmap list_fmap foldM]. rewrite add_annotation_dict by exact Hfn.
    destruct (m !! an_image a) as [x|] eqn:Hx.
    + cbn [rbind]. apply elem_of_cons in Hb as [->|Hb]; [congruence|].
      assert (Hne : an_image b <> an_image a) by congruence.
      destruct (IH (<[ an_image a := with_annotations [annotation_dict fn a] x ]> m))
        as (c & Hc & Hcn & Hr).
      { exists b. split; [exact Hb|]. now rewrite od_lookup_insert_ne by congruence. }
      exists c. split; [now right|]. split; [|exact Hr].
      destruct (decide (an_image c = an_image a)) as [Heq|Hne'].
      * rewrite Heq, od_lookup_insert_eq in Hcn. discriminate.
      * now rewrite od_lookup_insert_ne in Hcn by congruence.
    + exists a. split; [left|]. split; [exact Hx|reflexivity].
Qed.

(** With image ids, annotations asked for and every query going through,
    the load is the fold of [add_annotation] over the annotation rows. *)
Ltac fault_free Hf k :=
  let Hin := fresh in
  intros Hin; exfalso; apply (Hf k); [lia|]; cbn [called w_calls] in Hin;
  match type of Hin with ?n ∈ _ => replace (_ + k)%nat with n by lia end; exact Hin.

Lemma load_metadata_run FNa project ids w p fieldNames :
  ids <> [] ->
  (forall k, (k < 4)%nat -> (w_calls w + k)%nat ∉ w_faults w) ->
  st_project (w_store w) = Some p ->
  FNa (pr_annotationtype p) = Some fieldNames ->
  __load_metadata FNa project (Some ids) true w
  = (rbind (foldM add_annotation
              (annotation_dict fieldNames
                 <$> filter (fun a => an_image a ∈ ids) (st_annotation (w_store w)))
              (images_of (filter (fun i => img_id i ∈ ids) (st_image (w_store w)))))
           (fun imageMeta => Ok (mk_metadata (labels_of (st_labelclass (w_store w))) imageMeta)),
     after_metadata ids fieldNames w).
Proof.
  intros Hids Hf Hp Hfn. apply wp_eq. unfold __load_metadata. cbn [default].
  apply wp_bind, wp_execute; [fault_free Hf 0%nat|intros _].
  cbn [sql fst snd].
  apply wp_bind, wp_lift. rewrite foldM_labels.
  rewrite bool_decide_eq_false_2 by exact Hids. cbn [andb negb].
  apply wp_bind, wp_bind, wp_execute; [fault_free Hf 1%nat|intros _].
  cbn [sql fst snd called w_store]. apply wp_lift. rewrite foldM_images.
  apply wp_bind, wp_bind, wp_execute; [fault_free Hf 2%nat|intros _].
  cbn [sql fst snd called w_store]. rewrite Hp. cbn [first rbind].
  apply wp_bind, wp_lift. unfold getitem at 1. rewrite lookup_singleton_eq. cbn [rbind as_str].
  apply wp_bind, wp_lift. unfold getattr. rewrite Hfn.
  apply wp_bind, wp_execute; [fault_free Hf 3%nat|intros _].
  cbn [sql fst snd called w_store].
  unfold wp, lift, bind, ret, labels_of, images_of. cbn [fst snd].
  destruct (foldM add_annotation _ _); cbn; split; reflexivity.
Qed.

Lemma images_of_lookup (ids : list Z) rows i :
  images_of (filter (fun r => img_id r ∈ ids) rows) !! i
  = if decide (i ∈ ids)
    then (fun r => mk_image_meta (image_dict r) None) <$> last (filter (fun r => img_id r = i) rows)
    else None.
Proof.
  unfold images_of.
  rewrite (foldl_insert_lookup img_id (fun r => mk_image_meta (image_dict r) None)).
  rewrite list_filter_filter, od_lookup_empty. destruct (decide (i ∈ ids)) as [Hi|Hi].
  - rewrite (list_filter_iff _ (fun r => img_id r = i)) by (intros r; split; [tauto|intros <-; tauto]).
    destruct (last _); reflexivity.
  - rewrite (list_filter_iff _ (fun _ => False)) by (intros r; split; [intros [<- ?]; tauto|tauto]).
    assert (E : filter (fun _ : image_row => False) rows = []) by (induction rows; auto).
    now rewrite E.
Qed.

(** X4: what a metadata load with annotations returns when every query
    goes through, the project's annotation type is known and every
    annotation of a requested image has its image row.  It returns, without
    changing the tables: each label class under its id; each requested image
    that has a row under its id, others not at all; and with each image its
    annotations in table order, or no annotation entry when it has none. *)
Theorem load_metadata_complete FNa project ids w p fieldNames :
  ids <> [] ->
  (forall k, (k < 4)%nat -> (w_calls w + k)%nat ∉ w_faults w) ->
  st_project (w_store w) = Some p ->
  FNa (pr_annotationtype p) = Some fieldNames ->
  "image" ∉ fieldNames ->
  (forall a, a ∈ st_annotation (w_store w) -> an_image a ∈ ids ->
             exists r, r ∈ st_image (w_store w) /\ img_id r = an_image a) ->
  exists data w',
    __load_metadata FNa project (Some ids) true w = (Ok data, w') /\
    w_store w' = w_store w /\
    (forall i, labelClasses data !! i
               = labelclass_dict <$> last (filter (fun c => lc_id c = i) (st_labelclass (w_store w)))) /\
    (forall i, images data !! i
               = if decide (i ∈ ids)
                 then (fun r => mk_image_meta (image_dict r)
                                  (annotations_of fieldNames (st_annotation (w_store w)) i))
                        <$> last (filter (fun r => img_id r = i) (st_image (w_store w)))
                 else None).
Proof.
  intros Hids Hf Hp Hfn Himg Href.
  rewrite (load_metadata_run FNa project ids w p fieldNames) by assumption.
  destruct (foldM_add_annotation fieldNames
              (filter (fun a => an_image a ∈ ids) (st_annotation (w_store w)))
              (images_of (filter (fun i => img_id i ∈ ids) (st_image (w_store w)))) Himg)
    as (m' & Hm' & Hl).
  { intros a [Ha Hin]%list_elem_of_filter. rewrite images_of_lookup.
    rewrite decide_True by exact Ha. destruct (Href a Hin Ha) as (r & Hr & Hid).
    apply fmap_is_Some, last_is_Some. intros E.
    eapply (filter_nil_not_elem_of _ _ r E); [exact Hid|exact Hr]. }
  rewrite Hm'. cbn [rbind]. eexists _, _. split; [reflexivity|]. split; [reflexivity|].
  split; cbn [labelClasses images].
  - intros i. unfold labels_of. rewrite (foldl_insert_lookup lc_id labelclass_dict), od_lookup_empty.
    destruct (last _); reflexivity.
  - intros i. rewrite Hl, images_of_lookup. destruct (decide (i ∈ ids)) as [Hi|Hi]; [|reflexivity].
    rewrite list_filter_filter_l by (intros a <-; exact Hi).
    destruct (last _) as [r|]; [|reflexivity]. cbn. unfold with_annotations, annotations_of. cbn.
    f_equal. destruct (filter (fun a => an_image a = i) _); reflexivity.
Qed.

Lemma load_metadata_complete_witness :
  exists data w',
    __load_metadata sample_annotation_fields "proj" (Some [2; 3]) true annotated_world
      = (Ok data, w') /\
    w_store w' = w_store annotated_world /\
    (forall i, labelClasses data !! i
               = labelclass_dict
                   <$> last (filter (fun c => lc_id c = i) (st_labelclass (w_store annotated_world)))) /\
    (forall i, images data !! i
               = if decide (i ∈ [2; 3])
                 then (fun r => mk_image_meta (image_dict r)
                                  (annotations_of ["label"; "x"; "y"; "width"; "height"]
                                     (st_annotation (w_store annotated_world)) i))
                        <$> last (filter (fun r => img_id r = i) (st_image (w_store annotated_world)))
                 else None).
Proof.
  apply (load_metadata_complete sample_annotation_fields "proj" [2; 3] annotated_world
           sample_project ["label"; "x"; "y"; "width"; "height"]).
  - discriminate.
  - intros k _. simpl. apply not_elem_of_nil.
  - reflexivity.
  - reflexivity.
  - apply (bool_decide_unpack _). vm_compute. reflexivity.
  - intros a Ha _.
    assert (D : Forall (fun a => Exists (fun r => img_id r = an_image a)
                                   (st_image (w_store annotated_world)))
                       (st_annotation (w_store annotated_world)))
      by (apply (bool_decide_unpack _); vm_compute; reflexivity).
    rewrite Forall_forall in D. apply Exists_exists. now apply D.
Defined.

(** * What training and updating leave behind *)

Lemma any_event_task state meta : pres (quiet any_event) (emit (EvTask state meta)).
Proof. now apply quiet_emit. Qed.

Lemma any_event_select stmt : is_select stmt = true -> pres (quiet any_event) (execute stmt).
Proof. now apply quiet_select. Qed.

Lemma any_event_emit e : pres (quiet any_event) (emit e).
Proof. now apply quiet_emit. Qed.

#[global] Hint Resolve any_event_task any_event_select any_event_emit : core.

(** A world reached by logging and by calls that left the tables alone. *)
Ltac quiet_world :=
  split;
  [reflexivity
  |eexists; split;
   [cbn [w_events logged called]; rewrite <- ?app_assoc; reflexivity
   |repeat (constructor; [exact I|]); constructor]].

(** A [try] block that keeps [R]: its exception arrives wrapped. *)
Lemma wp_step_reraise {A B} (R : World -> World -> Prop) `{!PreOrder R} w0 w
    (m : M A) msg (k : A -> M B) (Q : result B -> World -> Prop) :
  R w0 w -> pres R m ->
  (forall e w1, R w0 w1 -> Q (Raise (Exception (msg e))) w1) ->
  (forall a w1, R w0 w1 -> m w = (Ok a, w1) -> wp (k a) w1 Q) ->
  wp (bind (try_reraise m msg) k) w Q.
Proof.
  intros Hinv Hm Hraise Hok. apply wp_bind, wp_try_reraise. unfold wp.
  specialize (Hm w). destruct (m w) as [[a|e] w1] eqn:E; simpl in *.
  - apply Hok; [etransitivity; eassumption|reflexivity].
  - apply Hraise. etransitivity; eassumption.
Qed.

(** X5: what a training run leaves in the tables.  When [_call_train]
    returns, exactly one row was added to the state table: it holds the
    state [train] returned for the latest stored state of the library, the
    JSON text of the statistics when [train] returned them as a dict and
    NULL otherwise, and its [partial] flag is the [subset] argument.  The
    model was handed the metadata loaded from the unchanged tables.  When it
    raises, the tables are as they were, and the exception is either a
    wrapped one or the bare error of the unpacking of lines 295-306, which no
    [try] covers: the [IndexError] of a tuple with fewer than two elements,
    or what [json.dumps] raised for the statistics. *)
Theorem train_commits_one_row_or_nothing FNa project imageIDs epoch numEpochs subset
    modelInstance lib w :
  let r := _call_train FNa project imageIDs epoch numEpochs subset modelInstance lib w in
  match r.1 with
  | Ok _ =>
      exists w1 w2 data calls result_ stateDict stats libs,
        w_store w1 = w_store w /\
        __load_metadata FNa project (Some imageIDs) true w1 = (Ok data, w2) /\
        train modelInstance (latest_statedict lib (w_store w)) data = (calls, Ok result_) /\
        unpack_train_result result_ = Ok (stateDict, stats) /\
        w_store r.2
        = (sql (InsertState stateDict stats subset libs.1 libs.2) (w_store w)).2
  | Raise e =>
      w_store r.2 = w_store w /\
      ((exists msg, e = Exception msg) \/
       (exists data calls result_,
          train modelInstance (latest_statedict lib (w_store w)) data = (calls, Ok result_) /\
          unpack_train_result result_ = Raise e))
  end.
Proof.
  cbv zeta.
  change (wp (_call_train FNa project imageIDs epoch numEpochs subset modelInstance lib) w
            (fun r w' =>
               match r with
               | Ok _ =>
                   exists w1 w2 data calls result_ stateDict stats libs,
                     w_store w1 = w_store w /\
                     __load_metadata FNa project (Some imageIDs) true w1 = (Ok data, w2) /\
                     train modelInstance (latest_statedict lib (w_store w)) data
                       = (calls, Ok result_) /\
                     unpack_train_result result_ = Ok (stateDict, stats) /\
                     w_store w'
                     = (sql (InsertState stateDict stats subset libs.1 libs.2) (w_store w)).2
               | Raise e =>
                   w_store w' = w_store w /\
                   ((exists msg, e = Exception msg) \/
                    (exists data calls result_,
                       train modelInstance (latest_statedict lib (w_store w)) data
                         = (calls, Ok result_) /\
                       unpack_train_result result_ = Raise e))
               end)).
  unfold _call_train.
  apply wp_bind, wp_on_message.
  apply wp_bind, wp_try_reraise, wp_load_model_state; intros _; [split; [reflexivity|eauto]|].
  cbn [fst logged called w_store].
  apply wp_bind, wp_on_message.
  match goal with |- wp _ ?w2 _ => assert (Hq : quiet any_event w w2) by quiet_world end.
  eapply (wp_step_reraise (quiet any_event)); [exact Hq|pres_block| |].
  { intros e w1 H1. split; [apply H1|eauto]. }
  intros data w3 H3 Hdata.
  eapply (wp_step_reraise (quiet any_event)); [exact H3| | |].
  { apply pres_seq; [apply _|pres_block|intros _].
    apply pres_seq; [apply _|auto|intros _]. pres_block. }
  { intros e w1 H1. split; [apply H1|eauto]. }
  intros result_ w4 H4 Hrun.
  assert (Htrain : (train modelInstance (latest_statedict lib (w_store w)) data).2 = Ok result_).
  { eapply (run_adapter_inv project (Some (inject_Z (len imageIDs))) 0 epoch numEpochs _
              (logged (logged w3 _) _)). exact Hrun. }
  destruct (train modelInstance (latest_statedict lib (w_store w)) data) as [calls out] eqn:E.
  cbn in Htrain. subst out.
  apply wp_bind, wp_lift.
  destruct (unpack_train_result result_) as [[stateDict stats]|e] eqn:Eu.
  2:{ split; [apply H4|]. right. exists data, calls, result_. split; [exact E|exact Eu]. }
  apply wp_bind, wp_try_reraise, wp_bind, wp_on_message, wp_bind, wp_get_ai_library_names.
  intros libs ok. apply wp_bind, wp_execute; intros _.
  { split; [|eauto]. cbn [w_store called logged]. apply H4. }
  cbn [w_store called logged]. apply wp_ret, wp_on_message.
  cbn [w_store called logged].
  eexists _, w3, data, calls, result_, stateDict, stats, libs.
  split; [|split; [exact Hdata|split; [exact E|split; [exact Eu|]]]]; [apply Hq|].
  destruct H4 as [-> _]. reflexivity.
Qed.

Lemma wp_load_metadata_no_ids FNa project ann w (Q : result Metadata -> World -> Prop) :
  (w_calls w ∈ w_faults w ->
   Q (Raise (DatabaseError "connection failure")) (called w SelectLabelClasses false (w_store w))) ->
  (w_calls w ∉ w_faults w ->
   Q (Ok (mk_metadata (labels_of (st_labelclass (w_store w))) ∅))
     (called w SelectLabelClasses true (w_store w))) ->
  wp (__load_metadata FNa project None ann) w Q.
Proof.
  intros Hfault Hok. unfold __load_metadata. cbn [default].
  apply wp_bind, wp_execute; [exact Hfault|intros Hf]. cbn [sql fst snd].
  apply wp_bind, wp_lift. rewrite foldM_labels.
  rewrite bool_decide_eq_true_2 by reflexivity.
  apply wp_bind, wp_ret. rewrite andb_false_r.
  apply wp_bind, wp_ret. apply wp_ret. now apply Hok.
Qed.

(** X6: what a model update leaves in the tables.  When
    [_call_update_model] returns, either the tables are as they were, or
    exactly one row was added to the state table: a non-partial row without
    statistics that holds the state [update_model] returned when it was
    handed the latest stored state of the library and a metadata dict with
    the label classes and no image.  When it raises, the tables are as they
    were. *)
Theorem update_commits_one_row_or_nothing FNa project numEpochs modelInstance lib w :
  let r := _call_update_model FNa project numEpochs modelInstance lib w in
  match r.1 with
  | Ok _ =>
      w_store r.2 = w_store w \/
      exists f calls stateDict libs,
        update_model modelInstance = Some f /\
        f (latest_statedict lib (w_store w))
          (mk_metadata (labels_of (st_labelclass (w_store w))) ∅) = (calls, Ok stateDict) /\
        w_store r.2 = (sql (InsertState stateDict PNone false libs.1 libs.2) (w_store w)).2
  | Raise e => w_store r.2 = w_store w
  end.
Proof.
  cbv zeta.
  change (wp (_call_update_model FNa project numEpochs modelInstance lib) w
            (fun r w' =>
               match r with
               | Ok _ =>
                   w_store w' = w_store w \/
                   exists f calls stateDict libs,
                     update_model modelInstance = Some f /\
                     f (latest_statedict lib (w_store w))
                       (mk_metadata (labels_of (st_labelclass (w_store w))) ∅)
                       = (calls, Ok stateDict) /\
                     w_store w'
                     = (sql (InsertState stateDict PNone false libs.1 libs.2) (w_store w)).2
               | Raise e => w_store w' = w_store w
               end)).
  unfold _call_update_model.
  destruct (update_model modelInstance) as [f|]; [|apply wp_on_message; now left].
  apply wp_bind, wp_execute; intros _; [reflexivity|]. cbn [sql fst snd].
  apply wp_bind, wp_lift.
  match goal with |- match ?r with _ => _ end => destruct r as [count0|]; [|reflexivity] end.
  apply wp_bind, wp_lift.
  match goal with |- match ?r with _ => _ end => destruct r as [count1|]; [|reflexivity] end.
  destruct (_ && _); [apply wp_on_message; now left|].
  apply wp_bind, wp_on_message.
  apply wp_bind, wp_try_reraise, wp_load_model_state; intros _; [reflexivity|].
  cbn [fst logged called w_store].
  apply wp_bind, wp_on_message.
  apply wp_bind, wp_try_reraise, wp_load_metadata_no_ids; intros _; [reflexivity|].
  cbn [fst logged called w_store].
  match goal with |- wp _ ?w2 _ => assert (Hq : quiet any_event w w2) by quiet_world end.
  eapply (wp_step_reraise (quiet any_event)); [exact Hq| | |].
  { apply pres_seq; [apply _|pres_block|intros _].
    apply pres_seq; [apply _|auto|intros _]. pres_block. }
  { intros e w1 H1. apply H1. }
  intros stateDict w4 H4 Hrun.
  assert (Hupd : (f (latest_statedict lib (w_store w))
                    (mk_metadata (labels_of (st_labelclass (w_store w))) ∅)).2 = Ok stateDict).
  { eapply (run_adapter_inv project None 0 None numEpochs _ (logged (logged _ _) _)).
    exact Hrun. }
  apply wp_bind, wp_try_reraise, wp_bind, wp_on_message, wp_bind, wp_get_ai_library_names.
  intros libs ok. apply wp_bind, wp_execute; intros _.
  { cbn [w_store called logged]. apply H4. }
  cbn [w_store called logged]. apply wp_ret, wp_on_message.
  cbn [w_store called logged]. right.
  destruct (f (latest_statedict lib (w_store w)) _) as [calls out] eqn:E.
  cbn in Hupd. subst out.
  exists f, calls, stateDict, libs. split; [reflexivity|]. split; [exact E|].
  destruct H4 as [-> _]. reflexivity.
Qed.

(** X7: a model without [update_model] is left alone.  The routine
    touches neither the database nor the model: its one effect is the task
    update that reports SUCCESS with the warning. *)
Theorem update_without_capability FNa project numEpochs modelInstance lib w :
  update_model modelInstance = None ->
  let r := _call_update_model FNa project numEpochs modelInstance lib w in
  r.1 = Ok tt /\
  w_store r.2 = w_store w /\
  w_calls r.2 = w_calls w /\
  exists meta, w_events r.2 = w_events w ++ [EvTask "SUCCESS" meta] /\
               is_Some (m_message meta).
Proof.
  intros Hnone. unfold _call_update_model. rewrite Hnone. cbn.
  repeat split. eexists. split; [reflexivity|].
  rewrite progress_meta_plain; [eauto|]. cbn. discriminate.
Qed.

Lemma update_without_capability_witness :
  let r := _call_update_model sample_annotation_fields "proj" (Some 1) backtracking_model "L"
             sample_world in
  r.1 = Ok tt /\
  w_store r.2 = w_store sample_world /\
  w_calls r.2 = w_calls sample_world /\
  exists meta, w_events r.2 = w_events sample_world ++ [EvTask "SUCCESS" meta] /\
               is_Some (m_message meta).
Proof.
  apply (update_without_capability sample_annotation_fields "proj" (Some 1) backtracking_model "L"
           sample_world).
  reflexivity.
Defined.

(** * Averaging: the paths around the fusion *)

(** X8: with no partial state stored for the library, averaging is a
    no-op that succeeds: one query, no call into the model (it need not even
    support averaging), no commit, no purge, and SUCCESS as the last task
    update. *)
Theorem average_without_partial_states project epoch numEpochs modelInstance lib w :
  partial_states lib (w_store w) = [] ->
  w_calls w ∉ w_faults w ->
  let r := _call_average_model_states project epoch numEpochs modelInstance lib w in
  r.1 = Ok tt /\
  w_store r.2 = w_store w /\
  exists m1 m2,
    w_events r.2
    = w_events w ++ [EvTask "PREPARING" m1; EvDb (SelectPartialStates lib) true;
                     EvTask "SUCCESS" m2].
Proof.
  intros Hpart Hf. cbv zeta.
  change (wp (_call_average_model_states project epoch numEpochs modelInstance lib) w
            (fun r w' =>
               r = Ok tt /\ w_store w' = w_store w /\
               exists m1 m2,
                 w_events w'
                 = w_events w ++ [EvTask "PREPARING" m1; EvDb (SelectPartialStates lib) true;
                                  EvTask "SUCCESS" m2])).
  unfold _call_average_model_states.
  apply wp_bind, wp_on_message.
  apply wp_bind, wp_try_reraise, wp_execute; [intros Hin; now destruct Hf|intros _].
  cbn [sql fst snd logged w_store]. fold (partial_states lib (w_store w)). rewrite Hpart.
  cbn [fmap list_fmap]. rewrite bool_decide_eq_true_2 by reflexivity.
  apply wp_on_message. split; [reflexivity|]. split; [reflexivity|].
  eexists _, _. cbn [w_events logged called]. rewrite <- !app_assoc. reflexivity.
Qed.

Lemma average_without_partial_states_witness :
  let r := _call_average_model_states "proj" (Some 1) (Some 1) backtracking_model "L"
             sample_world in
  r.1 = Ok tt /\
  w_store r.2 = w_store sample_world /\
  exists m1 m2,
    w_events r.2
    = w_events sample_world ++ [EvTask "PREPARING" m1; EvDb (SelectPartialStates "L") true;
                                EvTask "SUCCESS" m2].
Proof.
  apply (average_without_partial_states "proj" (Some 1) (Some 1) backtracking_model "L"
           sample_world).
  - reflexivity.
  - simpl. apply not_elem_of_nil.
Defined.

(** X9: the fused state inherits its library names from the first
    partial state.  When the first selected row carries both names and the
    two statements go through, [push_and_purge] returns after exactly two
    database calls (the project table is not asked) and the state table
    holds the old non-partial rows followed by the fused row with those
    names. *)
Theorem push_and_purge_inherits_libraries project epoch numEpochs (qr : pydict) rest
    modelStates_avg stats_avg model_library alcriterion_library w :
  qr !! "model_library" = Some model_library ->
  qr !! "alcriterion_library" = Some alcriterion_library ->
  w_calls w ∉ w_faults w ->
  S (w_calls w) ∉ w_faults w ->
  let r := push_and_purge project epoch numEpochs (qr :: rest) modelStates_avg stats_avg w in
  r.1 = Ok tt /\
  w_calls r.2 = S (S (w_calls w)) /\
  st_cnnstate (w_store r.2)
  = filter (fun r => cs_partial r = false) (st_cnnstate (w_store w))
      ++ [mk_cnnstate (st_next_id (w_store w)) (Some (st_clock (w_store w)))
            modelStates_avg stats_avg false model_library alcriterion_library].
Proof.
  intros Hlib Halc Hf1 Hf2. cbv zeta.
  change (wp (push_and_purge project epoch numEpochs (qr :: rest) modelStates_avg stats_avg) w
            (fun r w' =>
               r = Ok tt /\ w_calls w' = S (S (w_calls w)) /\
               st_cnnstate (w_store w')
               = filter (fun r => cs_partial r = false) (st_cnnstate (w_store w))
                   ++ [mk_cnnstate (st_next_id (w_store w)) (Some (st_clock (w_store w)))
                         modelStates_avg stats_avg false model_library alcriterion_library])).
  unfold push_and_purge.
  apply wp_bind, wp_on_message.
  apply wp_bind, wp_try_except, wp_lift. cbn [first rbind]. unfold getitem.
  rewrite Hlib, Halc. cbn [rbind fst snd].
  apply wp_bind, wp_try_reraise, wp_execute; [intros Hin; now destruct Hf1|intros _].
  apply wp_bind, wp_on_message.
  apply wp_bind, wp_try_reraise, wp_execute; [intros Hin; now destruct Hf2|intros _].
  apply wp_on_message.
  split; [reflexivity|]. split; [reflexivity|].
  cbn [sql snd w_store called logged set_cnnstate st_cnnstate].
  rewrite filter_app, filter_cons_True by reflexivity. reflexivity.
Qed.

Lemma push_and_purge_inherits_libraries_witness :
  let r := push_and_purge "proj" (Some 1) (Some 1)
             (partial_state_dict <$> partial_states "L" partial_store)
             (PBytes [7]) PNone partial_world in
  r.1 = Ok tt /\
  w_calls r.2 = S (S (w_calls partial_world)) /\
  st_cnnstate (w_store r.2)
  = filter (fun r => cs_partial r = false) (st_cnnstate (w_store partial_world))
      ++ [mk_cnnstate (st_next_id (w_store partial_world)) (Some (st_clock (w_store partial_world)))
            (PBytes [7]) PNone false (PStr "L") PNone].
Proof.
  apply (push_and_purge_inherits_libraries "proj" (Some 1) (Some 1)
           (partial_state_dict (mk_cnnstate 100 (Some 5) (PBytes [1])
                                  (PJson {[ "loss" := Fin 10%Q ]}) true (PStr "L") PNone))
           _ (PBytes [7]) PNone (PStr "L") PNone partial_world).
  - reflexivity.
  - reflexivity.
  - simpl. apply not_elem_of_nil.
  - simpl. apply not_elem_of_nil.
Defined.

(** X10: the commit and the purge are two separate statements.  When the
    INSERT goes through and the DELETE fails, [push_and_purge] raises the
    wrapped error, and the state table then holds every old row, the
    partial ones included, followed by the fused row. *)
Theorem push_and_purge_failed_purge project epoch numEpochs (qr : pydict) rest
    modelStates_avg stats_avg model_library alcriterion_library w :
  qr !! "model_library" = Some model_library ->
  qr !! "alcriterion_library" = Some alcriterion_library ->
  w_calls w ∉ w_faults w ->
  S (w_calls w) ∈ w_faults w ->
  let r := push_and_purge project epoch numEpochs (qr :: rest) modelStates_avg stats_avg w in
  (exists msg, r.1 = Raise (Exception msg)) /\
  st_cnnstate (w_store r.2)
  = st_cnnstate (w_store w)
      ++ [mk_cnnstate (st_next_id (w_store w)) (Some (st_clock (w_store w)))
            modelStates_avg stats_avg false model_library alcriterion_library].
Proof.
  intros Hlib Halc Hf1 Hf2. cbv zeta.
  change (wp (push_and_purge project epoch numEpochs (qr :: rest) modelStates_avg stats_avg) w
            (fun r w' =>
               (exists msg, r = Raise (Exception msg)) /\
               st_cnnstate (w_store w')
               = st_cnnstate (w_store w)
                   ++ [mk_cnnstate (st_next_id (w_store w)) (Some (st_clock (w_store w)))
                         modelStates_avg stats_avg false model_library alcriterion_library])).
  unfold push_and_purge.
  apply wp_bind, wp_on_message.
  apply wp_bind, wp_try_except, wp_lift. cbn [first rbind]. unfold getitem.
  rewrite Hlib, Halc. cbn [rbind fst snd].
  apply wp_bind, wp_try_reraise, wp_execute; [intros Hin; now destruct Hf1|intros _].
  apply wp_bind, wp_on_message.
  apply wp_bind, wp_try_reraise, wp_execute; [intros _|intros Hnf; now destruct Hnf].
  split; [eauto|reflexivity].
Qed.

Lemma push_and_purge_failed_purge_witness :
  let r := push_and_purge "proj" (Some 1) (Some 1)
             (partial_state_dict <$> partial_states "L" partial_store)
             (PBytes [7]) PNone (mk_world partial_store [] 0 [1%nat]) in
  (exists msg, r.1 = Raise (Exception msg)) /\
  st_cnnstate (w_store r.2)
  = st_cnnstate partial_store
      ++ [mk_cnnstate (st_next_id partial_store) (Some (st_clock partial_store))
            (PBytes [7]) PNone false (PStr "L") PNone].
Proof.
  apply (push_and_purge_failed_purge "proj" (Some 1) (Some 1)
           (partial_state_dict (mk_cnnstate 100 (Some 5) (PBytes [1])
                                  (PJson {[ "loss" := Fin 10%Q ]}) true (PStr "L") PNone))
           _ (PBytes [7]) PNone (PStr "L") PNone (mk_world partial_store [] 0 [1%nat])).
  - reflexivity.
  - reflexivity.
  - simpl. intros H. apply list_elem_of_singleton in H. discriminate.
  - simpl. apply list_elem_of_singleton. reflexivity.
Defined.

(** * Inference: what is written and what is left alone *)

Lemma inference_event_no_commit sd e : inference_event sd e -> no_commit_no_purge e.
Proof. destruct e as [state meta|stmt ok|c]; [split; reflexivity| |split; reflexivity].
  destruct stmt; cbn; intros H; try (split; reflexivity); destruct H.
Qed.

(** X11: inference never writes model states and never removes a
    prediction.  Whether [_call_inference] returns or raises, the state
    table is as it was, the prediction table is the old one with rows
    appended, and the log shows neither a commit of a state nor a purge. *)
Theorem inference_leaves_states_alone FNa FNp project imageIDs epoch numEpochs
    modelInstance lib rankerInstance batchSizeLimit w :
  let r := _call_inference FNa FNp project imageIDs epoch numEpochs modelInstance lib
             rankerInstance batchSizeLimit w in
  st_cnnstate (w_store r.2) = st_cnnstate (w_store w) /\
  (exists rows, st_prediction (w_store r.2) = st_prediction (w_store w) ++ rows) /\
  (exists evs, w_events r.2 = w_events w ++ evs /\ Forall no_commit_no_purge evs).
Proof.
  cbv zeta.
  destruct (inference_grows FNa FNp project imageIDs epoch numEpochs modelInstance lib
              rankerInstance batchSizeLimit w) as (Hs & (rows & Hr & _) & (evs & He & Hevs)).
  split; [exact Hs|]. split; [now exists rows|]. exists evs. split; [exact He|].
  eapply Forall_impl; [exact Hevs|]. intros e. apply inference_event_no_commit.
Qed.

Lemma mapM_length {A B} (f : A -> result B) l ys : mapM f l = Ok ys -> length ys = length l.
Proof. intros H. symmetry. eapply Forall2_length, mapM_Forall2, H. Qed.

Lemma project_prediction_length predType fieldNames imgID sid predictions prediction values :
  project_prediction predType fieldNames imgID sid predictions prediction = Ok values ->
  length values = length fieldNames.
Proof.
  unfold project_prediction.
  match goal with |- rbind ?x _ = _ -> _ => destruct x as [seg|]; [|discriminate] end.
  cbn [rbind]. apply mapM_length.
Qed.

Lemma parse_result_acc predType fieldNames sid result_ acc values_pred values_img :
  foldM (fun (acc : list (list pyval) * list (Z * list Z)) (entry : Z * ImageResult) =>
           let '(imgID, r) := entry in
           rbind (mapM (project_prediction predType fieldNames imgID sid (ir_predictions r))
                       (ir_predictions r)) (fun rows =>
           Ok (acc.1 ++ rows,
               match ir_fVec r with
               | Some (b :: v) => acc.2 ++ [(imgID, b :: v)]
               | _ => acc.2
               end)))
        result_ acc = Ok (values_pred, values_img) ->
  exists rows,
    values_pred = acc.1 ++ rows /\
    Forall2 (fun values (p : Z * list pydict * pydict) =>
               project_prediction predType fieldNames p.1.1 sid p.1.2 p.2 = Ok values)
            rows (flat_predictions result_) /\
    values_img = acc.2 ++ feature_vectors result_.
Proof.
  revert acc. induction result_ as [|[imgID r] result_ IH]; intros acc.
  - cbn. intros [= ->]. exists []. cbn. rewrite !app_nil_r. repeat split. constructor.
  - cbn [foldM].
    destruct (mapM _ (ir_predictions r)) as [rows0|] eqn:Hrows; [|discriminate].
    cbn [rbind]. intros H. apply IH in H as (rows & -> & HF & ->). cbn [fst snd].
    exists (rows0 ++ rows). split; [now rewrite app_assoc|]. split.
    + unfold flat_predictions. cbn [mbind list_bind]. fold (flat_predictions result_).
      apply Forall2_app; [|exact HF]. cbn [fst snd].
      apply Forall2_fmap_r. apply Forall2_flip. eapply Forall2_impl; [apply mapM_Forall2, Hrows|].
      cbn. auto.
    + unfold feature_vectors. cbn [omap list_omap fst snd]. fold (feature_vectors result_).
      destruct (ir_fVec r) as [[|b v]|]; [reflexivity| |reflexivity].
      now rewrite <- app_assoc.
Qed.

(** X12: the shape of a parsed chunk.  When [parse_result] succeeds,
    the tuples for the prediction table are, in order, the projections of
    the result's predictions, image by image, each with one value per field
    name; and the values for the image table are the images whose feature
    vector is present and not empty, in order. *)
Theorem parse_result_shape predType fieldNames sid result_ values_pred values_img :
  parse_result predType fieldNames sid result_ = Ok (values_pred, values_img) ->
  Forall2 (fun values (p : Z * list pydict * pydict) =>
             project_prediction predType fieldNames p.1.1 sid p.1.2 p.2 = Ok values)
          values_pred (flat_predictions result_) /\
  Forall (fun values => length values = length fieldNames) values_pred /\
  values_img = feature_vectors result_.
Proof.
  intros H. apply parse_result_acc in H as (rows & -> & HF & ->). cbn [fst snd app].
  split; [exact HF|]. split; [|reflexivity].
  clear -HF. induction HF as [|values p rows ps Hp _ IH]; constructor; [|exact IH].
  eapply project_prediction_length, Hp.
Qed.

Lemma parse_result_shape_witness :
  exists values_pred values_img,
    parse_result "boundingBoxes"
      (["label"; "confidence"; "priority"; "x"; "y"; "width"; "height"] ++ ["image"; "cnnstate"])
      (PInt 100) sample_result = Ok (values_pred, values_img) /\
    Forall2 (fun values (p : Z * list pydict * pydict) =>
               project_prediction "boundingBoxes"
                 (["label"; "confidence"; "priority"; "x"; "y"; "width"; "height"]
                    ++ ["image"; "cnnstate"]) p.1.1 (PInt 100) p.1.2 p.2 = Ok values)
            values_pred (flat_predictions sample_result) /\
    Forall (fun values => length values = 9%nat) values_pred /\
    length values_pred = 3%nat /\
    values_img = [(1, [4; 2])].
Proof.
  destruct (parse_result "boundingBoxes"
              (["label"; "confidence"; "priority"; "x"; "y"; "width"; "height"]
                 ++ ["image"; "cnnstate"]) (PInt 100) sample_result)
    as [[values_pred values_img]|e] eqn:E; [|vm_compute in E; discriminate].
  exists values_pred, values_img. split; [reflexivity|].
  destruct (parse_result_shape _ _ _ _ _ _ E) as (HF & HL & HV).
  split; [exact HF|]. split; [exact HL|]. split; [|exact HV].
  apply Forall2_length in HF. exact HF.
Defined.

(** * The bounding-box dataset *)

Lemma parse_class_acc labelClasses cd cdi idx st :
  foldM parse_class labelClasses (cd, cdi, idx) = Ok st ->
  st.1.1 = cd ++ class_indices idx labelClasses /\
  st.1.2 = cdi ++ ((fun kv => (kv.2, kv.1)) <$> class_indices idx labelClasses).
Proof.
  revert cd cdi idx. induction labelClasses as [|[key c] rest IH]; intros cd cdi idx.
  - cbn. intros [= <-]. cbn. now rewrite !app_nil_r.
  - cbn [foldM parse_class class_indices].
    destruct (c !! "index") as [index|].
    + destruct (hashable index); [|discriminate]. cbn [rbind]. intros H.
      apply IH in H as [-> ->]. cbn. now rewrite <- !app_assoc.
    + cbn [hashable rbind]. intros H. apply IH in H as [-> ->]. cbn. now rewrite <- !app_assoc.
Qed.

Lemma parse_classes_spec labelClasses cd cdi :
  parse_classes labelClasses = Ok (cd, cdi) ->
  cd = class_indices 0 labelClasses /\
  cdi = (fun kv => (kv.2, kv.1)) <$> class_indices 0 labelClasses.
Proof.
  unfold parse_classes. destruct (foldM _ _ _) as [st|] eqn:E; [|discriminate].
  cbn [rbind]. intros [= H]. apply parse_class_acc in E as [E1 E2]. rewrite H in E1, E2.
  cbn in E1, E2. now subst.
Qed.

Lemma class_indices_keys idx labelClasses :
  (class_indices idx labelClasses).*1 = labelClasses.*1.
Proof.
  revert idx. induction labelClasses as [|[key c] rest IH]; intros idx; [reflexivity|].
  cbn [class_indices]. destruct (c !! "index"); cbn; now rewrite IH.
Qed.

Lemma class_indices_lookup idx labelClasses (i : nat) key c :
  labelClasses !! i = Some (key, c) ->
  class_indices idx labelClasses !! i
  = Some (key, match c !! "index" with
               | Some index => index
               | None => PInt (idx + len (filter (fun kc => kc.2 !! "index" = None)
                                                 (take i labelClasses)))
               end).
Proof.
  revert idx i. induction labelClasses as [|[k0 c0] rest IH]; intros idx i; [discriminate|].
  destruct i as [|i].
  - intros [= -> ->]. cbn [class_indices take]. rewrite filter_nil.
    destruct (c !! "index"); cbn; [reflexivity|]. unfold len. cbn. now rewrite Z.add_0_r.
  - intros H. change (rest !! i = Some (key, c)) in H.
    change (take (S i) ((k0, c0) :: rest)) with ((k0, c0) :: take i rest).
    cbn [class_indices]. destruct (c0 !! "index") as [v0|] eqn:E0.
    + rewrite filter_cons_False by (cbn; congruence).
      change ((?x :: ?l) !! S i) with (l !! i). now apply IH.
    + rewrite filter_cons_True by exact E0.
      change ((?x :: ?l) !! S i) with (l !! i). rewrite (IH (idx + 1) i H).
      destruct (c !! "index"); [reflexivity|]. unfold len. cbn [length]. do 3 f_equal. lia.
Qed.

Lemma filter_none {A} (P : A -> Prop) `{!forall x, Decision (P x)} (l : list A) :
  (forall x, x ∈ l -> ~ P x) -> filter P l = [].
Proof.
  induction l as [|x l IH]; intros Hl; [reflexivity|].
  rewrite filter_cons_False by (apply Hl; left). apply IH. intros y Hy. apply Hl. now right.
Qed.

Lemma assigned_lookup {V} (d : list (Z * V)) (i : nat) key v :
  NoDup d.*1 -> d !! i = Some (key, v) -> assigned d key = Some v.
Proof.
  unfold assigned. revert i. induction d as [|[k0 v0] d IH]; intros i Hnd; [discriminate|].
  apply NoDup_cons in Hnd as [Hnotin Hnd]. destruct i as [|i]; cbn [lookup list_lookup].
  - intros [= -> ->]. rewrite filter_cons_True by reflexivity.
    assert (E : filter (fun kv : Z * V => kv.1 = key) d = []).
    { apply filter_none. intros [k1 v1] Hin Hk. cbn in Hk. subst k1. apply Hnotin.
      apply list_elem_of_fmap. exists (key, v1). split; [reflexivity|exact Hin]. }
    now rewrite E.
  - intros H. assert (k0 <> key).
    { intros ->. apply Hnotin. apply list_elem_of_fmap. exists (key, v). split; [reflexivity|].
      eapply list_elem_of_lookup_2, H. }
    rewrite filter_cons_False by (cbn; congruence). eapply IH; eauto.
Qed.

Lemma getitem_Ok (d : pydict) k v : getitem d k = Ok v -> d !! k = Some v.
Proof. unfold getitem. destruct (d !! k); now intros [= ->]. Qed.

Lemma parse_annotations_acc tf iu cd annos acc boxes labels :
  foldM (parse_annotation tf iu cd) annos acc = Ok (boxes, labels) ->
  exists bs ls,
    boxes = acc.1 ++ bs /\ labels = acc.2 ++ ls /\
    Forall2 (fun anno box => coords_of tf anno = Ok box)
            (filter (fun anno => kept iu anno = true) annos) bs /\
    Forall2 (fun anno label => label_of iu cd anno = Ok label)
            (filter (fun anno => kept iu anno = true) annos) ls.
Proof.
  revert acc. induction annos as [|anno annos IH]; intros acc.
  - cbn. intros [= ->]. exists [], []. cbn. rewrite !app_nil_r. repeat split; constructor.
  - cbn [foldM]. unfold parse_annotation at 1.
    destruct (coords_of tf anno) as [c|] eqn:Ec; [|discriminate].
    destruct (getitem anno "label") as [label|] eqn:El; [|discriminate].
    cbn [rbind]. pose proof (getitem_Ok _ _ _ El) as El'.
    destruct (unsure_ignored iu anno) eqn:Eu.
    + intros H. apply IH in H as (bs & ls & -> & -> & HB & HL). cbn [fst snd].
      exists (c :: bs), (PInt (-1) :: ls). rewrite <- !app_assoc.
      rewrite filter_cons_True by (unfold kept; now rewrite Eu).
      repeat split; constructor; auto. unfold label_of. now rewrite Eu.
    + destruct label.
      1:{ intros H. apply IH in H as (bs & ls & -> & -> & HB & HL).
          exists bs, ls. rewrite filter_cons_False by (unfold kept; rewrite Eu, El'; discriminate).
          auto. }
      all: match goal with |- context [classdef_getitem ?d ?l] =>
             destruct (classdef_getitem d l) as [l'|] eqn:Ecl; [|discriminate] end.
      all: cbn [rbind]; intros H; apply IH in H as (bs & ls & -> & -> & HB & HL); cbn [fst snd].
      all: exists (c :: bs), (l' :: ls); rewrite <- !app_assoc.
      all: rewrite filter_cons_True by (unfold kept; now rewrite Eu, El').
      all: repeat split; constructor; auto.
      all: unfold label_of; rewrite Eu, El; exact Ecl.
Qed.

Lemma parse_image_spec tf iu cd image e :
  parse_image tf iu cd image = Ok e -> entry_of tf iu cd image e.
Proof.
  destruct image as [key m]. unfold parse_image, entry_of. cbn [fst snd].
  destruct (match im_annotations m with Some _ => _ | None => _ end) as [[boxes labels]|] eqn:E;
    [|discriminate].
  cbn [rbind]. destruct (getitem (im_row m) "filename") as [imagePath|]; [|discriminate].
  cbn [rbind]. intros [= <-]. cbn. split; [reflexivity|]. split; [reflexivity|].
  split; [destruct (im_row m !! "fVec"); reflexivity|].
  destruct (im_annotations m) as [annos|]; cbn [default].
  - apply parse_annotations_acc in E as (bs & ls & -> & -> & HB & HL). now split.
  - injection E as <- <-. rewrite filter_nil. split; constructor.
Qed.

(** X13: the index of a class.  After construction, [classdef] maps
    the key of a class that carries an ['index'] to that value, and the key
    of a class that carries none to the number of classes before it that
    carry none either: the generated numbers count only the classes without
    an index, whatever indices the others bring. *)
Theorem parse_data_class_index tf iu input ds (i : nat) key labelClass :
  __parse_data tf iu input = Ok ds ->
  NoDup (in_labelClasses input).*1 ->
  in_labelClasses input !! i = Some (key, labelClass) ->
  assigned (classdef ds) key
  = Some (match labelClass !! "index" with
          | Some index => index
          | None => PInt (len (filter (fun kc => kc.2 !! "index" = None)
                                      (take i (in_labelClasses input))))
          end).
Proof.
  unfold __parse_data. destruct (parse_classes _) as [[cd cdi]|] eqn:Ecd; [|discriminate].
  cbn [rbind fst snd]. destruct (mapM _ _) as [entries|]; [|discriminate].
  cbn [rbind]. intros [= <-] Hnd Hi. cbn [classdef].
  apply parse_classes_spec in Ecd as [-> _].
  apply (assigned_lookup _ i).
  - now rewrite class_indices_keys.
  - rewrite (class_indices_lookup 0 _ i key labelClass Hi). now rewrite Z.add_0_l.
Qed.

Lemma parse_data_class_index_witness :
  exists ds,
    __parse_data "xyxy" true sample_input = Ok ds /\
    assigned (classdef ds) 7 = Some (PInt 0) /\
    assigned (classdef ds) 9 = Some (PInt 0).
Proof.
  destruct (__parse_data "xyxy" true sample_input) as [ds|] eqn:E; [|vm_compute in E; discriminate].
  exists ds. split; [reflexivity|].
  assert (Hnd : NoDup (in_labelClasses sample_input).*1)
    by (apply (bool_decide_unpack _); vm_compute; reflexivity).
  pose proof (parse_data_class_index "xyxy" true sample_input ds 0 7
                {[ "name" := PStr "elephant" ]} E Hnd eq_refl) as H7.
  pose proof (parse_data_class_index "xyxy" true sample_input ds 1 9
                {[ "name" := PStr "zebra"; "index" := PInt 0 ]} E Hnd eq_refl) as H9.
  split; [rewrite H7|rewrite H9]; vm_compute; reflexivity.
Defined.

Lemma class_indices_generated idx labelClasses kv :
  (forall kc, kc ∈ labelClasses -> kc.2 !! "index" = None) ->
  kv ∈ class_indices idx labelClasses -> exists m, kv.2 = PInt m /\ idx <= m.
Proof.
  revert idx. induction labelClasses as [|[k0 c0] rest IH]; intros idx Hall Hin.
  - now apply elem_of_nil in Hin.
  - cbn [class_indices] in Hin.
    pose proof (Hall (k0, c0) ltac:(left)) as H0. cbn in H0. rewrite H0 in Hin.
    apply elem_of_cons in Hin as [->|Hin].
    + exists idx. split; [reflexivity|lia].
    + destruct (IH (idx + 1)) as (m & Hm & Hle); [intros kc Hkc; apply Hall; now right|exact Hin|].
      exists m. split; [exact Hm|lia].
Qed.

Lemma assigned_inv_generated idx labelClasses (i : nat) key labelClass :
  (forall kc, kc ∈ labelClasses -> kc.2 !! "index" = None) ->
  labelClasses !! i = Some (key, labelClass) ->
  assigned_inv ((fun kv => (kv.2, kv.1)) <$> class_indices idx labelClasses) (idx + Z.of_nat i)
  = Some key.
Proof.
  unfold assigned_inv.
  revert idx i. induction labelClasses as [|[k0 c0] rest IH]; intros idx i Hall; [discriminate|].
  cbn [class_indices].
  pose proof (Hall (k0, c0) ltac:(left)) as H0. cbn in H0. rewrite H0.
  cbn [fmap list_fmap fst snd].
  destruct i as [|i].
  - intros [= -> ->]. rewrite filter_cons_True by (cbn; f_equal; lia).
    rewrite filter_none; [reflexivity|].
    intros [v k] Hin Hv. cbn in Hv. apply list_elem_of_fmap in Hin as ([k' v'] & Heq & Hin).
    cbn in Heq. injection Heq as -> ->.
    destruct (class_indices_generated (idx + 1) rest (k', v')) as (m & Hm & Hle);
      [intros kc Hkc; apply Hall; now right|exact Hin|].
    cbn in Hm. subst v'. cbn in Hv. injection Hv as Hv. lia.
  - intros Hi. change (rest !! i = Some (key, labelClass)) in Hi.
    rewrite filter_cons_False by (cbn; intros [= E]; lia).
    replace (idx + Z.of_nat (S i)) with ((idx + 1) + Z.of_nat i) by lia.
    apply IH; [intros kc Hkc; apply Hall; now right|exact Hi].
Qed.

Lemma filter_all {A} (P : A -> Prop) `{!forall x, Decision (P x)} (l : list A) :
  (forall x, x ∈ l -> P x) -> filter P l = l.
Proof.
  induction l as [|x l IH]; intros Hl; [reflexivity|].
  rewrite filter_cons_True by (apply Hl; left). f_equal. apply IH. intros y Hy. apply Hl. now right.
Qed.

(** X14: generated indices and their inverse.  When no class carries
    an ['index'], the classes are numbered 0, 1, 2, ... in the order of the
    dict, and [classdef_inv] leads from each number back to its class. *)
Theorem parse_data_generated_indices tf iu input ds (i : nat) key labelClass :
  __parse_data tf iu input = Ok ds ->
  NoDup (in_labelClasses input).*1 ->
  (forall kc, kc ∈ in_labelClasses input -> kc.2 !! "index" = None) ->
  in_labelClasses input !! i = Some (key, labelClass) ->
  assigned (classdef ds) key = Some (PInt (Z.of_nat i)) /\
  assigned_inv (classdef_inv ds) (Z.of_nat i) = Some key.
Proof.
  unfold __parse_data. destruct (parse_classes _) as [[cd cdi]|] eqn:Ecd; [|discriminate].
  cbn [rbind fst snd]. destruct (mapM _ _) as [entries|]; [|discriminate].
  cbn [rbind]. intros [= <-] Hnd Hall Hi. cbn [classdef classdef_inv].
  apply parse_classes_spec in Ecd as [-> ->]. split.
  - apply (assigned_lookup _ i); [now rewrite class_indices_keys|].
    rewrite (class_indices_lookup 0 _ i key labelClass Hi).
    pose proof (Hall (key, labelClass) ltac:(eapply list_elem_of_lookup_2, Hi)) as H0.
    cbn in H0. rewrite H0.
    do 3 f_equal. rewrite Z.add_0_l. unfold len. f_equal.
    rewrite filter_all.
    + apply length_take_le. apply lookup_lt_Some in Hi. lia.
    + intros kc Hkc. apply Hall. apply list_elem_of_lookup in Hkc as [j Hj].
      apply lookup_take_Some in Hj as [Hj _]. eapply list_elem_of_lookup_2, Hj.
  - rewrite <- (Z.add_0_l (Z.of_nat i)). now apply (assigned_inv_generated 0 _ i key labelClass).
Qed.

Lemma parse_data_generated_indices_witness :
  exists ds,
    __parse_data "xywh" false plain_input = Ok ds /\
    (assigned (classdef ds) 7 = Some (PInt 0) /\ assigned_inv (classdef_inv ds) 0 = Some 7) /\
    (assigned (classdef ds) 9 = Some (PInt 1) /\ assigned_inv (classdef_inv ds) 1 = Some 9).
Proof.
  destruct (__parse_data "xywh" false plain_input) as [ds|] eqn:E; [|vm_compute in E; discriminate].
  exists ds. split; [reflexivity|].
  assert (Hnd : NoDup (in_labelClasses plain_input).*1)
    by (apply (bool_decide_unpack _); vm_compute; reflexivity).
  assert (Hall : forall kc, kc ∈ in_labelClasses plain_input -> kc.2 !! "index" = None).
  { intros kc Hkc. cbn in Hkc. apply elem_of_cons in Hkc as [->|Hkc]; [reflexivity|].
    apply list_elem_of_singleton in Hkc as ->. reflexivity. }
  split.
  - apply (parse_data_generated_indices "xywh" false plain_input ds 0 7
             {[ "name" := PStr "elephant" ]} E Hnd Hall). reflexivity.
  - apply (parse_data_generated_indices "xywh" false plain_input ds 1 9
             {[ "name" := PStr "zebra" ]} E Hnd Hall). reflexivity.
Defined.

Lemma parse_data_inv tf iu input ds :
  __parse_data tf iu input = Ok ds ->
  classdef ds = class_indices 0 (in_labelClasses input) /\
  Forall2 (entry_of tf iu (classdef ds)) (in_images input) (data ds).
Proof.
  unfold __parse_data. destruct (parse_classes _) as [[cd cdi]|] eqn:Ecd; [|discriminate].
  cbn [rbind fst snd]. destruct (mapM _ _) as [entries|] eqn:Em; [|discriminate].
  cbn [rbind]. intros [= <-]. cbn [classdef data].
  apply parse_classes_spec in Ecd as [-> _]. split; [reflexivity|].
  eapply Forall2_impl; [apply mapM_Forall2, Em|]. intros image e. apply parse_image_spec.
Qed.

(** X15: one entry per image.  After construction the dataset has as
    many entries as the input has images, in the same order.  Each entry
    carries the image's key and file name, its feature vector or an empty
    list, and, for exactly the annotations that are kept (flagged unsure
    while unsure ones are ignored, or with a label other than [None]), one
    box and one label each, in order: the label is -1 for an ignored unsure
    annotation and the class index otherwise. *)
Theorem parse_data_entries tf iu input ds :
  __parse_data tf iu input = Ok ds ->
  __len__ ds = len (in_images input) /\
  Forall2 (entry_of tf iu (classdef ds)) (in_images input) (data ds) /\
  Forall (fun e => length (de_boundingBoxes e) = length (de_labels e)) (data ds).
Proof.
  intros H. apply parse_data_inv in H as [_ HF]. split; [|split; [exact HF|]].
  - unfold __len__, len. f_equal. symmetry. eapply Forall2_length, HF.
  - clear -HF. induction HF as [|image e images es He _ IH]; constructor; [|exact IH].
    destruct He as (_ & _ & _ & HB & HL).
    apply Forall2_length in HB, HL. congruence.
Qed.

Lemma parse_data_entries_witness :
  exists ds,
    __parse_data "xyxy" true sample_input = Ok ds /\
    __len__ ds = 2 /\
    Forall2 (entry_of "xyxy" true (classdef ds)) (in_images sample_input) (data ds) /\
    Forall (fun e => length (de_boundingBoxes e) = length (de_labels e)) (data ds) /\
    de_labels <$> data ds = [[PInt 0; PInt (-1)]; []].
Proof.
  destruct (__parse_data "xyxy" true sample_input) as [ds|] eqn:E; [|vm_compute in E; discriminate].
  exists ds. split; [reflexivity|].
  destruct (parse_data_entries "xyxy" true sample_input ds E) as (HL & HF & HA).
  split; [exact HL|]. split; [exact HF|]. split; [exact HA|].
  vm_compute in E. injection E as <-. reflexivity.
Defined.

Lemma assigned_key {V} (d : list (Z * V)) key v : assigned d key = Some v -> key ∈ d.*1.
Proof.
  unfold assigned. destruct (last _) as [[k v']|] eqn:E; [|discriminate]. intros _.
  apply last_Some_elem_of, list_elem_of_filter in E as [Hk Hin]. cbn in Hk. subst k.
  apply list_elem_of_fmap. now exists (key, v').
Qed.

(** X16: a label outside the class definition stops the construction.
    If some annotation of some image names a label that is no key of
    [labelClasses], and the annotation is not an ignored unsure one, the
    constructor raises: no dataset is built, not even for the other
    images. *)
Theorem parse_data_unknown_label tf iu input key nextMeta annotations anno (k : Z) :
  (key, nextMeta) ∈ in_images input ->
  im_annotations nextMeta = Some annotations ->
  anno ∈ annotations ->
  unsure_ignored iu anno = false ->
  anno !! "label" = Some (PInt k) ->
  k ∉ (in_labelClasses input).*1 ->
  exists e, __parse_data tf iu input = Raise e.
Proof.
  intros Him Hannos Hanno Hu Hlabel Hk.
  destruct (__parse_data tf iu input) as [ds|e] eqn:E; [exfalso|eauto].
  apply parse_data_inv in E as [Hcd HF].
  apply list_elem_of_lookup in Him as [i Hi].
  destruct (Forall2_lookup_l _ _ _ _ _ HF Hi) as (e & _ & He).
  destruct He as (_ & _ & _ & _ & HL). cbn [snd] in HL. rewrite Hannos in HL. cbn [default] in HL.
  assert (Hin : anno ∈ filter (fun anno => kept iu anno = true) annotations).
  { apply list_elem_of_filter. split; [|exact Hanno]. unfold kept. now rewrite Hu, Hlabel. }
  apply list_elem_of_lookup in Hin as [j Hj].
  destruct (Forall2_lookup_l _ _ _ _ _ HL Hj) as (l & _ & Hl).
  unfold label_of in Hl. rewrite Hu in Hl. unfold getitem in Hl. rewrite Hlabel in Hl.
  cbn [rbind] in Hl. unfold classdef_getitem in Hl. cbn [hashable int_of mbind option_bind] in Hl.
  destruct (assigned (classdef ds) k) as [v|] eqn:Ea; [|discriminate].
  apply assigned_key in Ea. rewrite Hcd, class_indices_keys in Ea. contradiction.
Qed.

Lemma parse_data_unknown_label_witness :
  exists e, __parse_data "xyxy" false stray_input = Raise e.
Proof.
  apply (parse_data_unknown_label "xyxy" false stray_input 1
           (mk_image_meta {[ "filename" := PStr "a.jpg" ]}
              (Some [ {[ "x" := PFloat (Fin (1 # 2)); "y" := PFloat (Fin (1 # 2));
                         "width" := PFloat (Fin (1 # 4)); "height" := PFloat (Fin (1 # 4));
                         "label" := PInt 12 ]} ]))
           _ _ 12 ltac:(left) eq_refl ltac:(left)).
  - reflexivity.
  - reflexivity.
  - apply (bool_decide_unpack _). vm_compute. reflexivity.
Defined.

(** * Inference: one call of the model per chunk *)

Lemma no_inference_call_task state meta :
  pres (logs no_inference_call) (emit (EvTask state meta)).
Proof. now apply logs_emit. Qed.

Lemma no_inference_call_execute stmt : pres (logs no_inference_call) (execute stmt).
Proof. apply logs_execute. intros ok. reflexivity. Qed.

Lemma no_inference_call_select stmt :
  is_select stmt = true -> pres (logs no_inference_call) (execute stmt).
Proof. intros _. apply no_inference_call_execute. Qed.

#[global] Hint Resolve no_inference_call_task no_inference_call_select : core.

Lemma calls_by_logs calls w0 w w' :
  calls_by calls w0 w -> logs no_inference_call w w' -> calls_by calls w0 w'.
Proof.
  intros (e1 & He1 & Hc) (e2 & He2 & Hn). exists (e1 ++ e2).
  rewrite He2, He1, app_assoc. split; [reflexivity|].
  rewrite filter_app, Hc, (filter_none _ e2), app_nil_r; [reflexivity|].
  intros e He. rewrite Forall_forall in Hn. specialize (Hn e He). unfold no_inference_call in Hn.
  now rewrite Hn.
Qed.

Lemma calls_by_call calls w0 w stateDict batch :
  calls_by calls w0 w ->
  calls_by (calls ++ [EvAdapter (CallInference stateDict batch)]) w0
           (logged w (EvAdapter (CallInference stateDict batch))).
Proof.
  intros (e1 & He1 & Hc). exists (e1 ++ [EvAdapter (CallInference stateDict batch)]).
  cbn [logged w_events]. rewrite He1, app_assoc. split; [reflexivity|].
  now rewrite filter_app, Hc.
Qed.

(** A block that keeps [R] carries an invariant that [R] preserves. *)
Lemma wp_step_inv {A B} (I : World -> Prop) (R : World -> World -> Prop) w
    (m : M A) (k : A -> M B) (Q : result B -> World -> Prop) :
  I w -> pres R m ->
  (forall w1 w2, I w1 -> R w1 w2 -> I w2) ->
  (forall e w1, I w1 -> Q (Raise e) w1) ->
  (forall a w1, I w1 -> wp (k a) w1 Q) ->
  wp (bind m k) w Q.
Proof.
  intros Hi Hm HR Hraise Hok. apply wp_bind. unfold wp.
  specialize (Hm w). destruct (m w) as [[a|e] w1]; simpl in *.
  - apply Hok. eapply HR; eassumption.
  - apply Hraise. eapply HR; eassumption.
Qed.

Lemma process_chunk_calls FNa FNp project imageIDs epoch numEpochs modelInstance rankerInstance
    batchSizeLimit predType stateDict stateDictID nchunks idx batch calls w0 w :
  calls_by calls w0 w ->
  wp (process_chunk FNa FNp project imageIDs epoch numEpochs modelInstance rankerInstance
        batchSizeLimit predType stateDict stateDictID nchunks idx batch) w
     (fun r w' =>
        match r with
        | Ok _ => calls_by (calls ++ [EvAdapter (CallInference stateDict batch)]) w0 w'
        | Raise _ => calls_by calls w0 w' \/
                     calls_by (calls ++ [EvAdapter (CallInference stateDict batch)]) w0 w'
        end).
Proof.
  intros H0. set (R := logs no_inference_call).
  assert (HR0 : forall w1 w2, calls_by calls w0 w1 -> R w1 w2 -> calls_by calls w0 w2)
    by (intros; eapply calls_by_logs; eassumption).
  assert (HR1 : forall w1 w2,
            calls_by (calls ++ [EvAdapter (CallInference stateDict batch)]) w0 w1 ->
            R w1 w2 -> calls_by (calls ++ [EvAdapter (CallInference stateDict batch)]) w0 w2)
    by (intros; eapply calls_by_logs; eassumption).
  unfold process_chunk.
  apply wp_bind, wp_lift.
  destruct (py_mul idx batchSizeLimit) as [offset|e]; [|now left].
  eapply (wp_step_inv _ R); [exact H0|subst R; pres_block|exact HR0|intros; now left|].
  intros [] w1 H1.
  eapply (wp_step_inv _ R); [exact H1|subst R; pres_block|exact HR0|intros; now left|].
  intros data w2 H2.
  eapply (wp_step_inv _ R); [exact H2|subst R; pres_block|exact HR0|intros; now left|].
  intros [] w3 H3.
  apply wp_bind, wp_try_reraise, wp_bind, wp_emit.
  pose proof (calls_by_call _ _ _ stateDict batch H3) as H4.
  eapply (wp_pres R); [subst R; pres_block|]. intros r w5 Hl5.
  pose proof (HR1 _ _ H4 Hl5) as H5. destruct r as [result|e]; [|now right].
  eapply (wp_step_inv _ R); [exact H5| |exact HR1|intros; now right|].
  { destruct rankerInstance as [[[rank|]]|]; try (apply pres_ret; apply _).
    apply pres_seq; [apply _|subst R; pres_block|intros _].
    apply pres_try_reraise, pres_seq; [apply _|apply logs_emit; reflexivity|intros _].
    subst R; pres_block. }
  intros ranked w6 H6.
  eapply (wp_step_inv _ R); [exact H6| |exact HR1|intros; now right|].
  { apply pres_try_reraise. apply pres_seq; [apply _|subst R; pres_block|intros _].
    apply pres_seq; [apply _|apply pres_lift; apply _|intros fieldNames].
    apply pres_seq; [apply _|apply pres_lift; apply _|intros parsed]. apply pres_ret; apply _. }
  intros [fieldNames [values_pred values_img]] w7 H7.
  eapply (wp_pres R).
  { apply pres_try_reraise, pres_seq; [apply _| |intros _].
    - case_bool_decide; [apply pres_ret; apply _|].
      apply pres_seq; [apply _|apply no_inference_call_execute|intros _]. apply pres_ret; apply _.
    - case_bool_decide; [apply pres_ret; apply _|].
      apply pres_seq; [apply _|apply no_inference_call_execute|intros _]. apply pres_ret; apply _. }
  intros r w8 Hl8. pose proof (HR1 _ _ H7 Hl8) as H8. destruct r; [exact H8|now right].
Qed.

Lemma process_chunks_calls FNa FNp project imageIDs epoch numEpochs modelInstance rankerInstance
    batchSizeLimit predType stateDict stateDictID nchunks idx chunks calls w0 w :
  calls_by calls w0 w ->
  wp (process_chunks FNa FNp project imageIDs epoch numEpochs modelInstance rankerInstance
        batchSizeLimit predType stateDict stateDictID nchunks idx chunks) w
     (fun r w' =>
        match r with
        | Ok _ =>
            calls_by (calls ++ ((fun c => EvAdapter (CallInference stateDict c)) <$> chunks)) w0 w'
        | Raise _ =>
            exists k, calls_by (calls ++ ((fun c => EvAdapter (CallInference stateDict c))
                                            <$> take k chunks)) w0 w'
        end).
Proof.
  revert idx calls w. induction chunks as [|c chunks IH]; intros idx calls w H0; simpl.
  - apply wp_ret. now rewrite app_nil_r.
  - apply wp_bind. eapply wp_mono; [apply process_chunk_calls, H0|].
    intros [[]|e] w1 H1.
    + eapply wp_mono; [apply IH, H1|]. intros [[]|e] w2 H2; cbn beta iota in H2.
      * now rewrite <- app_assoc in H2.
      * destruct H2 as [k H2]. exists (S k). cbn [take fmap list_fmap]. now rewrite <- app_assoc in H2.
    + destruct H1 as [H1|H1]; [exists 0%nat|exists 1%nat]; cbn [take fmap list_fmap].
      * now rewrite app_nil_r.
      * now rewrite take_0.
Qed.

(** X17: one call of the model per chunk, in order.  When
    [_call_inference] returns, the model's [inference] was called exactly
    once for every chunk of image ids, in the order of the chunks, each time
    with the latest stored state of the library; when it raises, the calls
    made are those for the first chunks, up to the one that failed. *)
Theorem inference_calls_model_per_chunk FNa FNp project imageIDs epoch numEpochs
    modelInstance lib rankerInstance batchSizeLimit w :
  let r := _call_inference FNa FNp project imageIDs epoch numEpochs modelInstance lib
             rankerInstance batchSizeLimit w in
  let calls := (fun c => EvAdapter (CallInference (latest_statedict lib (w_store w)) c))
                 <$> imageID_chunks imageIDs batchSizeLimit in
  exists evs,
    w_events r.2 = w_events w ++ evs /\
    match r.1 with
    | Ok _ => filter is_inference_call evs = calls
    | Raise _ => exists k, filter is_inference_call evs = take k calls
    end.
Proof.
  cbv zeta.
  set (calls := (fun c => EvAdapter (CallInference (latest_statedict lib (w_store w)) c))
                  <$> imageID_chunks imageIDs batchSizeLimit).
  assert (Hwp : wp (_call_inference FNa FNp project imageIDs epoch numEpochs modelInstance lib
                      rankerInstance batchSizeLimit) w
                   (fun r w' => match r with
                                | Ok _ => calls_by calls w w'
                                | Raise _ => exists k, calls_by (take k calls) w w'
                                end)).
  { set (I := fun w1 => calls_by [] w w1 /\ w_store w1 = w_store w).
    set (R := quiet no_inference_call).
    assert (H0 : I w) by (split; [exists []; now rewrite app_nil_r|reflexivity]).
    assert (HR0 : forall w1 w2, I w1 -> R w1 w2 -> I w2).
    { intros w1 w2 [Hc Hs] [Hs' Hl]. split; [|congruence]. eapply calls_by_logs; eassumption. }
    assert (Hnone : forall (e : exn) w1, I w1 -> exists k, calls_by (take k calls) w w1)
      by (intros _ w1 [H1 _]; exists 0%nat; now rewrite take_0).
    unfold _call_inference.
    eapply (wp_step_inv _ R); [exact H0|apply quiet_select; [reflexivity|reflexivity]
                              |exact HR0|exact Hnone|].
    intros projectMeta w1 H1.
    eapply (wp_step_inv _ R); [exact H1|apply pres_lift; apply _|exact HR0|exact Hnone|].
    intros predType w2 H2.
    apply wp_bind, wp_on_message.
    apply wp_bind, wp_try_reraise, wp_load_model_state; intros _.
    { apply (Hnone (Exception "")). eapply HR0; [exact H2|].
      split; [reflexivity|]. apply logs_called; [|reflexivity].
      apply logs_logged; [reflexivity|reflexivity]. }
    cbn [logged w_store]. destruct H2 as [H2 Hs2]. rewrite Hs2. cbn beta iota.
    match goal with |- wp _ ?w3 _ => assert (H3 : calls_by [] w w3) end.
    { eapply calls_by_logs; [exact H2|]. apply logs_called; [|reflexivity].
      apply logs_logged; [reflexivity|reflexivity]. }
    apply wp_bind. eapply wp_mono; [apply process_chunks_calls, H3|].
    intros [[]|e] w4 H4; cbn [app] in H4;
      [|destruct H4 as [k H4]; exists k; subst calls; now rewrite <- fmap_take].
    apply wp_on_message. eapply calls_by_logs; [exact H4|].
    apply logs_logged; [reflexivity|reflexivity]. }
  unfold wp in Hwp.
  destruct (_call_inference _ _ _ _ _ _ _ _ _ _ w) as [[[]|e] w']; cbn [fst snd] in *.
  - destruct Hwp as (evs & He & Hc). now exists evs.
  - destruct Hwp as (k & evs & He & Hc). exists evs. split; [exact He|]. now exists k.
Qed.

(** X18: a model that cannot average.  When partial states are stored
    and the model has no [average_model_states], the routine raises the
    wrapped error: the tables are as they were, the model was not called,
    and the partial states stay for a later run. *)
Theorem average_without_capability project epoch numEpochs modelInstance lib w :
  average_model_states modelInstance = None ->
  partial_states lib (w_store w) <> [] ->
  let r := _call_average_model_states project epoch numEpochs modelInstance lib w in
  (exists msg, r.1 = Raise (Exception msg)) /\
  w_store r.2 = w_store w /\
  exists evs, w_events r.2 = w_events w ++ evs /\ Forall (fun e => is_adapter_call e = false) evs.
Proof.
  intros Hnone Hpart. cbv zeta.
  change (wp (_call_average_model_states project epoch numEpochs modelInstance lib) w
            (fun r w' =>
               (exists msg, r = Raise (Exception msg)) /\
               w_store w' = w_store w /\
               exists evs, w_events w' = w_events w ++ evs /\
                           Forall (fun e => is_adapter_call e = false) evs)).
  unfold _call_average_model_states.
  apply wp_bind, wp_on_message.
  apply wp_bind, wp_try_reraise, wp_execute; intros _.
  { split; [eauto|]. split; [reflexivity|]. eexists. cbn [w_events logged called].
    rewrite <- app_assoc. split; [reflexivity|]. repeat constructor. }
  cbn [sql fst snd logged w_store]. fold (partial_states lib (w_store w)).
  rewrite bool_decide_eq_false_2
    by (intros E; apply fmap_nil_inv in E; contradiction).
  apply wp_bind, wp_on_message.
  apply wp_bind, wp_try_reraise, wp_bind, wp_lift. rewrite Hnone.
  assert (Hend : forall msg,
            (exists msg0, @Raise unit (Exception msg) = Raise (Exception msg0)) /\
            w_store w = w_store w /\
            exists evs,
              w_events w ++ [EvTask "PREPARING"
                               (progress_meta project None 0 epoch numEpochs
                                  (Some (("[Epoch " +:+ fmt epoch +:+ "] ") +:+ "loading model states"))
                                  None None);
                             EvDb (SelectPartialStates lib) true;
                             EvTask "PREPARING"
                               (progress_meta project None 0 epoch numEpochs
                                  (Some (("[Epoch " +:+ fmt epoch +:+ "] ") +:+ "averaging models"))
                                  None None)]
              = w_events w ++ evs /\ Forall (fun e => is_adapter_call e = false) evs).
  { intros msg. split; [eauto|]. split; [reflexivity|]. eexists. split; [reflexivity|].
    repeat constructor. }
  destruct (mapM _ _) as [modelStates|e].
  - apply wp_raise. cbn [w_store w_events logged called]. rewrite <- !app_assoc. apply Hend.
  - cbn [w_store w_events logged called]. rewrite <- !app_assoc. apply Hend.
Qed.

Lemma average_without_capability_witness :
  let r := _call_average_model_states "proj" (Some 1) (Some 1) backtracking_model "L"
             partial_world in
  (exists msg, r.1 = Raise (Exception msg)) /\
  w_store r.2 = w_store partial_world /\
  exists evs, w_events r.2 = w_events partial_world ++ evs /\
              Forall (fun e => is_adapter_call e = false) evs.
Proof.
  apply (average_without_capability "proj" (Some 1) (Some 1) backtracking_model "L" partial_world).
  - reflexivity.
  - discriminate.
Defined.

(** * Inference: progress is reported against the whole run *)

Lemma global_progress_db N stmt ok : global_progress N (EvDb stmt ok).
Proof. intros d t [=]. Qed.

Lemma global_progress_adapter N c : global_progress N (EvAdapter c).
Proof. intros d t [=]. Qed.

Lemma global_progress_uncounted N project cum off epoch numEpochs state msg done total :
  done = None \/ total = None ->
  global_progress N (EvTask state (progress_meta project cum off epoch numEpochs msg done total)).
Proof.
  intros H d t Hd. exfalso. cbn in Hd. destruct H as [-> | ->]; [discriminate|].
  destruct done; discriminate.
Qed.

Lemma global_progress_counted N project off epoch numEpochs state msg d t :
  (0 <= off)%Q -> (0 <= d)%Q -> (d <= t)%Q -> (t + off <= inject_Z N)%Q ->
  global_progress N
    (EvTask state (progress_meta project (Some (inject_Z N)) off epoch numEpochs msg
                     (Some d) (Some t))).
Proof.
  intros Hoff Hd Hdt Ht d' t' Hd' Ht'. cbn [task_done task_total] in Hd', Ht'.
  destruct (progress_meta_counts project (Some (inject_Z N)) off epoch numEpochs msg d t)
    as [E1 E2].
  cbv zeta in E1, E2. rewrite E1 in Hd'. rewrite E2 in Ht'.
  injection Hd' as <-. injection Ht' as <-. unfold effective_total.
  destruct (Q.max_spec (t + off) (inject_Z N)) as [[H1 H2]|[H1 H2]];
  destruct (Q.min_spec (d + off) (Qmax (t + off) (inject_Z N))) as [[H3 H4]|[H3 H4]];
  destruct (Q.max_spec (Qmin (d + off) (Qmax (t + off) (inject_Z N)))
                       (Qmax (t + off) (inject_Z N))) as [[H5 H6]|[H5 H6]];
  repeat split; lra.
Qed.

Lemma pres_for_each_Forall (R : World -> World -> Prop) `{!PreOrder R} {A} (l : list A) body :
  Forall (fun x => pres R (body x)) l -> pres R (for_each l body).
Proof.
  induction 1 as [|x l Hx _ IH]; simpl; [apply pres_ret; apply _|].
  apply pres_seq; [apply _|exact Hx|intros _; exact IH].
Qed.

(** The model's progress calls reach the task as [global_progress] when
    each of them does. *)
Lemma run_adapter_global {A} N project cum off epoch numEpochs
    (out : list ProgressCall * result A) :
  Forall (fun c => global_progress N
                     (EvTask (pc_state c)
                        (progress_meta project cum off epoch numEpochs (pc_message c)
                           (pc_done c) (pc_total c)))) out.1 ->
  pres (logs (global_progress N)) (run_adapter (__get_message_fun project cum off epoch numEpochs) out).
Proof.
  intros H. unfold run_adapter. apply pres_seq; [apply _| |intros _; apply pres_lift; apply _].
  apply pres_for_each_Forall; [apply _|]. eapply Forall_impl; [exact H|].
  intros c Hc. apply logs_emit. exact Hc.
Qed.

Lemma size_list_to_set_le (l : list Z) : (size (list_to_set l : gset Z) <= length l)%nat.
Proof.
  induction l as [|x l IH]; [rewrite list_to_set_nil, size_empty; lia|].
  rewrite list_to_set_cons, size_union_alt, size_singleton. cbn [length].
  assert (Hsub : (list_to_set l ∖ {[x]} : gset Z) ⊆ list_to_set l)
    by (intros y Hy; now apply elem_of_difference in Hy as [Hy _]).
  apply subseteq_size in Hsub. lia.
Qed.

Lemma images_of_size (ids : list Z) rows :
  (size (images_of (filter (fun r => img_id r ∈ ids) rows)) <= length ids)%nat.
Proof.
  unfold size, odict_size. rewrite <- (size_dom (D := gset Z)).
  etransitivity; [apply subseteq_size|apply size_list_to_set_le].
  intros i Hi. apply elem_of_dom in Hi as [x Hx].
  change (images_of (filter (fun r => img_id r ∈ ids) rows) !! i = Some x) in Hx.
  rewrite images_of_lookup in Hx.
  destruct (decide (i ∈ ids)); [now apply elem_of_list_to_set|discriminate].
Qed.

(** The image dict of a chunk has at most as many entries as the chunk
    has ids. *)
Lemma load_metadata_images_size FNa project ids msg w data w' :
  try_reraise (__load_metadata FNa project (Some ids) false) msg w = (Ok data, w') ->
  (size (images data) <= length ids)%nat.
Proof.
  intros H.
  assert (Hwp : wp (__load_metadata FNa project (Some ids) false) w
                   (fun r _ => forall data, r = Ok data ->
                                            (size (images data) <= length ids)%nat)).
  { unfold __load_metadata. cbn [default andb].
    apply wp_bind, wp_execute; [intros _ d [=]|intros _]. cbn [sql fst snd].
    apply wp_bind, wp_lift. rewrite foldM_labels.
    apply wp_bind. case_bool_decide.
    - apply wp_ret, wp_bind, wp_ret, wp_ret. intros d [= <-]. cbn [images].
      unfold size, odict_size. cbn. rewrite map_size_empty. lia.
    - apply wp_bind, wp_execute; [intros _ d [=]|intros _]. cbn [sql fst snd called w_store].
      apply wp_lift. rewrite foldM_images. apply wp_bind, wp_ret, wp_ret.
      intros d [= <-]. cbn [images]. apply images_of_size. }
  unfold wp in Hwp. unfold try_reraise in H.
  destruct (__load_metadata FNa project (Some ids) false w) as [[d|e] w1]; [|discriminate].
  injection H as <- _. now apply Hwp.
Qed.

Lemma chunk_within (imageIDs : list Z) (n : Z) (i : nat) c :
  0 < n ->
  imageID_chunks imageIDs (Some n) !! i = Some c ->
  Z.of_nat i * n + len c <= len imageIDs.
Proof.
  intros Hn Hi. destruct imageIDs as [|x l].
  - unfold imageID_chunks in Hi. rewrite bool_decide_eq_true_2 in Hi by exact Hn.
    cbn in Hi. destruct i as [|i]; [|discriminate]. injection Hi as <-. cbn. lia.
  - destruct (imageID_chunks_partition (x :: l) n) as (_ & Hall & Hidx & _); [discriminate|exact Hn|].
    cbv zeta in Hall, Hidx. rewrite Forall_forall in Hall.
    destruct (Hall c (list_elem_of_lookup_2 _ _ _ Hi)) as [Hne _].
    pose proof (Hidx i c Hi) as Hc. 
    assert (Hlt : (i * Z.to_nat n < length (x :: l))%nat).
    { destruct (decide (i * Z.to_nat n < length (x :: l))%nat) as [|Hge]; [assumption|].
      exfalso. apply Hne. rewrite Hc, drop_ge by lia. now rewrite take_nil. }
    assert (Hlen : (length c <= length (x :: l) - i * Z.to_nat n)%nat).
    { rewrite Hc, length_take, length_drop. lia. }
    unfold len. 
    assert (E : Z.of_nat i * n = Z.of_nat (i * Z.to_nat n)) by (rewrite Nat2Z.inj_mul; f_equal; lia).
    rewrite E. lia.
Qed.

Lemma global_progress_plain N project cum off epoch numEpochs state msg :
  pres (logs (global_progress N))
       (__get_message_fun project cum off epoch numEpochs state msg None None).
Proof. apply logs_emit, global_progress_uncounted. now left. Qed.

Lemma global_progress_execute N stmt : pres (logs (global_progress N)) (execute stmt).
Proof. apply logs_execute. intros ok. apply global_progress_db. Qed.

Lemma global_progress_select N stmt :
  is_select stmt = true -> pres (logs (global_progress N)) (execute stmt).
Proof. intros _. apply global_progress_execute. Qed.

Section GlobalProgress.

Context (FNa FNp : FieldNames) (project : string) (imageIDs : list Z) (epoch numEpochs : option Z).
Context (modelInstance : ModelInstance) (rankerInstance : option RankerInstance) (n : Z).

Hypothesis model_counts : forall stateDict data c,
  c ∈ (inference modelInstance stateDict data).1 ->
  counted_within (inject_Z (Z.of_nat (size (images data)))) c.

Hypothesis ranker_counts : forall rank result stateDict c,
  rankerInstance = Some (mk_ranker (Some rank)) -> c ∈ (rank result stateDict).1 -> uncounted c.

Lemma process_chunk_global predType stateDict stateDictID nchunks (idx : nat) batch :
  Z.of_nat idx * n + len batch <= len imageIDs ->
  0 < n ->
  pres (logs (global_progress (len imageIDs)))
       (process_chunk FNa FNp project imageIDs epoch numEpochs modelInstance rankerInstance
          (Some n) predType stateDict stateDictID nchunks idx batch).
Proof.
  intros Hbound Hn. set (R := logs (global_progress (len imageIDs))).
  unfold process_chunk.
  apply (pres_bind R _ _ (fun offset => offset = Z.of_nat idx * n));
    [apply pres_lift; apply _|intros w a w' [= <- _]; reflexivity|intros offset ->].
  apply pres_seq; [apply _|apply global_progress_plain|intros _].
  apply (pres_bind R _ _ (fun data => (size (images data) <= length batch)%nat)).
  { apply pres_try_reraise, pres_load_metadata; [apply _|apply global_progress_select]. }
  { intros w data w' H. eapply load_metadata_images_size, H. }
  intros data Hsize.
  apply pres_seq; [apply _|apply global_progress_plain|intros _].
  apply pres_seq; [apply _| |intros result].
  { apply pres_try_reraise, pres_seq;
      [apply _|apply logs_emit, global_progress_adapter|intros _].
    apply run_adapter_global. apply Forall_forall. intros c Hc.
    pose proof (model_counts stateDict data c Hc) as Hcount.
    destruct (pc_done c) as [d|] eqn:Ed;
      [|apply global_progress_uncounted; now left].
    destruct (pc_total c) as [t|] eqn:Et;
      [|apply global_progress_uncounted; now right].
    destruct (Hcount d t Ed Et) as (H0 & Hdt & Ht).
    apply global_progress_counted; [|exact H0|exact Hdt|].
    - change 0%Q with (inject_Z 0). rewrite <- Zle_Qle. lia.
    - assert (Hz : (inject_Z (Z.of_nat (size (images data))) + inject_Z (Z.of_nat idx * n)
                    <= inject_Z (len imageIDs))%Q).
      { rewrite <- inject_Z_plus, <- Zle_Qle. unfold len in *. lia. }
      lra. }
  apply pres_seq; [apply _| |intros ranked].
  { destruct rankerInstance as [[[rank|]]|] eqn:Er; try (apply pres_ret; apply _).
    apply pres_seq; [apply _|apply global_progress_plain|intros _].
    apply pres_try_reraise, pres_seq;
      [apply _|apply logs_emit, global_progress_adapter|intros _].
    apply run_adapter_global. apply Forall_forall. intros c Hc.
    apply global_progress_uncounted. exact (ranker_counts rank result stateDict c eq_refl Hc). }
  apply pres_seq; [apply _| |intros [fieldNames [values_pred values_img]]].
  { apply pres_try_reraise, pres_seq; [apply _|apply global_progress_plain|intros _].
    apply pres_seq; [apply _|apply pres_lift; apply _|intros fieldNames].
    apply pres_seq; [apply _|apply pres_lift; apply _|intros parsed]. apply pres_ret; apply _. }
  apply pres_try_reraise, pres_seq; [apply _| |intros _].
  - case_bool_decide; [apply pres_ret; apply _|].
    apply pres_seq; [apply _|apply global_progress_execute|intros _]. apply pres_ret; apply _.
  - case_bool_decide; [apply pres_ret; apply _|].
    apply pres_seq; [apply _|apply global_progress_execute|intros _]. apply pres_ret; apply _.
Qed.

Lemma process_chunks_global predType stateDict stateDictID nchunks (idx : nat) chunks :
  (forall (j : nat) c, chunks !! j = Some c ->
                       Z.of_nat (idx + j) * n + len c <= len imageIDs) ->
  0 < n ->
  pres (logs (global_progress (len imageIDs)))
       (process_chunks FNa FNp project imageIDs epoch numEpochs modelInstance rankerInstance
          (Some n) predType stateDict stateDictID nchunks idx chunks).
Proof.
  intros Hbound Hn. revert idx Hbound. induction chunks as [|c chunks IH]; intros idx Hbound.
  - apply pres_ret; apply _.
  - cbn [process_chunks]. apply pres_seq; [apply _| |intros _].
    + apply process_chunk_global; [|exact Hn].
      specialize (Hbound 0%nat c eq_refl). now rewrite Nat.add_0_r in Hbound.
    + apply IH. intros j c' Hj. specialize (Hbound (S j) c' Hj).
      now replace (S idx + j)%nat with (idx + S j)%nat by lia.
Qed.

(** X19: progress during inference is reported against the whole run.
    Let the chunk size be positive, let the model report progress within
    the images it was handed (0 <= done <= total <= number of images in the
    metadata dict), and let the ranker report without counts.  Then every
    task update of an inference run that carries counts has [total] equal
    to the number of all image ids and [done] between 0 and [total],
    whichever chunk it comes from. *)
Theorem inference_progress_is_global lib w :
  0 < n ->
  logs (global_progress (len imageIDs)) w
       (_call_inference FNa FNp project imageIDs epoch numEpochs modelInstance lib
          rankerInstance (Some n) w).2.
Proof.
  intros Hn. revert w.
  change (pres (logs (global_progress (len imageIDs)))
               (_call_inference FNa FNp project imageIDs epoch numEpochs modelInstance lib
                  rankerInstance (Some n))).
  unfold _call_inference.
  apply pres_seq; [apply _|apply global_progress_execute|intros projectMeta].
  apply pres_seq; [apply _|apply pres_lift; apply _|intros predType].
  apply pres_seq; [apply _|apply global_progress_plain|intros _].
  apply pres_seq; [apply _| |intros [stateDict stateDictID]].
  { apply pres_try_reraise, pres_load_model_state; [apply _|apply global_progress_select]. }
  apply pres_seq; [apply _| |intros _; apply global_progress_plain].
  apply process_chunks_global; [|exact Hn].
  intros j c Hj. now apply chunk_within.
Qed.

End GlobalProgress.

Lemma inference_progress_is_global_witness :
  logs (global_progress (len ten_ids)) sample_world
       (_call_inference sample_annotation_fields sample_prediction_fields "proj" ten_ids
          (Some 1) (Some 1) counting_model "L" None (Some 4) sample_world).2.
Proof.
  apply (inference_progress_is_global sample_annotation_fields sample_prediction_fields "proj"
           ten_ids (Some 1) (Some 1) counting_model None 4).
  - intros stateDict data c Hc. cbn in Hc. apply list_elem_of_singleton in Hc as ->.
    intros d t [= <-] [= <-]. split; [|split].
    + change 0%Q with (inject_Z 0). rewrite <- Zle_Qle. lia.
    + apply Qle_refl.
    + apply Qle_refl.
  - intros rank result stateDict c [=].
  - lia.
Defined.

(** * Inference: what each chunk stores *)

Lemma wp_run_adapter_pres {A} (R : World -> World -> Prop) project cum offset epoch numEpochs
    (out : list ProgressCall * result A) w (Q : result A -> World -> Prop) :
  pres R (run_adapter (__get_message_fun project cum offset epoch numEpochs) out) ->
  (forall w', R w w' -> Q out.2 w') ->
  wp (run_adapter (__get_message_fun project cum offset epoch numEpochs) out) w Q.
Proof.
  intros Hp HQ. unfold wp. rewrite run_adapter_result. apply HQ, Hp.
Qed.

(** A [try] block that keeps [R] carries an invariant that [R] preserves;
    what it returned is known to the continuation. *)
Lemma wp_try_inv {A B} (I : World -> Prop) (R : World -> World -> Prop) w
    (m : M A) msg (k : A -> M B) (Q : result B -> World -> Prop) :
  I w -> pres R m ->
  (forall w1 w2, I w1 -> R w1 w2 -> I w2) ->
  (forall e w1, I w1 -> Q (Raise e) w1) ->
  (forall a w1, I w1 -> m w = (Ok a, w1) -> wp (k a) w1 Q) ->
  wp (bind (try_reraise m msg) k) w Q.
Proof.
  intros Hi Hm HR Hraise Hok. apply wp_bind, wp_try_reraise. unfold wp.
  specialize (Hm w). destruct (m w) as [[a|e] w1] eqn:E; simpl in *.
  - apply Hok; [eapply HR; eassumption|reflexivity].
  - apply Hraise. eapply HR; eassumption.
Qed.

Lemma no_mark_task state meta : pres (quiet no_mark) (emit (EvTask state meta)).
Proof. now apply quiet_emit. Qed.

Lemma no_mark_select stmt : is_select stmt = true -> pres (quiet no_mark) (execute stmt).
Proof.
  intros Hs. apply quiet_select; [|exact Hs]. intros ok. destruct stmt; try discriminate; reflexivity.
Qed.

#[global] Hint Resolve no_mark_task no_mark_select : core.

Lemma filter_no_mark evs : Forall no_mark evs -> filter is_mark evs = [].
Proof.
  intros H. apply filter_none. intros e He. rewrite Forall_forall in H.
  specialize (H e He). unfold no_mark in H. now rewrite H.
Qed.

Section ChunkTraces.

Context (FNa FNp : FieldNames) (project : string) (imageIDs : list Z) (epoch numEpochs : option Z).
Context (modelInstance : ModelInstance) (rankerInstance : option RankerInstance).
Context (batchSizeLimit : option Z) (predType : string) (stateDict stateDictID : pyval).

Abbreviation chunk_values' :=
  (chunk_values FNa FNp project modelInstance rankerInstance predType stateDict stateDictID).
Abbreviation model_row' :=
  (model_row FNa FNp project modelInstance rankerInstance predType stateDict stateDictID).
Abbreviation chunk_stopped' :=
  (chunk_stopped FNa FNp project modelInstance rankerInstance predType stateDict stateDictID).
Abbreviation chunk_post' :=
  (chunk_post FNa FNp project modelInstance rankerInstance predType stateDict stateDictID).
Abbreviation chunks_post' :=
  (chunks_post FNa FNp project modelInstance rankerInstance predType stateDict stateDictID).

Lemma marked_quiet w marks w1 w2 : marked w marks w1 -> quiet no_mark w1 w2 -> marked w marks w2.
Proof.
  intros [Hs (e1 & He1 & Hm)] [Hs2 (e2 & He2 & Hn)]. split; [congruence|].
  exists (e1 ++ e2). rewrite He2, He1, app_assoc. split; [reflexivity|].
  now rewrite filter_app, Hm, (filter_no_mark e2), app_nil_r.
Qed.

Lemma marked_logged w marks w1 e : marked w marks w1 -> no_mark e -> marked w marks (logged w1 e).
Proof.
  intros H He. eapply marked_quiet; [exact H|]. apply quiet_logged; [reflexivity|exact He].
Qed.

Lemma marked_task w marks w1 state meta :
  marked w marks w1 -> marked w marks (logged w1 (EvTask state meta)).
Proof. intros H. now apply marked_logged. Qed.

Lemma marked_call w marks w1 e :
  marked w marks w1 -> is_mark e = true -> marked w (marks ++ [e]) (logged w1 e).
Proof.
  intros [Hs (evs & He & Hm)] Hmark. split; [exact Hs|]. exists (evs ++ [e]).
  cbn [logged w_events]. rewrite He, app_assoc. split; [reflexivity|].
  rewrite filter_app, Hm. f_equal. rewrite filter_cons_True by now rewrite Hmark.
  reflexivity.
Qed.

Lemma marked_raise w marks w1 batch e :
  marked w marks w1 -> chunk_stopped' batch (marks, []) -> chunk_post' w batch (Raise e) w1.
Proof.
  intros [Hs (evs & He & Hm)] Hstop. exists evs, []. rewrite Hs, app_nil_r, Hm.
  split; [exact He|]. split; [reflexivity|]. split; [constructor|exact Hstop].
Qed.

Lemma process_chunk_trace nchunks idx batch w :
  wp (process_chunk FNa FNp project imageIDs epoch numEpochs modelInstance rankerInstance
        batchSizeLimit predType stateDict stateDictID nchunks idx batch) w
     (chunk_post' w batch).
Proof.
  set (call := EvAdapter (CallInference stateDict batch)).
  assert (H0 : marked w [] w) by (split; [reflexivity|exists []; now rewrite app_nil_r]).
  unfold process_chunk.
  apply wp_bind, wp_lift.
  destruct (py_mul idx batchSizeLimit) as [offset|e]; [|apply (marked_raise w []); [assumption|now left]].
  apply wp_bind, wp_on_message.
  eapply (wp_try_inv (marked w []) (quiet no_mark));
    [apply marked_task; exact H0
    |apply pres_load_metadata; auto; apply _
    |apply marked_quiet|intros; apply (marked_raise w []); [assumption|now left]|].
  intros data w2 H2 Hdata.
  apply wp_bind, wp_on_message.
  apply wp_bind, wp_try_reraise, wp_bind, wp_emit.
  match goal with |- wp _ ?w3' _ => set (w3 := w3');
    assert (H3 : marked w [call] w3)
      by (apply (marked_call w []); [now apply marked_task|reflexivity]) end.
  apply (wp_run_adapter_pres (quiet no_mark)); [apply pres_run_adapter; auto; apply _|].
  intros w4 Hq4. pose proof (marked_quiet _ _ _ _ H3 Hq4) as H4.
  destruct (inference modelInstance stateDict data) as [calls [result_|e]] eqn:Einf;
    cbn [snd]; [|apply (marked_raise w [call]); [assumption|now right; left]].
  (* the ranking step *)
  apply wp_bind.
  eapply (wp_mono _ _ (fun r w5 => marked w [call] w5 /\
                                   forall ranked, r = Ok ranked ->
                                     ranked_by rankerInstance stateDict result_ ranked)).
  { unfold ranked_by. destruct rankerInstance as [[[rank|]]|];
      try (apply wp_ret; split; [exact H4|now intros ranked [= <-]]).
    apply wp_bind, wp_on_message, wp_try_reraise, wp_bind, wp_emit.
    apply (wp_run_adapter_pres (quiet no_mark)); [apply pres_run_adapter; auto; apply _|].
    intros w5 Hq5.
    assert (H5 : marked w [call] w5).
    { eapply marked_quiet; [|exact Hq5]. apply marked_logged; [|reflexivity].
      now apply marked_task. }
    destruct (rank result_ stateDict) as [calls' [ranked|e]]; cbn [snd];
      (split; [exact H5|]).
    - intros ranked' [= <-]. now exists calls'.
    - intros ranked' [=]. }
  intros [ranked|e] w5 [H5 Hr]; [|apply (marked_raise w [call]); [assumption|now right; left]].
  specialize (Hr ranked eq_refl).
  (* parsing *)
  apply wp_bind, wp_try_reraise, wp_bind, wp_on_message.
  match goal with |- wp _ ?w6' _ => set (w6 := w6');
    assert (H6 : marked w [call] w6) by (now apply marked_task) end.
  apply wp_bind, wp_lift. unfold getattr.
  destruct (FNp predType) as [base|] eqn:Eb; [|apply (marked_raise w [call]); [assumption|now right; left]].
  apply wp_bind, wp_lift.
  destruct (parse_result predType (base ++ ["image"; "cnnstate"]) stateDictID ranked)
    as [[values_pred values_img]|] eqn:Ep; [|apply (marked_raise w [call]); [assumption|now right; left]].
  apply wp_ret. cbn beta iota.
  assert (Hvals : chunk_values' batch (base ++ ["image"; "cnnstate"]) ranked values_pred).
  { eexists _, _, data, calls, result_, base, values_img. repeat split; eauto. }
  assert (Hrows : Forall model_row' (zip (base ++ ["image"; "cnnstate"]) <$> values_pred)).
  { apply Forall_forall. intros row (values & -> & Hin)%list_elem_of_fmap.
    exists batch, (base ++ ["image"; "cnnstate"]), ranked, values_pred, values. now repeat split. }
  destruct H6 as [Hs6 (evs6 & He6 & Hm6)].
  (* commit *)
  set (fieldNames := base ++ ["image"; "cnnstate"]) in *.
  assert (Hdone : forall (stored : bool) evs' (r : result unit) w',
            filter is_mark evs' = [] ->
            w_events w' = (w_events w6
                             ++ (if stored
                                 then [EvDb (InsertPredictions fieldNames values_pred) true]
                                 else [])) ++ evs' ->
            st_prediction (w_store w')
            = st_prediction (w_store w6)
                ++ (if stored then zip fieldNames <$> values_pred else []) ->
            (if stored then values_pred <> [] else values_pred = []) ->
            (stored = false -> r = Ok tt) ->
            chunk_post' w batch r w').
  { intros stored evs' r w' Hm' He' Hp' Hvp Hret.
    exists (evs6 ++ (if stored then [EvDb (InsertPredictions fieldNames values_pred) true]
                     else []) ++ evs'),
           (if stored then zip fieldNames <$> values_pred else []).
    rewrite He', He6, Hp', Hs6, <- !app_assoc.
    split; [reflexivity|]. split; [reflexivity|].
    split; [destruct stored; [exact Hrows|constructor]|].
    rewrite !filter_app, Hm6, Hm'.
    destruct stored.
    - destruct r.
      + exists fieldNames, ranked, values_pred. split; [exact Hvals|].
        cbn [fst snd]. rewrite bool_decide_eq_false_2 by exact Hvp. now split.
      + right; right. exists fieldNames, ranked, values_pred.
        split; [exact Hvals|]. split; [exact Hvp|]. now right.
    - rewrite (Hret eq_refl). exists fieldNames, ranked, values_pred. split; [exact Hvals|].
      cbn [fst snd]. rewrite bool_decide_eq_true_2 by exact Hvp. rewrite Hvp. now split. }
  apply wp_try_reraise, wp_bind.
  case_bool_decide as Hvp.
  - (* no tuple: no INSERT *)
    apply wp_ret. case_bool_decide.
    + apply wp_ret. apply (Hdone false []); [reflexivity|now rewrite !app_nil_r|
        now rewrite app_nil_r|exact Hvp|reflexivity].
    + apply wp_bind, wp_execute; intros _.
      * (* storing the feature vectors fails *)
        exists (evs6 ++ [EvDb (UpsertFeatureVectors values_img) false]), [].
        cbn [called w_events w_store]. rewrite He6, app_assoc, Hs6, app_nil_r.
        split; [reflexivity|]. split; [reflexivity|]. split; [constructor|].
        rewrite filter_app, Hm6. right; left. reflexivity.
      * apply wp_ret.
        apply (Hdone false [EvDb (UpsertFeatureVectors values_img) true]);
          [reflexivity|now rewrite app_nil_r|now rewrite app_nil_r|exact Hvp|reflexivity].
  - apply wp_bind, wp_execute; intros _.
    + (* the INSERT fails *)
      exists (evs6 ++ [EvDb (InsertPredictions fieldNames values_pred) false]), [].
      cbn [called w_events w_store]. rewrite He6, app_assoc, Hs6, app_nil_r.
      split; [reflexivity|]. split; [reflexivity|]. split; [constructor|].
      rewrite filter_app, Hm6. right; right. exists fieldNames, ranked, values_pred.
      split; [exact Hvals|]. split; [exact Hvp|]. now left.
    + apply wp_ret. case_bool_decide.
      * apply wp_ret. apply (Hdone true []); [reflexivity|now rewrite app_nil_r|reflexivity
                                             |exact Hvp|discriminate].
      * apply wp_bind, wp_execute; intros _.
        -- apply (Hdone true [EvDb (UpsertFeatureVectors values_img) false]);
             [reflexivity|reflexivity|reflexivity|exact Hvp|discriminate].
        -- apply wp_ret.
           apply (Hdone true [EvDb (UpsertFeatureVectors values_img) true]);
             [reflexivity|reflexivity|reflexivity|exact Hvp|discriminate].
Qed.

Lemma process_chunks_trace nchunks idx chunks w :
  wp (process_chunks FNa FNp project imageIDs epoch numEpochs modelInstance rankerInstance
        batchSizeLimit predType stateDict stateDictID nchunks idx chunks) w
     (chunks_post' w chunks).
Proof.
  revert idx w. induction chunks as [|batch chunks IH]; intros idx w.
  - apply wp_ret. exists [], []. rewrite !app_nil_r.
    split; [reflexivity|]. split; [reflexivity|]. split; [constructor|].
    exists []. split; [constructor|]. now split.
  - cbn [process_chunks]. apply wp_bind.
    eapply wp_mono; [apply process_chunk_trace|].
    intros [[]|e] w1 (evs1 & rows1 & He1 & Hr1 & Hm1 & Ht1).
    + eapply wp_mono; [apply IH|].
      intros r w2 (evs2 & rows2 & He2 & Hr2 & Hm2 & Ht2).
      exists (evs1 ++ evs2), (rows1 ++ rows2).
      rewrite He2, He1, Hr2, Hr1, <- !app_assoc.
      split; [reflexivity|]. split; [reflexivity|].
      split; [now apply Forall_app|].
      rewrite filter_app. destruct r as [[]|e].
      * destruct Ht2 as (per & Hper & Hev & Hrows). cbn [fst snd] in Hev, Hrows.
        exists ((filter is_mark evs1, rows1) :: per).
        split; [now constructor|]. cbn [fst snd fmap list_fmap concat].
        now rewrite Hev, Hrows.
      * destruct Ht2 as (pre & c & post & per & last & -> & Hper & Hlast & Hev & Hrows).
        cbn [fst snd] in Hev, Hrows.
        exists (batch :: pre), c, post, ((filter is_mark evs1, rows1) :: per), last.
        split; [reflexivity|]. split; [now constructor|]. split; [exact Hlast|].
        cbn [fst snd fmap list_fmap concat]. now rewrite Hev, Hrows, <- !app_assoc.
    + exists evs1, rows1. split; [exact He1|]. split; [exact Hr1|]. split; [exact Hm1|].
      exists [], batch, chunks, [], (filter is_mark evs1, rows1).
      split; [reflexivity|]. split; [constructor|]. split; [exact Ht1|]. now split.
Qed.

End ChunkTraces.

(** What a run of [_call_inference] adds to the log and to the prediction
    table. *)
Lemma inference_trace FNa FNp project imageIDs epoch numEpochs modelInstance lib
    rankerInstance batchSizeLimit w :
  let r := _call_inference FNa FNp project imageIDs epoch numEpochs modelInstance lib
             rankerInstance batchSizeLimit w in
  exists evs rows,
    w_events r.2 = w_events w ++ evs /\
    st_prediction (w_store r.2) = st_prediction (w_store w) ++ rows /\
    ((filter is_mark evs = [] /\ rows = [] /\ exists e, r.1 = Raise e) \/
     exists pr,
       st_project (w_store w) = Some pr /\
       Forall (model_row FNa FNp project modelInstance rankerInstance (pr_predictiontype pr)
                 (latest_statedict lib (w_store w)) (latest_id lib (w_store w))) rows /\
       chunks_trace FNa FNp project modelInstance rankerInstance (pr_predictiontype pr)
         (latest_statedict lib (w_store w)) (latest_id lib (w_store w))
         (imageID_chunks imageIDs batchSizeLimit) r.1 (filter is_mark evs, rows)).
Proof.
  cbv zeta.
  change (wp (_call_inference FNa FNp project imageIDs epoch numEpochs modelInstance lib
                rankerInstance batchSizeLimit) w
             (fun r w' =>
                exists evs rows,
                  w_events w' = w_events w ++ evs /\
                  st_prediction (w_store w') = st_prediction (w_store w) ++ rows /\
                  ((filter is_mark evs = [] /\ rows = [] /\ exists e, r = Raise e) \/
                   exists pr,
                     st_project (w_store w) = Some pr /\
                     Forall (model_row FNa FNp project modelInstance rankerInstance
                               (pr_predictiontype pr) (latest_statedict lib (w_store w))
                               (latest_id lib (w_store w))) rows /\
                     chunks_trace FNa FNp project modelInstance rankerInstance
                       (pr_predictiontype pr) (latest_statedict lib (w_store w))
                       (latest_id lib (w_store w))
                       (imageID_chunks imageIDs batchSizeLimit) r (filter is_mark evs, rows)))).
  assert (Hfin : forall e w1, marked w [] w1 ->
            exists evs rows,
              w_events w1 = w_events w ++ evs /\
              st_prediction (w_store w1) = st_prediction (w_store w) ++ rows /\
              ((filter is_mark evs = [] /\ rows = [] /\ exists e0, Raise e = @Raise unit e0) \/
               exists pr,
                 st_project (w_store w) = Some pr /\
                 Forall (model_row FNa FNp project modelInstance rankerInstance
                           (pr_predictiontype pr) (latest_statedict lib (w_store w))
                           (latest_id lib (w_store w))) rows /\
                 chunks_trace FNa FNp project modelInstance rankerInstance
                   (pr_predictiontype pr) (latest_statedict lib (w_store w))
                   (latest_id lib (w_store w))
                   (imageID_chunks imageIDs batchSizeLimit) (Raise e)
                   (filter is_mark evs, rows))).
  { intros e w1 [Hs (evs & He & Hm)]. exists evs, []. rewrite Hs, app_nil_r.
    split; [exact He|]. split; [reflexivity|]. left. split; [exact Hm|]. split; [reflexivity|].
    now exists e. }
  assert (H0 : marked w [] w) by (split; [reflexivity|exists []; now rewrite app_nil_r]).
  unfold _call_inference.
  apply wp_bind, wp_execute; intros _.
  { apply Hfin. apply (marked_quiet w [] w); [exact H0|].
    apply quiet_called; [reflexivity|reflexivity]. }
  cbn [sql fst snd].
  match goal with |- wp _ ?w1' _ => set (w1 := w1');
    assert (H1 : marked w [] w1)
      by (apply (marked_quiet w [] w); [exact H0|apply quiet_called; reflexivity]) end.
  apply wp_bind, wp_lift.
  destruct (st_project (w_store w)) as [pr|] eqn:Epr; [|now apply Hfin].
  cbn [first rbind]. unfold getitem. rewrite lookup_singleton_eq. cbn [rbind as_str].
  apply wp_bind, wp_on_message.
  apply wp_bind, wp_try_reraise, wp_load_model_state; intros _.
  { apply Hfin. eapply marked_quiet; [apply marked_task; exact H1|].
    apply quiet_called; reflexivity. }
  match goal with |- wp _ ?w2' _ => set (w2 := w2');
    assert (H2 : marked w [] w2)
      by (eapply marked_quiet; [apply marked_task; exact H1|apply quiet_called; reflexivity]) end.
  assert (Hs2 : w_store w2 = w_store w) by reflexivity.
  subst w1. cbn [logged called w_store].
  apply wp_bind. eapply wp_mono; [apply process_chunks_trace|].
  intros r w3 (evs3 & rows3 & He3 & Hr3 & Hm3 & Ht3).
  destruct H2 as [_ (evs2 & He2 & Hmk2)].
  assert (Hpost : forall w4 evs4, w_events w4 = w_events w3 ++ evs4 ->
            w_store w4 = w_store w3 -> filter is_mark evs4 = [] ->
            exists evs rows,
              w_events w4 = w_events w ++ evs /\
              st_prediction (w_store w4) = st_prediction (w_store w) ++ rows /\
              ((filter is_mark evs = [] /\ rows = [] /\ exists e0, r = Raise e0) \/
               exists pr0,
                 Some pr = Some pr0 /\
                 Forall (model_row FNa FNp project modelInstance rankerInstance
                           (pr_predictiontype pr0) (latest_statedict lib (w_store w))
                           (latest_id lib (w_store w))) rows /\
                 chunks_trace FNa FNp project modelInstance rankerInstance
                   (pr_predictiontype pr0) (latest_statedict lib (w_store w))
                   (latest_id lib (w_store w))
                   (imageID_chunks imageIDs batchSizeLimit) r (filter is_mark evs, rows))).
  { intros w4 evs4 He4 Hs4 Hm4. exists (evs2 ++ evs3 ++ evs4), rows3.
    rewrite He4, He3, He2, Hs4, Hr3, Hs2, <- !app_assoc.
    split; [reflexivity|]. split; [reflexivity|]. right. exists pr.
    split; [reflexivity|]. split; [exact Hm3|].
    rewrite !filter_app, Hmk2, Hm4, app_nil_r. exact Ht3. }
  destruct r as [[]|e].
  - apply wp_on_message. eapply Hpost; [reflexivity|reflexivity|reflexivity].
  - apply (Hpost w3 []); [now rewrite app_nil_r|reflexivity|reflexivity].
Qed.

(** * Chunks and their commits *)

(** C2, as the source has it: for a non-empty id list and a positive limit
    the chunks are a partition of the list (their concatenation is the
    list, each is non-empty and within the limit, chunk [i] is the stretch
    from position [i * limit], chunks of a repetition-free list are
    disjoint, only the last may be shorter); ten ids under a limit of 4
    give chunks of 4, 4 and 2.  Whatever the model, the ranker and the
    connector do, the calls of the model and the INSERTs into the
    prediction table that a run logs are, chunk after chunk in the order of
    the chunks, the call of the model on the chunk followed, when the
    chunk's result gave at least one tuple, by one INSERT with exactly the
    tuples of that chunk, which become its rows; a chunk without tuples has
    no INSERT; a run that raises has done so for the chunks before the one
    that raised.  Hence a run has no more INSERTs than chunks, and the
    sample detector's three chunks are committed by three INSERTs in chunk
    order. *)
Theorem chunking_partitions_and_commits_per_chunk (imageIDs : list Z) (limit : Z) :
  imageIDs <> [] -> 0 < limit ->
  let chunks := imageID_chunks imageIDs (Some limit) in
  (concat chunks = imageIDs /\
   Forall (fun c => c <> [] /\ len c <= limit) chunks /\
   (forall i c, chunks !! i = Some c ->
                c = take (Z.to_nat limit) (drop (i * Z.to_nat limit) imageIDs)) /\
   (NoDup imageIDs -> forall i j ci cj x, i <> j ->
      chunks !! i = Some ci -> chunks !! j = Some cj -> x ∈ ci -> x ∉ cj) /\
   (forall i c, (Datatypes.S i < length chunks)%nat -> chunks !! i = Some c -> len c = limit)) /\
  imageID_chunks [1; 2; 3; 4; 5; 6; 7; 8; 9; 10] (Some 4)
    = [[1; 2; 3; 4]; [5; 6; 7; 8]; [9; 10]] /\
  (forall FNa FNp project epoch numEpochs modelInstance lib rankerInstance w,
     let r := _call_inference FNa FNp project imageIDs epoch numEpochs modelInstance lib
                rankerInstance (Some limit) w in
     exists evs rows,
       w_events r.2 = w_events w ++ evs /\
       st_prediction (w_store r.2) = st_prediction (w_store w) ++ rows /\
       ((filter is_mark evs = [] /\ rows = [] /\ exists e, r.1 = Raise e) \/
        exists pr,
          st_project (w_store w) = Some pr /\
          chunks_trace FNa FNp project modelInstance rankerInstance (pr_predictiontype pr)
            (latest_statedict lib (w_store w)) (latest_id lib (w_store w))
            chunks r.1 (filter is_mark evs, rows))) /\
  (forall FNa FNp project epoch numEpochs modelInstance lib rankerInstance w,
     inserts_at_most (length chunks) w
       (_call_inference FNa FNp project imageIDs epoch numEpochs modelInstance lib
          rankerInstance (Some limit) w).2) /\
  (let r := _call_inference sample_annotation_fields sample_prediction_fields "proj"
              [1; 2; 3; 4; 5; 6; 7; 8; 9; 10] (Some 1) (Some 1) detecting_model "L" None
              (Some 4) sample_world in
   r.1 = Ok tt /\
   inserted_images <$> filter is_prediction_insert (w_events r.2)
     = [[Some (PInt 1); Some (PInt 2); Some (PInt 3); Some (PInt 4)];
        [Some (PInt 5); Some (PInt 6); Some (PInt 7); Some (PInt 8)];
        [Some (PInt 9); Some (PInt 10)]]).
Proof.
  intros Hne Hlim. cbv zeta. split; [now apply imageID_chunks_partition|].
  split; [reflexivity|]. split; [|split; [|vm_compute; split; reflexivity]].
  - intros.
    destruct (inference_trace FNa FNp project imageIDs epoch numEpochs modelInstance lib
                rankerInstance (Some limit) w) as (evs & rows & He & Hr & Hcase).
    exists evs, rows. split; [exact He|]. split; [exact Hr|].
    destruct Hcase as [Hpre|(pr & Hpr & _ & Htrace)]; [now left|right].
    exists pr. now split.
  - intros. apply inference_inserts_per_chunk.
Qed.

Lemma chunking_partitions_and_commits_per_chunk_witness :
  (concat (imageID_chunks ten_ids (Some 4))
     = ten_ids /\
   Forall (fun c => c <> [] /\ len c <= 4)
     (imageID_chunks ten_ids (Some 4)) /\
   (forall i c, imageID_chunks ten_ids (Some 4) !! i = Some c ->
                c = take (Z.to_nat 4) (drop (i * Z.to_nat 4) ten_ids)) /\
   (NoDup ten_ids -> forall i j ci cj x, i <> j ->
      imageID_chunks ten_ids (Some 4) !! i = Some ci ->
      imageID_chunks ten_ids (Some 4) !! j = Some cj ->
      x ∈ ci -> x ∉ cj) /\
   (forall i c,
      (Datatypes.S i < length (imageID_chunks ten_ids (Some 4%Z)))%nat ->
      imageID_chunks ten_ids (Some 4) !! i = Some c -> len c = 4)) /\
  imageID_chunks ten_ids (Some 4) = [[1; 2; 3; 4]; [5; 6; 7; 8]; [9; 10]] /\
  (forall FNa FNp project epoch numEpochs modelInstance lib rankerInstance w,
     let r := _call_inference FNa FNp project ten_ids epoch numEpochs modelInstance lib
                rankerInstance (Some 4) w in
     exists evs rows,
       w_events r.2 = w_events w ++ evs /\
       st_prediction (w_store r.2) = st_prediction (w_store w) ++ rows /\
       ((filter is_mark evs = [] /\ rows = [] /\ exists e, r.1 = Raise e) \/
        exists pr,
          st_project (w_store w) = Some pr /\
          chunks_trace FNa FNp project modelInstance rankerInstance (pr_predictiontype pr)
            (latest_statedict lib (w_store w)) (latest_id lib (w_store w))
            (imageID_chunks ten_ids (Some 4)) r.1 (filter is_mark evs, rows))) /\
  (forall FNa FNp project epoch numEpochs modelInstance lib rankerInstance w,
     inserts_at_most (length (imageID_chunks ten_ids (Some 4))) w
       (_call_inference FNa FNp project ten_ids epoch numEpochs
          modelInstance lib rankerInstance (Some 4) w).2) /\
  (let r := _call_inference sample_annotation_fields sample_prediction_fields "proj"
              ten_ids (Some 1) (Some 1) detecting_model "L" None
              (Some 4) sample_world in
   r.1 = Ok tt /\
   inserted_images <$> filter is_prediction_insert (w_events r.2)
     = [[Some (PInt 1); Some (PInt 2); Some (PInt 3); Some (PInt 4)];
        [Some (PInt 5); Some (PInt 6); Some (PInt 7); Some (PInt 8)];
        [Some (PInt 9); Some (PInt 10)]]).
Proof.
  apply (chunking_partitions_and_commits_per_chunk ten_ids 4).
  - discriminate.
  - lia.
Defined.

(** C2 as stated fails on the number of commits: a model that finds
    nothing leaves the three chunks without a single INSERT into the
    prediction table. *)
Lemma chunks_without_predictions_commit_nothing :
  let r := _call_inference sample_annotation_fields sample_prediction_fields "proj"
             [1; 2; 3; 4; 5; 6; 7; 8; 9; 10] (Some 1) (Some 1) silent_model "L" None
             (Some 4) sample_world in
  r.1 = Ok tt /\
  filter is_inference_call (w_events r.2)
    = [EvAdapter (CallInference (PBytes [1; 2]) [1; 2; 3; 4]);
       EvAdapter (CallInference (PBytes [1; 2]) [5; 6; 7; 8]);
       EvAdapter (CallInference (PBytes [1; 2]) [9; 10])] /\
  length (filter is_prediction_insert (w_events r.2)) <> 3%nat.
Proof. vm_compute. repeat split. discriminate. Qed.

(** * The rows of a segmentation project *)

Lemma model_row_first_label FNa FNp project modelInstance rankerInstance stateDict stateDictID
    row :
  model_row FNa FNp project modelInstance rankerInstance "segmentationMasks" stateDict
    stateDictID row ->
  first_label_row FNa FNp project modelInstance rankerInstance stateDict stateDictID row.
Proof.
  intros (batch & fieldNames & ranked & vp & values & Hvals & Hin & ->).
  pose proof Hvals as (w1 & w2 & data & calls & result_ & base & vi & _ & _ & _ & _ & _ & Hparse).
  destruct (parse_result_rows _ _ _ _ _ _ _ Hparse Hin) as (imgID & r & p & Hr & Hp & Hproj).
  destruct (project_prediction_fields _ _ _ _ _ _ _ Hproj) as (seg & Hseg & Hall).
  rewrite bool_decide_eq_true_2 in Hseg by reflexivity.
  destruct Hseg as (s & Henc & ->).
  destruct (encode_segmask_spec _ _ Henc) as (p0 & label & Hfirst & Hlabel & Hshape & Hmask).
  assert (Hs : s = mk_segmask (b64encode (ravel_uint8 label)) (seg_width s) (seg_height s))
    by (destruct s; cbn in *; now rewrite Hmask).
  rewrite Hs in Hall.
  exists batch, fieldNames, ranked, vp, imgID, r, p, p0, label, (seg_height s), (seg_width s),
         values.
  split; [exact Hvals|]. split; [exact Hr|]. split; [exact Hp|].
  split; [destruct (ir_predictions r); [discriminate|now injection Hfirst as ->]|].
  split; [exact Hlabel|]. split; [exact Hshape|]. split; [exact Hall|].
  split; [reflexivity|].
  repeat split; intros v Hv;
    pose proof (Forall2_zip_elem _ _ _ _ _ Hall Hv) as Hfv; cbn beta in Hfv;
    unfold field_value in Hfv;
    repeat (rewrite bool_decide_eq_false_2 in Hfv by discriminate);
    cbn in Hfv; now injection Hfv as <-.
Qed.

(** C8: in a project whose prediction type is [segmentationMasks], every
    row that [_call_inference] adds to the prediction table, whether the
    run returns or raises, belongs to a prediction of an image in the
    result the model returned for a chunk, and has as its width and height
    the shape of the label array of the first prediction of that image, and
    as its mask the base64 text of that array; the prediction's own width
    and height entries do not enter.  A run that returns has stored, chunk
    by chunk, a row for every tuple parsed from the chunk's result. *)
Theorem segmentation_rows_sized_by_first_label FNa FNp project imageIDs epoch numEpochs
    modelInstance lib rankerInstance batchSizeLimit w pr :
  st_project (w_store w) = Some pr ->
  pr_predictiontype pr = "segmentationMasks" ->
  let r := _call_inference FNa FNp project imageIDs epoch numEpochs modelInstance lib
             rankerInstance batchSizeLimit w in
  exists rows,
    st_prediction (w_store r.2) = st_prediction (w_store w) ++ rows /\
    Forall (first_label_row FNa FNp project modelInstance rankerInstance
              (latest_statedict lib (w_store w)) (latest_id lib (w_store w))) rows /\
    (r.1 = Ok tt ->
     exists per,
       Forall2 (chunk_trace FNa FNp project modelInstance rankerInstance "segmentationMasks"
                  (latest_statedict lib (w_store w)) (latest_id lib (w_store w)))
               (imageID_chunks imageIDs batchSizeLimit) per /\
       rows = concat per.*2).
Proof.
  intros Hpr Htype. cbv zeta.
  destruct (inference_trace FNa FNp project imageIDs epoch numEpochs modelInstance lib
              rankerInstance batchSizeLimit w) as (evs & rows & _ & Hrows & Hcase).
  exists rows. split; [exact Hrows|].
  destruct Hcase as [(_ & -> & e & He)|(pr' & Hpr' & Hall & Htrace)].
  { split; [constructor|]. rewrite He. discriminate. }
  rewrite Hpr in Hpr'. injection Hpr' as <-. rewrite Htype in Hall, Htrace. split.
  - eapply Forall_impl; [exact Hall|]. intros row. apply model_row_first_label.
  - intros Hok. rewrite Hok in Htrace. destruct Htrace as (per & Hper & _ & Hr).
    now exists per.
Qed.

Lemma segmentation_rows_sized_by_first_label_witness :
  let r := _call_inference sample_annotation_fields sample_prediction_fields "proj" [1; 2]
             (Some 1) (Some 1) segmenting_model "L" None (Some 4) segmentation_world in
  exists rows,
    st_prediction (w_store r.2) = st_prediction (w_store segmentation_world) ++ rows /\
    Forall (first_label_row sample_annotation_fields sample_prediction_fields "proj"
              segmenting_model None
              (latest_statedict "L" (w_store segmentation_world))
              (latest_id "L" (w_store segmentation_world))) rows /\
    (r.1 = Ok tt ->
     exists per,
       Forall2 (chunk_trace sample_annotation_fields sample_prediction_fields "proj"
                  segmenting_model None "segmentationMasks"
                  (latest_statedict "L" (w_store segmentation_world))
                  (latest_id "L" (w_store segmentation_world)))
               (imageID_chunks [1; 2] (Some 4)) per /\
       rows = concat per.*2).
Proof.
  apply (segmentation_rows_sized_by_first_label sample_annotation_fields
           sample_prediction_fields "proj" [1; 2] (Some 1) (Some 1) segmenting_model "L" None
           (Some 4) segmentation_world
           (mk_project "segmentationMasks" "segmentationMasks" (PStr "L") PNone));
    reflexivity.
Defined.

(** The rows of that run: the model's width 99 and height 77 are not
    stored; the 2 x 3 label map gives width 3 and height 2. *)
Lemma segmentation_rows_example :
  st_prediction (w_store (_call_inference sample_annotation_fields sample_prediction_fields
                            "proj" [1; 2] (Some 1) (Some 1) segmenting_model "L" None
                            (Some 4) segmentation_world).2)
    = [ [("segmentationmask", PStr "AQIDBAUG"); ("width", PInt 3); ("height", PInt 2);
         ("priority", PFloat (Fin (1 # 2))); ("image", PInt 1); ("cnnstate", PInt 100)];
        [("segmentationmask", PStr "AQIDBAUG"); ("width", PInt 3); ("height", PInt 2);
         ("priority", PFloat (Fin (1 # 2))); ("image", PInt 2); ("cnnstate", PInt 100)] ].
Proof. vm_compute. reflexivity. Qed.

(** C8 as stated fails for an image with more than one prediction: the
    row of the second prediction, whose own label array is 1 x 1 with the
    base64 text "Bw==", is stored with the width 3, the height 2 and the
    mask of the first prediction. *)
Lemma second_prediction_sized_by_first :
  let r := _call_inference sample_annotation_fields sample_prediction_fields "proj" [1]
             (Some 1) (Some 1) two_mask_model "L" None (Some 4) segmentation_world in
  r.1 = Ok tt /\
  st_prediction (w_store r.2)
    = [ [("segmentationmask", PStr "AQIDBAUG"); ("width", PInt 3); ("height", PInt 2);
         ("priority", PFloat (Fin (1 # 2))); ("image", PInt 1); ("cnnstate", PInt 100)];
        [("segmentationmask", PStr "AQIDBAUG"); ("width", PInt 3); ("height", PInt 2);
         ("priority", PFloat (Fin (1 # 4))); ("image", PInt 1); ("cnnstate", PInt 100)] ] /\
  small_mask !! "label" = Some (PArray [[7]]) /\
  shape2 (PArray [[7]]) = Ok (1, 1) /\
  b64encode (ravel_uint8 (PArray [[7]])) = "Bw==".
Proof. vm_compute. repeat split. Qed.

(** * The order of the metadata *)

Lemma foldl_insert_keys {A V} (key : A -> Z) (val : A -> V) rows (acc : odict V) :
  NoDup (key <$> rows) ->
  (forall c, c ∈ rows -> acc !! key c = None) ->
  od_keys (foldl (fun m c => <[ key c := val c ]> m) acc rows) = od_keys acc ++ (key <$> rows).
Proof.
  revert acc. induction rows as [|c rows IH]; intros acc Hnd Hnew.
  - cbn. now rewrite app_nil_r.
  - cbn [foldl fmap list_fmap] in *. apply NoDup_cons in Hnd as [Hc Hnd].
    rewrite IH; [|exact Hnd|].
    + unfold insert at 1, odict_insert. cbn [od_keys].
      pose proof (Hnew c ltac:(left)) as Hk. unfold lookup, odict_lookup in Hk. rewrite Hk.
      now rewrite <- app_assoc.
    + intros c' Hc'. rewrite od_lookup_insert_ne; [apply Hnew; now right|].
      intros E. apply Hc. rewrite E. apply list_elem_of_fmap. now exists c'.
Qed.

Lemma add_annotation_keys (m m' : odict ImageMeta) r :
  add_annotation m r = Ok m' -> od_keys m' = od_keys m.
Proof.
  unfold add_annotation. destruct (rbind (getitem r "image") as_int) as [i|]; [|discriminate].
  cbn [rbind]. destruct (m !! i) as [x|] eqn:Hx; [|discriminate].
  intros [= <-]. unfold insert, odict_insert. cbn [od_keys].
  unfold lookup, odict_lookup in Hx. now rewrite Hx.
Qed.

Lemma foldM_add_annotation_keys rows (m m' : odict ImageMeta) :
  foldM add_annotation rows m = Ok m' -> od_keys m' = od_keys m.
Proof.
  revert m. induction rows as [|r rows IH]; intros m; cbn [foldM].
  - now intros [= <-].
  - destruct (add_annotation m r) as [m1|] eqn:E; [|discriminate]. cbn [rbind].
    intros H. rewrite (IH _ H). exact (add_annotation_keys _ _ _ E).
Qed.

(** X20: the order in which the loaded metadata is walked.  When the ids
    of the label-class table and of the image table are keys of their
    tables and the load goes through as in X4, a loop over
    [data['labelClasses']] meets the classes in table order, and a loop over
    [data['images']] meets the requested images in the order of their rows
    in the image table, whatever the order of [imageIDs] and however the
    annotations are spread. *)
Theorem load_metadata_key_order FNa project ids w p fieldNames :
  ids <> [] ->
  (forall k, (k < 4)%nat -> (w_calls w + k)%nat ∉ w_faults w) ->
  st_project (w_store w) = Some p ->
  FNa (pr_annotationtype p) = Some fieldNames ->
  "image" ∉ fieldNames ->
  (forall a, a ∈ st_annotation (w_store w) -> an_image a ∈ ids ->
             exists r, r ∈ st_image (w_store w) /\ img_id r = an_image a) ->
  NoDup (lc_id <$> st_labelclass (w_store w)) ->
  NoDup (img_id <$> st_image (w_store w)) ->
  exists data w',
    __load_metadata FNa project (Some ids) true w = (Ok data, w') /\
    od_keys (labelClasses data) = lc_id <$> st_labelclass (w_store w) /\
    od_keys (images data)
    = img_id <$> filter (fun r => img_id r ∈ ids) (st_image (w_store w)).
Proof.
  intros Hids Hf Hp Hfn Himg Href Hlc Hid.
  rewrite (load_metadata_run FNa project ids w p fieldNames) by assumption.
  destruct (foldM_add_annotation fieldNames
              (filter (fun a => an_image a ∈ ids) (st_annotation (w_store w)))
              (images_of (filter (fun i => img_id i ∈ ids) (st_image (w_store w)))) Himg)
    as (m' & Hm' & _).
  { intros a [Ha Hin]%list_elem_of_filter. rewrite images_of_lookup.
    rewrite decide_True by exact Ha. destruct (Href a Hin Ha) as (r & Hr & Hri).
    apply fmap_is_Some, last_is_Some. intros E.
    eapply (filter_nil_not_elem_of _ _ r E); [exact Hri|exact Hr]. }
  rewrite Hm'. cbn [rbind]. eexists _, _. split; [reflexivity|].
  cbn [labelClasses images]. split.
  - unfold labels_of. rewrite foldl_insert_keys; [reflexivity|exact Hlc|].
    intros c _. apply od_lookup_empty.
  - rewrite (foldM_add_annotation_keys _ _ _ Hm'). unfold images_of.
    rewrite foldl_insert_keys; [reflexivity| |intros c _; apply od_lookup_empty].
    eapply sublist_NoDup; [exact Hid|apply fmap_sublist, sublist_filter].
Qed.

Lemma load_metadata_key_order_witness :
  exists data w',
    __load_metadata sample_annotation_fields "proj" (Some [3; 2]) true annotated_world
      = (Ok data, w') /\
    od_keys (labelClasses data) = lc_id <$> st_labelclass (w_store annotated_world) /\
    od_keys (images data)
    = img_id <$> filter (fun r => img_id r ∈ [3; 2]) (st_image (w_store annotated_world)).
Proof.
  apply (load_metadata_key_order sample_annotation_fields "proj" [3; 2] annotated_world
           sample_project ["label"; "x"; "y"; "width"; "height"]).
  - discriminate.
  - intros k _. simpl. apply not_elem_of_nil.
  - reflexivity.
  - reflexivity.
  - apply (bool_decide_unpack _). vm_compute. reflexivity.
  - intros a Ha _.
    assert (D : Forall (fun a => Exists (fun r => img_id r = an_image a)
                                   (st_image (w_store annotated_world)))
                       (st_annotation (w_store annotated_world)))
      by (apply (bool_decide_unpack _); vm_compute; reflexivity).
    rewrite Forall_forall in D. apply Exists_exists. now apply D.
  - apply (bool_decide_unpack _). vm_compute. reflexivity.
  - apply (bool_decide_unpack _). vm_compute. reflexivity.
Defined.

(** The keys of that load: the images 2 and 3 in table order, though
    image 3 was asked for first. *)
Lemma load_metadata_key_order_example :
  match (__load_metadata sample_annotation_fields "proj" (Some [3; 2]) true annotated_world).1 with
  | Ok data => od_keys (images data) = [2; 3]
  | Raise _ => False
  end.
Proof. vm_compute. reflexivity. Qed.
